(** * Hindsight memory plugin (extensions/hindsight-memory/index.ts)

    A shallow embedding of the plugin: the HTTP client of the remote memory
    store, the two tools ([hindsight_recall], [hindsight_retain]) and the two
    lifecycle hooks ([before_agent_start], [agent_end]).

    - JavaScript strings are sequences of UTF-16 code units, so [length],
      [slice] and [trim] count what the source counts.
    - JavaScript numbers are IEEE 754 binary64 values ([spec_float] with
      precision 53 and maximal exponent 1024).
    - Asynchronous code is sequential here: every [await] sits in a straight
      line of one handler, so a handler is a function from the world before
      the call to its completion and the world after it.  The world records
      the requests handed to [fetch] and the lines given to the logger.
    - The parsed body of a reply is a plain value.  The handlers that read
      a recall reply are written twice: over the type the client declares
      for it, and over a value of any shape (module [Raw]), the two agreeing
      on the replies of the declared type. *)

From Stdlib Require Import String Ascii DecimalString.
From Stdlib Require Import List NArith ZArith QArith Qround Qpower Bool Lia.
From Stdlib Require Import Floats.SpecFloat.
Import ListNotations.
Close Scope Q_scope.

Set Implicit Arguments.

(** ** JavaScript values and the built-ins the plugin calls *)

Module Js.

(** One UTF-16 code unit (0 .. 65535). *)
Definition code_unit := N.

Definition JsString := list code_unit.

(** An ASCII literal of the source as code units. *)
Definition lit (s : string) : JsString :=
  map N_of_ascii (list_ascii_of_string s).

Definition str_eq_dec : forall a b : JsString, {a = b} + {a <> b} :=
  list_eq_dec N.eq_dec.

Definition str_eqb (a b : JsString) : bool :=
  if str_eq_dec a b then true else false.

(** The line feed and the double quote of the source's literals. *)
Definition LF : JsString := [10%N].
Definition DQUOTE : JsString := [34%N].

(** Number::toString on a non-negative integer. *)
Definition decimal (n : N) : JsString :=
  lit (NilZero.string_of_uint (N.to_uint n)).

Definition decimal_nat (n : nat) : JsString := decimal (N.of_nat n).

(** WhiteSpace and LineTerminator code points of ECMAScript, the ones
    [String.prototype.trim] strips: TAB, LF, VT, FF, CR, SP, NBSP, U+1680,
    U+2000..U+200A, U+2028, U+2029, U+202F, U+205F, U+3000 and U+FEFF. *)
Definition is_white_space (c : code_unit) : bool :=
  ((9 <=? c) && (c <=? 13) || (c =? 32) || (c =? 160) || (c =? 5760)
   || (8192 <=? c) && (c <=? 8202) || (c =? 8232) || (c =? 8233)
   || (c =? 8239) || (c =? 8287) || (c =? 12288) || (c =? 65279))%N.

Fixpoint trimStart (s : JsString) : JsString :=
  match s with
  | [] => []
  | c :: s' => if is_white_space c then trimStart s' else s
  end.

Definition trimEnd (s : JsString) : JsString := rev (trimStart (rev s)).

(** [String.prototype.trim]. *)
Definition trim (s : JsString) : JsString := trimEnd (trimStart s).

(** [s.slice(0, n)] for a non-negative [n]. *)
Definition slice0 (n : nat) (s : JsString) : JsString := firstn n s.

(** [Array.prototype.join] on an array of strings. *)
Fixpoint join (sep : JsString) (l : list JsString) : JsString :=
  match l with
  | [] => []
  | [x] => x
  | x :: l' => x ++ sep ++ join sep l'
  end.

(** [Array.prototype.map] with the index passed to the callback. *)
Fixpoint mapi_from {A B : Type} (i : nat) (f : A -> nat -> B) (l : list A) : list B :=
  match l with
  | [] => []
  | x :: l' => f x i :: mapi_from (S i) f l'
  end.

Definition mapi {A B : Type} (f : A -> nat -> B) (l : list A) : list B :=
  mapi_from 0 f l.

(** binary64 *)
Definition float64 := spec_float.

Definition fmul (x y : float64) : float64 := SFmul 53 1024 x y.

(** The double of an integer literal. *)
Definition float_of_Z (z : Z) : float64 := binary_normalize 53 1024 z 0 false.

(** The double nearest to the decimal literal [n / 10^k] (what [JSON.parse]
    gives for it), for examples. *)
Definition float_of_decimal (n : Z) (k : nat) : float64 :=
  SFdiv 53 1024 (float_of_Z n) (float_of_Z (10 ^ Z.of_nat k)).

(** Plain data as the host and [JSON.parse] hand it over. *)
#[local] Unset Elimination Schemes.
Inductive JsVal : Type :=
| JUndefined
| JNull
| JBool (b : bool)
| JNum (x : float64)
| JStr (s : JsString)
| JArr (items : list JsVal)
| JObj (props : list (JsString * JsVal)).
#[local] Set Elimination Schemes.

(** ToBoolean *)
Definition truthy (v : JsVal) : bool :=
  match v with
  | JUndefined | JNull => false
  | JBool b => b
  | JNum (S754_zero _) | JNum S754_nan => false
  | JNum _ => true
  | JStr s => match s with [] => false | _ => true end
  | JArr _ | JObj _ => true
  end.

(** [typeof v === "object"] *)
Definition typeof_object (v : JsVal) : bool :=
  match v with
  | JNull | JArr _ | JObj _ => true
  | _ => false
  end.

Fixpoint assoc (k : JsString) (props : list (JsString * JsVal)) : option JsVal :=
  match props with
  | [] => None
  | (k', v) :: props' => if str_eq_dec k k' then Some v else assoc k props'
  end.

(** [v.k] on a value that is neither [null] nor [undefined], for a key [k]
    that no prototype defines ([role], [content], [type], [text],
    [memory_ids]): the own property of a plain object, [undefined]
    everywhere else. *)
Definition prop (v : JsVal) (k : JsString) : JsVal :=
  match v with
  | JObj props => match assoc k props with Some x => x | None => JUndefined end
  | _ => JUndefined
  end.

(** [k in v] on an object, for such a key. *)
Definition has_prop (k : JsString) (v : JsVal) : bool :=
  match v with
  | JObj props => match assoc k props with Some _ => true | None => false end
  | _ => false
  end.

(** [v === s] for a string literal [s]. *)
Definition strict_eq_str (v : JsVal) (s : JsString) : bool :=
  match v with
  | JStr t => str_eqb t s
  | _ => false
  end.

(** A thrown [Error] object. *)
Record JsError : Type := mkError { name : JsString; message : JsString }.

(** [new Error(msg)] *)
Definition Error (msg : JsString) : JsError := mkError (lit "Error") msg.

(** [String(err)], that is Error.prototype.toString. *)
Definition String_err (e : JsError) : JsString :=
  match name e, message e with
  | [], m => m
  | n, [] => n
  | n, m => n ++ lit ": " ++ m
  end.

(** What V8 throws on [null.k] and [undefined.k]; [what] is the word for
    the value. *)
Definition null_property_error (what k : JsString) : JsError :=
  mkError (lit "TypeError")
          (lit "Cannot read properties of " ++ what ++ lit " (reading '" ++ k ++ lit "')").

(** *** Number.prototype.toFixed(0)

    ECMAScript 21.1.3.3 with fractionDigits 0: a value that is not finite
    prints as Number::toString does; otherwise the sign is split off, and
    below 10^21 the digits are those of the integer [n] for which [n - x] is
    as close to zero as possible, the larger one when there are two.  From
    10^21 on the digits are Number::toString's, taken from the host. *)

(** The integer nearest to [m * 2^e], the larger one at a tie. *)
Definition nearest_integer (m : positive) (e : Z) : Z :=
  match e with
  | Z0 => Zpos m
  | Zpos p => Z.shiftl (Zpos m) (Zpos p)
  | Zneg p => Z.shiftr (Zpos m + Z.shiftl 1 (Zpos p - 1)) (Zpos p)
  end.

(** [10^21 <= m * 2^e] *)
Definition at_least_1e21 (m : positive) (e : Z) : bool :=
  match e with
  | Zneg p => (Z.shiftl (10 ^ 21) (Zpos p) <=? Zpos m)%Z
  | _ => (10 ^ 21 <=? Z.shiftl (Zpos m) e)%Z
  end.

Definition toFixed0 (Number_toString : float64 -> JsString) (x : float64) : JsString :=
  match x with
  | S754_nan => lit "NaN"
  | S754_infinity s => (if s then lit "-" else []) ++ lit "Infinity"
  | S754_zero _ => lit "0"
  | S754_finite s m e =>
      (if s then lit "-" else []) ++
      (if at_least_1e21 m e then Number_toString (S754_finite false m e)
       else decimal (Z.to_N (nearest_integer m e)))
  end.

End Js.

(** ** The host: network, clock, logger *)

Module Host.
Import Js.

(** What [fetch] is called with. *)
Record Request : Type := mkRequest {
  req_url : JsString;
  req_method : JsString;
  req_headers : list (JsString * JsString);
  req_body : option JsString
}.

(** A [Response] whose body parses to a [T] (the source casts the parsed
    body to the type its caller declares): [status], and what [text()] and
    [json()] resolve to, or the error they reject with. *)
Record Response (T : Type) : Type := mkResponse {
  status : N;
  text : JsError + JsString;
  json : JsError + T
}.

(** [response.ok]: the status is in 200..299. *)
Definition ok {T : Type} (r : Response T) : bool :=
  ((200 <=? status r) && (status r <=? 299))%N.

(** [fetch] rejects (transport failure) or resolves with a response. *)
Inductive FetchOutcome (T : Type) : Type :=
| Rejected (e : JsError)
| Resolved (r : Response T).
Arguments Rejected {T} e.
Arguments Resolved {T} r.

Inductive LogLevel : Type := Info | Warn.

(** What a handler leaves behind: the requests given to [fetch] and the
    lines given to [api.logger], both oldest first. *)
Record World : Type := mkWorld {
  sent : list Request;
  logged : list (LogLevel * JsString)
}.

(** [{ results: [...] }] of the recall endpoint, as the client types it.
    Nothing checks a reply against this type; the handlers over a reply of
    any shape are in the module [Raw] below, and on replies of this type
    they do what the handlers written over the type do. *)
Record RecallResult : Type := mkRecallResult {
  memory_id : JsString;
  content : JsString;
  score : float64;
  timestamp : option JsString
}.

Record RecallResponse : Type := mkRecallResponse {
  results : option (list RecallResult)
}.

(** Everything the plugin takes from its surroundings.  The remote store
    answers a request knowing the requests before it; the clock is read
    through [new Date().toISOString()]. *)
Record Env : Type := mkEnv {
  JSON_stringify : JsVal -> JsString;
  Number_toString : float64 -> JsString;
  Date_toISOString : list Request -> JsString;
  fetch_memories : list Request -> Request -> FetchOutcome JsVal;
  fetch_recall : list Request -> Request -> FetchOutcome RecallResponse
}.

(** How a call completes. *)
Inductive Completion (A : Type) : Type :=
| Normal (a : A)
| Throw (e : JsError).
Arguments Normal {A} a.
Arguments Throw {A} e.

Definition M (A : Type) : Type := World -> Completion A * World.

Definition ret {A : Type} (a : A) : M A := fun w => (Normal a, w).

Definition bind {A B : Type} (m : M A) (k : A -> M B) : M B :=
  fun w =>
    match m w with
    | (Normal a, w') => k a w'
    | (Throw e, w') => (Throw e, w')
    end.

Definition throw {A : Type} (e : JsError) : M A := fun w => (Throw e, w).

(** [try { m } catch (err) { h err }] *)
Definition try_catch {A : Type} (m : M A) (h : JsError -> M A) : M A :=
  fun w =>
    match m w with
    | (Normal a, w') => (Normal a, w')
    | (Throw e, w') => h e w'
    end.

Definition log (l : LogLevel) (line : JsString) : M unit :=
  fun w => (Normal tt, mkWorld (sent w) (logged w ++ [(l, line)])).

End Host.

Declare Scope js_scope.
Delimit Scope js_scope with js.
Notation "x <- m ;; k" := (Host.bind m (fun x => k))
  (at level 61, m at next level, right associativity) : js_scope.
Notation "m ;;; k" := (Host.bind m (fun _ => k))
  (at level 61, right associativity) : js_scope.

(** ** The client of the remote store (class HindsightClient) *)

Module Client.
Import Js Host.
Local Open Scope js_scope.

Record HindsightClient : Type := mkClient {
  baseUrl : JsString;
  bankId : JsString;
  apiKey : option JsString
}.

(** [options] of [retain] and of [recall]. *)
Record RetainOptions : Type := mkRetainOptions {
  context : option JsString;
  tags : option (list JsString)
}.

Record RecallOptions : Type := mkRecallOptions {
  maxTokens : option float64;
  recall_tags : option (list JsString)
}.

(** An optional string, and an optional array of strings, as values. *)
Definition of_opt_string (o : option JsString) : JsVal :=
  match o with Some s => JStr s | None => JUndefined end.

Definition of_opt_strings (o : option (list JsString)) : JsVal :=
  match o with Some l => JArr (map JStr l) | None => JUndefined end.

Section WithEnv.
Variable env : Env.

(** [await fetch(url, {method, headers, body})]: the request is on the wire
    whatever the outcome. *)
Definition fetch {T : Type} (net : list Request -> Request -> FetchOutcome T)
    (req : Request) : M (Response T) :=
  fun w =>
    let w' := mkWorld (sent w ++ [req]) (logged w) in
    match net (sent w) req with
    | Rejected e => (Throw e, w')
    | Resolved r => (Normal r, w')
    end.

(** [await response.text()] and [await response.json()] *)
Definition await {A : Type} (p : JsError + A) : M A :=
  match p with
  | inl e => throw e
  | inr a => ret a
  end.

(** [new Date().toISOString()] *)
Definition new_Date_toISOString : M JsString :=
  fun w => (Normal (Date_toISOString env (sent w)), w).

(** The [headers] object of [request]; [if (this.apiKey)] is ToBoolean of
    an optional string. *)
Definition request_headers (client : HindsightClient) : list (JsString * JsString) :=
  let headers := [(lit "Content-Type", lit "application/json")] in
  match apiKey client with
  | Some k =>
      if truthy (JStr k)
      then headers ++ [(lit "Authorization", lit "Bearer " ++ k)]
      else headers
  | None => headers
  end.

(** The argument of [fetch] in [request]. *)
Definition build_request (client : HindsightClient) (method path : JsString)
    (body : JsVal) : Request :=
  mkRequest (baseUrl client ++ path) method (request_headers client)
            (if truthy body then Some (JSON_stringify env body) else None).

(** [HindsightClient.request] *)
Definition request {T : Type} (net : list Request -> Request -> FetchOutcome T)
    (client : HindsightClient) (method path : JsString) (body : JsVal) : M T :=
  response <- fetch net (build_request client method path body) ;;
  if negb (ok response) then
    text <- await (text response) ;;
    throw (Error (lit "Hindsight API error (" ++ decimal (status response)
                  ++ lit "): " ++ text))
  else
    await (json response).

Definition memories_path (client : HindsightClient) : JsString :=
  lit "/v1/default/banks/" ++ bankId client ++ lit "/memories".

Definition recall_path (client : HindsightClient) : JsString :=
  lit "/v1/default/banks/" ++ bankId client ++ lit "/memories/recall".

(** The one item of a retain batch. *)
Definition retain_item (content : JsString) (options : option RetainOptions)
    (now : JsString) : JsVal :=
  JObj [ (lit "content", JStr content);
         (lit "context", of_opt_string (match options with Some o => context o | None => None end));
         (lit "tags", of_opt_strings (match options with Some o => tags o | None => None end));
         (lit "timestamp", JStr now) ].

Definition retain_body (content : JsString) (options : option RetainOptions)
    (now : JsString) : JsVal :=
  JObj [ (lit "items", JArr [ retain_item content options now ]) ].

(** [HindsightClient.retain] *)
Definition retain (client : HindsightClient) (content : JsString)
    (options : option RetainOptions) : M JsVal :=
  now <- new_Date_toISOString ;;
  request (fetch_memories env) client (lit "POST") (memories_path client)
          (retain_body content options now).

(** [options?.maxTokens ?? 2000] *)
Definition max_tokens_of (options : option RecallOptions) : float64 :=
  match options with
  | Some o => match maxTokens o with Some n => n | None => float_of_Z 2000 end
  | None => float_of_Z 2000
  end.

Definition recall_body (query : JsString) (options : option RecallOptions) : JsVal :=
  JObj [ (lit "query", JStr query);
         (lit "max_tokens", JNum (max_tokens_of options));
         (lit "budget", JStr (lit "mid"));
         (lit "tags", of_opt_strings (match options with Some o => recall_tags o | None => None end)) ].

(** [HindsightClient.recall] *)
Definition recall (client : HindsightClient) (query : JsString)
    (options : option RecallOptions) : M RecallResponse :=
  request (fetch_recall env) client (lit "POST") (recall_path client)
          (recall_body query options).

End WithEnv.
End Client.

(** ** The plugin: tools and lifecycle hooks (hindsightMemoryPlugin.register) *)

Module Plugin.
Import Js Host Client.
Local Open Scope js_scope.

Record PluginConfig : Type := mkConfig {
  cfg_baseUrl : JsString;
  cfg_bankId : JsString;
  cfg_apiKey : option JsString;
  autoRetain : bool;
  autoRecall : bool
}.

(** [{ type: "text", text }] *)
Record TextBlock : Type := mkTextBlock {
  block_type : JsString;
  block_text : JsString
}.

(** [{ id, content, score }] of the recall tool's details. *)
Record MemoryDetail : Type := mkMemoryDetail {
  detail_id : JsString;
  detail_content : JsString;
  detail_score : float64
}.

(** The [details] objects the tools build: [{count}] or [{count, memories}],
    [{action, memoryIds}], [{error}]. *)
Inductive Details : Type :=
| RecallDetails (count : nat) (memories : option (list MemoryDetail))
| RetainDetails (action : JsString) (memoryIds : JsVal)
| ErrorDetails (error : JsString).

Record ToolResult : Type := mkToolResult {
  result_content : list TextBlock;
  details : Details
}.

Record RecallParams : Type := mkRecallParams {
  query : JsString;
  param_maxTokens : option float64
}.

Record RetainParams : Type := mkRetainParams {
  param_content : JsString;
  param_context : option JsString;
  param_tags : option (list JsString)
}.

(** [{ prompt }] of before_agent_start and [{ success, messages }] of
    agent_end. *)
Record BeforeAgentStartEvent : Type := mkBeforeAgentStart {
  prompt : option JsString
}.

Record AgentEndEvent : Type := mkAgentEnd {
  success : bool;
  messages : option (list JsVal)
}.

Record BeforeAgentStartResult : Type := mkPrepend {
  prependContext : JsString
}.

(** [response.memory_ids]: a TypeError on [null] and [undefined]. *)
Definition member (v : JsVal) (k : JsString) : M JsVal :=
  match v with
  | JNull => throw (null_property_error (lit "null") k)
  | JUndefined => throw (null_property_error (lit "undefined") k)
  | _ => ret (prop v k)
  end.

Section WithClient.
Variable env : Env.
Variable client : HindsightClient.

(** One line of the recall tool's list:
    [`${i + 1}. ${r.content} (relevance: ${(r.score * 100).toFixed(0)}%)`] *)
Definition recall_line (r : RecallResult) (i : nat) : JsString :=
  decimal_nat (i + 1) ++ lit ". " ++ content r ++ lit " (relevance: "
  ++ toFixed0 (Number_toString env) (fmul (score r) (float_of_Z 100)) ++ lit "%)".

(** [execute] of the tool hindsight_recall *)
Definition hindsight_recall (params : RecallParams) : M ToolResult :=
  try_catch
    (response <- recall env client (query params)
                   (Some (mkRecallOptions (param_maxTokens params) None)) ;;
     match results response with
     | None | Some [] =>
         ret (mkToolResult
                [mkTextBlock (lit "text") (lit "No relevant memories found.")]
                (RecallDetails 0 None))
     | Some rs =>
         let text := join (LF ++ LF) (mapi recall_line rs) in
         ret (mkToolResult
                [mkTextBlock (lit "text")
                   (lit "Found " ++ decimal_nat (length rs) ++ lit " memories:"
                    ++ LF ++ LF ++ text)]
                (RecallDetails (length rs)
                   (Some (map (fun r => mkMemoryDetail (memory_id r) (content r) (score r)) rs))))
     end)
    (fun err =>
       log Warn (lit "hindsight_recall failed: " ++ String_err err) ;;;
       ret (mkToolResult
              [mkTextBlock (lit "text") (lit "Memory recall failed: " ++ String_err err)]
              (ErrorDetails (String_err err)))).

(** [execute] of the tool hindsight_retain *)
Definition hindsight_retain (params : RetainParams) : M ToolResult :=
  let content := param_content params in
  try_catch
    (response <- retain env client content
                   (Some (mkRetainOptions (param_context params) (param_tags params))) ;;
     memory_ids <- member response (lit "memory_ids") ;;
     ret (mkToolResult
            [mkTextBlock (lit "text")
               (lit "Stored in memory: " ++ DQUOTE ++ slice0 100 content
                ++ (if 100 <? length content then lit "..." else []) ++ DQUOTE)]
            (RetainDetails (lit "created") memory_ids)))
    (fun err =>
       log Warn (lit "hindsight_retain failed: " ++ String_err err) ;;;
       ret (mkToolResult
              [mkTextBlock (lit "text") (lit "Failed to store memory: " ++ String_err err)]
              (ErrorDetails (String_err err)))).

(** The handler of before_agent_start (auto-recall). *)
Definition before_agent_start (event : BeforeAgentStartEvent)
    : M (option BeforeAgentStartResult) :=
  match prompt event with
  | None => ret None
  | Some p =>
      if negb (truthy (JStr p)) || (length p <? 10) then ret None
      else
        try_catch
          (response <- recall env client p
                         (Some (mkRecallOptions (Some (float_of_Z 1500)) None)) ;;
           match results response with
           | None | Some [] => ret None
           | Some rs =>
               let memoryContext :=
                 join LF (map (fun r => lit "- " ++ content r) (firstn 5 rs)) in
               log Info (lit "hindsight-memory: injecting " ++ decimal_nat (length rs)
                         ++ lit " memories into context") ;;;
               ret (Some (mkPrepend
                            (lit "<relevant-memories>" ++ LF
                             ++ lit "The following memories may be relevant:" ++ LF
                             ++ memoryContext ++ LF ++ lit "</relevant-memories>")))
           end)
          (fun err =>
             log Warn (lit "hindsight-memory: auto-recall failed: " ++ String_err err) ;;;
             ret None)
  end.

(** [if (typeof text === "string" && text.trim().length > 10)
       toRetain.push(text.trim())] *)
Definition push_text (toRetain : list JsString) (text : JsVal) : list JsString :=
  match text with
  | JStr s => if 10 <? length (trim s) then toRetain ++ [trim s] else toRetain
  | _ => toRetain
  end.

(** The body of [for (const block of content)]. *)
Definition scan_block (toRetain : list JsString) (block : JsVal) : list JsString :=
  if truthy block && typeof_object block && has_prop (lit "type") block
     && strict_eq_str (prop block (lit "type")) (lit "text")
     && has_prop (lit "text") block
  then push_text toRetain (prop block (lit "text"))
  else toRetain.

(** The body of [for (const msg of event.messages)]. *)
Definition scan_message (toRetain : list JsString) (msg : JsVal) : list JsString :=
  if negb (truthy msg) || negb (typeof_object msg) then toRetain
  else
    let role := prop msg (lit "role") in
    if negb (strict_eq_str role (lit "user")) then toRetain
    else
      match prop msg (lit "content") with
      | JStr s => push_text toRetain (JStr s)
      | JArr blocks => fold_left scan_block blocks toRetain
      | _ => toRetain
      end.

(** [toRetain] after the extraction loop. *)
Definition extract (msgs : list JsVal) : list JsString :=
  fold_left scan_message msgs [].

Definition auto_options : RetainOptions :=
  mkRetainOptions (Some (lit "auto-captured from conversation"))
                  (Some [lit "conversation"; lit "auto"]).

(** [for (const content of toRetain.slice(0, 5)) { await client.retain(...);
    retained++; }], from [retained] on. *)
Fixpoint retain_each (l : list JsString) (retained : nat) : M nat :=
  match l with
  | [] => ret retained
  | content :: l' =>
      retain env client content (Some auto_options) ;;;
      retain_each l' (S retained)
  end.

(** The handler of agent_end (auto-retain). *)
Definition agent_end (event : AgentEndEvent) : M unit :=
  match messages event with
  | None => ret tt
  | Some msgs =>
      if negb (success event) || (length msgs =? 0) then ret tt
      else
        try_catch
          (let toRetain := extract msgs in
           retained <- retain_each (firstn 5 toRetain) 0 ;;
           if 0 <? retained
           then log Info (lit "hindsight-memory: auto-retained " ++ decimal_nat retained
                          ++ lit " messages")
           else ret tt)
          (fun err =>
             log Warn (lit "hindsight-memory: auto-retain failed: " ++ String_err err))
  end.

End WithClient.

(** What [register] hands to the host. *)
Record Registered : Type := mkRegistered {
  tool_hindsight_recall : RecallParams -> M ToolResult;
  tool_hindsight_retain : RetainParams -> M ToolResult;
  on_before_agent_start : option (BeforeAgentStartEvent -> M (option BeforeAgentStartResult));
  on_agent_end : option (AgentEndEvent -> M unit)
}.

(** [register(api)]: the hooks are wired only when their switch is on.
    (The service registered last only logs on start and stop.) *)
Definition register (env : Env) (cfg : PluginConfig) : M Registered :=
  let client := mkClient (cfg_baseUrl cfg) (cfg_bankId cfg) (cfg_apiKey cfg) in
  log Info (lit "hindsight-memory: registered (bank: " ++ cfg_bankId cfg
            ++ lit ", url: " ++ cfg_baseUrl cfg ++ lit ")") ;;;
  ret (mkRegistered
         (hindsight_recall env client)
         (hindsight_retain env client)
         (if autoRecall cfg then Some (before_agent_start env client) else None)
         (if autoRetain cfg then Some (agent_end env client) else None)).

End Plugin.

(** ** Vocabulary of the specification *)

Module Spec.
Import Js Host Client Plugin.

(** The world after one more request, and after one more log line. *)
Definition after_send (w : World) (req : Request) : World :=
  mkWorld (sent w ++ [req]) (logged w).

Definition after_log (w : World) (l : LogLevel) (line : JsString) : World :=
  mkWorld (sent w) (logged w ++ [(l, line)]).

(** The error of section 4.1: status code and raw body text. *)
Definition RemoteServiceError (status : N) (body : JsString) : JsError :=
  Error (lit "Hindsight API error (" ++ decimal status ++ lit "): " ++ body).

(** How one exchange with the store ends for the client: a transport
    failure, a status outside 200..299, an unreadable body, or the parsed
    body. *)
Definition settle {T : Type} (o : FetchOutcome T) : Completion T :=
  match o with
  | Rejected e => Throw e
  | Resolved r =>
      if ((status r <? 200) || (299 <? status r))%N then
        match text r with
        | inl e => Throw e
        | inr body => Throw (RemoteServiceError (status r) body)
        end
      else
        match json r with
        | inl e => Throw e
        | inr v => Normal v
        end
  end.

(** The creation request of section 6 for one memory item. *)
Definition retain_request (env : Env) (client : HindsightClient)
    (content : JsString) (options : option RetainOptions) (now : JsString) : Request :=
  mkRequest (baseUrl client ++ lit "/v1/default/banks/" ++ bankId client ++ lit "/memories")
            (lit "POST") (request_headers client)
            (Some (JSON_stringify env (retain_body content options now))).

(** The search request of section 6. *)
Definition recall_request (env : Env) (client : HindsightClient)
    (query : JsString) (options : option RecallOptions) : Request :=
  mkRequest (baseUrl client ++ lit "/v1/default/banks/" ++ bankId client
             ++ lit "/memories/recall")
            (lit "POST") (request_headers client)
            (Some (JSON_stringify env (recall_body query options))).

(** The value of a header, if the request carries it. *)
Fixpoint header (k : JsString) (hs : list (JsString * JsString)) : option JsString :=
  match hs with
  | [] => None
  | (k', v) :: hs' => if str_eq_dec k k' then Some v else header k hs'
  end.

(** The request each tool and the auto-recall hook start with. *)
Definition recall_tool_request (env : Env) (client : HindsightClient)
    (params : RecallParams) : Request :=
  recall_request env client (query params)
                 (Some (mkRecallOptions (param_maxTokens params) None)).

Definition retain_tool_request (env : Env) (client : HindsightClient)
    (params : RetainParams) (w : World) : Request :=
  retain_request env client (param_content params)
                 (Some (mkRetainOptions (param_context params) (param_tags params)))
                 (Date_toISOString env (sent w)).

Definition auto_recall_request (env : Env) (client : HindsightClient)
    (p : JsString) : Request :=
  recall_request env client p (Some (mkRecallOptions (Some (float_of_Z 1500)) None)).

(** Section 4.2, limiting: [r] is a creation request for the text [c],
    tagged "conversation" and "auto", with the context string of automatic
    capture and some timestamp. *)
Definition auto_request (env : Env) (client : HindsightClient)
    (r : Request) (c : JsString) : Prop :=
  exists now,
    r = retain_request env client c
          (Some (mkRetainOptions (Some (lit "auto-captured from conversation"))
                                 (Some [lit "conversation"; lit "auto"])))
          now.

(** Section 4.1 as it is written: a request carries an Authorization
    header if and only if a credential is configured. *)
Definition bearer_iff_configured (client : HindsightClient) (r : Request) : Prop :=
  (exists v, header (lit "Authorization") (req_headers r) = Some v)
  <-> apiKey client <> None.

(** Section 4.2, extraction.  A message is considered when its role is
    "user"; its candidate texts are its content when that is a plain
    string, and the text of every block of type "text" when it is a
    sequence of blocks; a candidate is kept when its trimmed length exceeds
    10, and what is kept is the trimmed text. *)
Definition is_user (msg : JsVal) : bool :=
  strict_eq_str (prop msg (lit "role")) (lit "user").

Definition block_texts (block : JsVal) : list JsString :=
  if strict_eq_str (prop block (lit "type")) (lit "text") then
    match prop block (lit "text") with
    | JStr t => [t]
    | _ => []
    end
  else [].

Definition candidate_texts (msg : JsVal) : list JsString :=
  match prop msg (lit "content") with
  | JStr s => [s]
  | JArr blocks => flat_map block_texts blocks
  | _ => []
  end.

Definition long_enough (text : JsString) : bool := 10 <? length (trim text).

Definition raw_candidates (msgs : list JsVal) : list JsString :=
  filter long_enough (flat_map candidate_texts (filter is_user msgs)).

Definition candidates (msgs : list JsVal) : list JsString :=
  map trim (raw_candidates msgs).

(** The store accepts every creation request: a 2xx status with a body
    that parses. *)
Definition store_accepts (env : Env) : Prop :=
  forall h req, exists v, settle (fetch_memories env h req) = Normal v.

(** [l] is the beginning of [l']. *)
Definition prefix_of {A : Type} (l l' : list A) : Prop :=
  exists rest, l' = l ++ rest.

(** The exact value of a finite double. *)
Definition float_value (x : float64) : Q :=
  match x with
  | S754_finite s m e =>
      ((if s then -1 else 1) * inject_Z (Zpos m) * Qpower 2 e)%Q
  | _ => 0%Q
  end.

(** round: the nearest integer, halves upwards. *)
Definition round (q : Q) : Z := Qfloor (q + (1 # 2))%Q.

(** A score as section 3 has it: a double in [0, 1]. *)
Definition unit_score (s : float64) : bool :=
  valid_binary 53 1024 s
  && SFleb (S754_zero false) s && SFleb s (float_of_Z 1).

(** The doubles [toFixed(0)] prints digit by digit: the zeros and the
    positive values below 10^21. *)
Definition printable (x : float64) : Prop :=
  match x with
  | S754_zero _ => True
  | S754_finite sx m e => sx = false /\ at_least_1e21 m e = false
  | _ => False
  end.

(** Section 4.3, tool path, as it is written: the score times 100,
    rounded; the product is that of the score's value. *)
Definition exact_percent (score : float64) : JsString :=
  decimal (Z.to_N (round (float_value score * 100)%Q)).

(** The same with the product taken in binary64: the IEEE 754 product
    (round to nearest, ties to even) of the score and the double 100. *)
Definition percent (score : float64) : JsString :=
  decimal (Z.to_N (round (float_value
                            (SFmul 53 1024 score (binary_normalize 53 1024 100 0 false))))).

(** "{index}. {content} (relevance: {score*100 rounded}%)", in the one
    reading and in the other. *)
Definition rounded_entry (index : nat) (r : RecallResult) : JsString :=
  decimal_nat index ++ lit ". " ++ content r ++ lit " (relevance: "
  ++ exact_percent (score r) ++ lit "%)".

Definition numbered_entry (index : nat) (r : RecallResult) : JsString :=
  decimal_nat index ++ lit ". " ++ content r ++ lit " (relevance: "
  ++ percent (score r) ++ lit "%)".

(** Section 4.3, hook path, and section 6: one bullet line per memory. *)
Definition bullet_line (r : RecallResult) : JsString :=
  lit "- " ++ content r ++ LF.

(** The response type [{success, items_count}] the client declares for
    [retain]. *)
Definition retain_contract (v : JsVal) : Prop :=
  exists b n, v = JObj [(lit "success", JBool b); (lit "items_count", JNum n)].

Definition nullish (v : JsVal) : bool :=
  match v with
  | JNull | JUndefined => true
  | _ => false
  end.

End Spec.

(** ** Concrete hosts, clients and events *)

Module Samples.
Import Js Host Client Plugin Spec.

Definition w0 : World := mkWorld [] [].

(** The default configuration: no credential. *)
Definition client : HindsightClient :=
  mkClient (lit "http://localhost:8001") (lit "aletheia") None.

(** A credential that is configured and empty. *)
Definition client_empty_key : HindsightClient :=
  mkClient (lit "http://localhost:8001") (lit "aletheia") (Some []).

Definition client_with_key : HindsightClient :=
  mkClient (lit "http://localhost:8001") (lit "aletheia") (Some (lit "s3cret")).

Definition created : JsVal :=
  JObj [(lit "success", JBool true); (lit "items_count", JNum (float_of_Z 1))].

Definition dark_mode : RecallResult :=
  mkRecallResult (lit "m1") (lit "User prefers dark mode") (float_of_decimal 9 1) None.

Definition uses_vim : RecallResult :=
  mkRecallResult (lit "m2") (lit "User edits with vim") (float_of_decimal 6 1) None.

Definition clock (h : list Request) : JsString :=
  lit "2026-01-01T00:00:0" ++ decimal_nat (length h) ++ lit ".000Z".

(** A store that accepts every item and recalls two memories. *)
Definition env_ok : Env :=
  mkEnv (fun _ => lit "{}") (fun _ => lit "1e+21") clock
        (fun _ _ => Resolved (mkResponse 200 (inr (lit "{}")) (inr created)))
        (fun _ _ => Resolved (mkResponse 200 (inr (lit "{}"))
                      (inr (mkRecallResponse (Some [dark_mode; uses_vim]))))).

(** A store that answers 500 "db down" to everything. *)
Definition db_down (T : Type) : FetchOutcome T :=
  Resolved (mkResponse 500 (inr (lit "db down"))
              (inl (mkError (lit "SyntaxError") (lit "Unexpected token d"))) : Response T).

Definition env_down : Env :=
  mkEnv (fun _ => lit "{}") (fun _ => lit "1e+21") clock
        (fun _ _ => db_down JsVal) (fun _ _ => db_down RecallResponse).

(** A store that accepts two items and is down from the third on. *)
Definition env_flaky : Env :=
  mkEnv (fun _ => lit "{}") (fun _ => lit "1e+21") clock
        (fun h _ => if length h <? 2
                    then Resolved (mkResponse 200 (inr (lit "{}")) (inr created))
                    else db_down JsVal)
        (fun _ _ => db_down RecallResponse).

Definition user_says (s : string) : JsVal :=
  JObj [(lit "role", JStr (lit "user")); (lit "content", JStr (lit s))].

Definition assistant_says (s : string) : JsVal :=
  JObj [(lit "role", JStr (lit "assistant")); (lit "content", JStr (lit s))].

Definition user_blocks (l : list JsVal) : JsVal :=
  JObj [(lit "role", JStr (lit "user")); (lit "content", JArr l)].

Definition text_block (s : string) : JsVal :=
  JObj [(lit "type", JStr (lit "text")); (lit "text", JStr (lit s))].

(** Seven candidates' worth of conversation: padded text, an assistant
    reply, a short message, blocks, and junk. *)
Definition conversation : list JsVal :=
  [ user_says "   I prefer dark mode in every editor   ";
    assistant_says "Noted, dark mode everywhere.";
    user_says "thanks";
    user_blocks [ text_block "My deploy target is staging";
                  JObj [(lit "type", JStr (lit "image"))];
                  text_block "ok" ];
    JNull;
    user_says "Please remember my name is Ada";
    user_says "I work in the Berlin office";
    user_says "My editor of choice is vim";
    user_says "I never deploy on Fridays" ].

Definition ten_spaces : JsString := repeat 32%N 10.

End Samples.

(** ** Configuration and registration (configSchema, register, the service) *)

Module Registration.
Import Js Host Client Plugin.
Local Open Scope js_scope.

(** zod's [z.string().default(d)]: [undefined] gives the default, a string
    is kept, anything else (also [null]) is an issue. *)
Definition string_default (d : JsString) (v : JsVal) : option JsString :=
  match v with
  | JUndefined => Some d
  | JStr s => Some s
  | _ => None
  end.

(** [z.string().optional()] *)
Definition string_optional (v : JsVal) : option (option JsString) :=
  match v with
  | JUndefined => Some None
  | JStr s => Some (Some s)
  | _ => None
  end.

(** [z.boolean().default(d)] *)
Definition boolean_default (d : bool) (v : JsVal) : option bool :=
  match v with
  | JUndefined => Some d
  | JBool b => Some b
  | _ => None
  end.

(** [configSchema.parse(input)]: [None] stands for the ZodError it throws.
    The input of [z.object] has to be an object that is neither [null] nor
    an array; each key of the schema is read off it and validated; keys
    the schema does not name are dropped. *)
Definition configSchema_parse (input : JsVal) : option PluginConfig :=
  match input with
  | JObj _ =>
      match string_default (lit "http://localhost:8001") (prop input (lit "baseUrl")),
            string_default (lit "aletheia") (prop input (lit "bankId")),
            string_optional (prop input (lit "apiKey")),
            boolean_default true (prop input (lit "autoRetain")),
            boolean_default false (prop input (lit "autoRecall")) with
      | Some url, Some bank, Some key, Some retain, Some recall =>
          Some (mkConfig url bank key retain recall)
      | _, _, _, _, _ => None
      end
  | _ => None
  end.

(** A configuration written out as the object a user would give. *)
Definition config_object (cfg : PluginConfig) : JsVal :=
  JObj ([ (lit "baseUrl", JStr (cfg_baseUrl cfg));
          (lit "bankId", JStr (cfg_bankId cfg)) ]
        ++ match cfg_apiKey cfg with
           | Some k => [(lit "apiKey", JStr k)]
           | None => []
           end
        ++ [ (lit "autoRetain", JBool (autoRetain cfg));
             (lit "autoRecall", JBool (autoRecall cfg)) ]).

(** The keys of the schema. *)
Definition schema_key (k : JsString) : bool :=
  str_eqb k (lit "baseUrl") || str_eqb k (lit "bankId") || str_eqb k (lit "apiKey")
  || str_eqb k (lit "autoRetain") || str_eqb k (lit "autoRecall").

(** [`${b}`] for a boolean. *)
Definition String_bool (b : bool) : JsString :=
  if b then lit "true" else lit "false".

(** The object given to [api.registerService]. *)
Record Service : Type := mkService {
  service_id : JsString;
  start : M unit;
  stop : M unit
}.

Definition hindsight_service (cfg : PluginConfig) : Service :=
  mkService (lit "hindsight-memory")
    (log Info (lit "hindsight-memory: started (bank: " ++ cfg_bankId cfg
               ++ lit ", autoRetain: " ++ String_bool (autoRetain cfg)
               ++ lit ", autoRecall: " ++ String_bool (autoRecall cfg) ++ lit ")"))
    (log Info (lit "hindsight-memory: stopped")).

(** The client [register] builds from the configuration. *)
Definition client_of (cfg : PluginConfig) : HindsightClient :=
  mkClient (cfg_baseUrl cfg) (cfg_bankId cfg) (cfg_apiKey cfg).

Section WithHost.
Variable env : Env.

(** The error zod builds for an input that does not validate. *)
Variable ZodError : JsVal -> JsError.

(** [register(api)] from [api.pluginConfig] on: the configuration is
    parsed first, then everything is registered. *)
Definition register_api (pluginConfig : JsVal) : M (Registered * Service) :=
  match configSchema_parse pluginConfig with
  | None => throw (ZodError pluginConfig)
  | Some cfg =>
      registered <- register env cfg ;;
      ret (registered, hindsight_service cfg)
  end.

End WithHost.
End Registration.

(** ** Vocabulary for whole runs *)

Module Traces.
Import Js Host Client Plugin Spec.

(** The requests of an auto-retain pass for the texts [cs] when none
    fails: each is stamped with the clock as it stands after the requests
    before it. *)
Fixpoint stamped_requests (env : Env) (client : HindsightClient)
    (h : list Request) (cs : list JsString) : list Request :=
  match cs with
  | [] => []
  | c :: cs' =>
      let r := retain_request env client c (Some auto_options) (Date_toISOString env h) in
      r :: stamped_requests env client (h ++ [r]) cs'
  end.

(** A POST with the client's headers to the bank's memories, and to its
    recall endpoint. *)
Definition store_request (client : HindsightClient) (r : Request) : Prop :=
  req_url r = baseUrl client ++ lit "/v1/default/banks/" ++ bankId client ++ lit "/memories"
  /\ req_method r = lit "POST"
  /\ req_headers r = request_headers client.

Definition search_request (client : HindsightClient) (r : Request) : Prop :=
  req_url r = baseUrl client ++ lit "/v1/default/banks/" ++ bankId client
              ++ lit "/memories/recall"
  /\ req_method r = lit "POST"
  /\ req_headers r = request_headers client.

(** What a handler added to the world: the requests, and the log lines. *)
Definition added (w w' : World) (rs : list Request) (ls : list (LogLevel * JsString)) : Prop :=
  sent w' = sent w ++ rs /\ logged w' = logged w ++ ls.

(** A text without white space at either end. *)
Definition unpadded (s : JsString) : Prop :=
  match s with
  | [] => True
  | c :: _ => is_white_space c = false /\ is_white_space (last s c) = false
  end.

(** The info line of a completed auto-retain pass: none for no item. *)
Definition retained_line (k : nat) : list (LogLevel * JsString) :=
  match k with
  | 0 => []
  | _ => [(Info, lit "hindsight-memory: auto-retained " ++ decimal_nat k ++ lit " messages")]
  end.

End Traces.

(** ** The recall reply as it comes

    The client casts the parsed body of a recall to the type it declares;
    nothing checks it.  Here the handlers that read a recall reply are
    written over the parsed body as a plain value, whatever its shape, with
    the conversions JavaScript applies on the way. *)

Module Raw.
Import Js Host Client Plugin.
Local Open Scope js_scope.

(** What V8 throws on a call of something that is no function. *)
Definition not_a_function (callee : JsString) : JsError :=
  mkError (lit "TypeError") (callee ++ lit " is not a function").

(** ToString, as a template literal applies it; an array prints its
    elements separated by commas, [null] and [undefined] among them as
    nothing. *)
Fixpoint ToString (Number_toString : float64 -> JsString) (v : JsVal) : JsString :=
  match v with
  | JUndefined => lit "undefined"
  | JNull => lit "null"
  | JBool b => if b then lit "true" else lit "false"
  | JNum x => Number_toString x
  | JStr s => s
  | JArr items =>
      (fix join_items (l : list JsVal) : JsString :=
         match l with
         | [] => []
         | x :: l' =>
             match x with
             | JUndefined | JNull => []
             | _ => ToString Number_toString x
             end
             ++ match l' with
                | [] => []
                | _ => lit "," ++ join_items l'
                end
         end) items
  | JObj _ => lit "[object Object]"
  end.

(** ToNumber, as [*] applies it; the number a string stands for is the
    host's to tell. *)
Definition ToNumber (Number_toString : float64 -> JsString)
    (StringToNumber : JsString -> float64) (v : JsVal) : float64 :=
  match v with
  | JUndefined => S754_nan
  | JNull => S754_zero false
  | JBool b => if b then float_of_Z 1 else S754_zero false
  | JNum x => x
  | JStr s => StringToNumber s
  | JArr _ | JObj _ => StringToNumber (ToString Number_toString v)
  end.

(** [v.length === 0] on a value that is neither [null] nor [undefined]:
    an array and a string have their length, a plain object has it as an
    own property if at all, a boolean and a number have none. *)
Definition length_is_zero (v : JsVal) : bool :=
  match v with
  | JArr items => match items with [] => true | _ => false end
  | JStr s => match s with [] => true | _ => false end
  | JObj _ => match prop v (lit "length") with JNum (S754_zero _) => true | _ => false end
  | _ => false
  end.

(** [v.k] in an expression: a TypeError on [null] and [undefined]. *)
Definition get (v : JsVal) (k : JsString) : Completion JsVal :=
  match v with
  | JNull => Throw (null_property_error (lit "null") k)
  | JUndefined => Throw (null_property_error (lit "undefined") k)
  | _ => Normal (prop v k)
  end.

(** A computation that touches neither network nor log. *)
Definition complete {A : Type} (c : Completion A) : M A := fun w => (c, w).

(** [Array.prototype.map] with a callback that may throw: the first throw
    ends the loop. *)
Fixpoint map_from {A : Type} (f : JsVal -> nat -> Completion A) (i : nat)
    (l : list JsVal) : Completion (list A) :=
  match l with
  | [] => Normal []
  | x :: l' =>
      match f x i with
      | Throw e => Throw e
      | Normal a =>
          match map_from f (S i) l' with
          | Throw e => Throw e
          | Normal t => Normal (a :: t)
          end
      end
  end.

(** [{ id, content, score }] of the recall tool's details, each member as
    it is read off the result. *)
Record RawMemory : Type := mkRawMemory {
  raw_id : JsVal;
  raw_memory_content : JsVal;
  raw_score : JsVal
}.

(** The [details] of the recall tool: [{count}], [{count, memories}] or
    [{error}]. *)
Inductive RawDetails : Type :=
| RawCount (count : nat) (memories : option (list RawMemory))
| RawError (error : JsString).

Record RawToolResult : Type := mkRawToolResult {
  raw_content : list TextBlock;
  raw_details : RawDetails
}.

Section WithHost.
Variable env : Env.

(** The recall endpoint, its body parsed and not yet cast. *)
Variable net : list Request -> Request -> FetchOutcome JsVal.

(** StringToNumber of the host. *)
Variable StringToNumber : JsString -> float64.

Variable client : HindsightClient.

(** [HindsightClient.recall] *)
Definition recall_raw (query : JsString) (options : option RecallOptions) : M JsVal :=
  request env net client (lit "POST") (recall_path client) (recall_body query options).

(** [`${i + 1}. ${r.content} (relevance: ${(r.score * 100).toFixed(0)}%)`] *)
Definition recall_line_raw (r : JsVal) (i : nat) : Completion JsString :=
  match get r (lit "content") with
  | Throw e => Throw e
  | Normal content =>
      Normal (decimal_nat (i + 1) ++ lit ". " ++ ToString (Number_toString env) content
              ++ lit " (relevance: "
              ++ toFixed0 (Number_toString env)
                   (fmul (ToNumber (Number_toString env) StringToNumber
                                   (prop r (lit "score")))
                         (float_of_Z 100))
              ++ lit "%)")
  end.

(** The [try] block of the recall tool once the reply is there: it reads
    the reply and builds the result, touching neither network nor log. *)
Definition listing (response : JsVal) : Completion RawToolResult :=
  match get response (lit "results") with
  | Throw e => Throw e
  | Normal results =>
      if negb (truthy results) || length_is_zero results then
        Normal (mkRawToolResult
                  [mkTextBlock (lit "text") (lit "No relevant memories found.")]
                  (RawCount 0 None))
      else
        match results with
        | JArr items =>
            match map_from recall_line_raw 0 items with
            | Throw e => Throw e
            | Normal lines =>
                Normal (mkRawToolResult
                          [mkTextBlock (lit "text")
                             (lit "Found " ++ decimal_nat (length items) ++ lit " memories:"
                              ++ LF ++ LF ++ join (LF ++ LF) lines)]
                          (RawCount (length items)
                             (Some (map (fun r => mkRawMemory (prop r (lit "memory_id"))
                                                              (prop r (lit "content"))
                                                              (prop r (lit "score")))
                                        items))))
            end
        | _ => Throw (not_a_function (lit "response.results.map"))
        end
  end.

(** [execute] of the tool hindsight_recall *)
Definition hindsight_recall_raw (params : RecallParams) : M RawToolResult :=
  try_catch
    (response <- recall_raw (query params)
                   (Some (mkRecallOptions (param_maxTokens params) None)) ;;
     complete (listing response))
    (fun err =>
       log Warn (lit "hindsight_recall failed: " ++ String_err err) ;;;
       ret (mkRawToolResult
              [mkTextBlock (lit "text") (lit "Memory recall failed: " ++ String_err err)]
              (RawError (String_err err)))).

(** [(r) => `- ${r.content}`] *)
Definition bullet_raw (r : JsVal) (i : nat) : Completion JsString :=
  match get r (lit "content") with
  | Throw e => Throw e
  | Normal content => Normal (lit "- " ++ ToString (Number_toString env) content)
  end.

(** The handler of before_agent_start (auto-recall). *)
Definition before_agent_start_raw (event : BeforeAgentStartEvent)
    : M (option BeforeAgentStartResult) :=
  match prompt event with
  | None => ret None
  | Some p =>
      if negb (truthy (JStr p)) || (length p <? 10) then ret None
      else
        try_catch
          (response <- recall_raw p (Some (mkRecallOptions (Some (float_of_Z 1500)) None)) ;;
           results <- member response (lit "results") ;;
           if negb (truthy results) || length_is_zero results then ret None
           else
             match results with
             | JArr items =>
                 lines <- complete (map_from bullet_raw 0 (firstn 5 items)) ;;
                 log Info (lit "hindsight-memory: injecting " ++ decimal_nat (length items)
                           ++ lit " memories into context") ;;;
                 ret (Some (mkPrepend
                              (lit "<relevant-memories>" ++ LF
                               ++ lit "The following memories may be relevant:" ++ LF
                               ++ join LF lines ++ LF ++ lit "</relevant-memories>")))
             | JStr _ => throw (not_a_function (lit "response.results.slice(...).map"))
             | _ => throw (not_a_function (lit "response.results.slice"))
             end)
          (fun err =>
             log Warn (lit "hindsight-memory: auto-recall failed: " ++ String_err err) ;;;
             ret None)
  end.

End WithHost.





End Raw.

(** ** Requests and replies of the specification, written out *)

Module Written.
Import Js Host Client Plugin Spec.

(** Section 6: the creation request for one item, a POST of a batch of one
    to the memories of the bank. *)
Definition creation_request (env : Env) (client : HindsightClient) (item : JsVal) : Request :=
  mkRequest (baseUrl client ++ lit "/v1/default/banks/" ++ bankId client ++ lit "/memories")
            (lit "POST") (request_headers client)
            (Some (JSON_stringify env (JObj [(lit "items", JArr [item])]))).

(** Section 4.2, limiting: the item of an automatic capture holds the
    text, the context string, the two tags and a timestamp. *)
Definition auto_item (c now : JsString) : JsVal :=
  JObj [ (lit "content", JStr c);
         (lit "context", JStr (lit "auto-captured from conversation"));
         (lit "tags", JArr [JStr (lit "conversation"); JStr (lit "auto")]);
         (lit "timestamp", JStr now) ].

Definition auto_submission (env : Env) (client : HindsightClient)
    (r : Request) (c : JsString) : Prop :=
  exists now, r = creation_request env client (auto_item c now).

(** The submissions of a pass for the texts [cs] when none fails: each is
    stamped with the clock as it stands after the requests before it. *)
Fixpoint stamped_submissions (env : Env) (client : HindsightClient)
    (h : list Request) (cs : list JsString) : list Request :=
  match cs with
  | [] => []
  | c :: cs' =>
      let r := creation_request env client (auto_item c (Date_toISOString env h)) in
      r :: stamped_submissions env client (h ++ [r]) cs'
  end.


End Written.

Module MoreSamples.
Import Js Host Client Plugin Spec.

(** A store from which ten memories come back. *)
Definition memory_n (n : nat) : RecallResult :=
  mkRecallResult (lit "m" ++ decimal_nat n) (lit "fact " ++ decimal_nat n)
                 (float_of_decimal 5 1) None.

Definition env_ten : Env :=
  mkEnv (fun _ => lit "{}") (fun _ => lit "1e+21") Samples.clock
        (fun _ _ => Resolved (mkResponse 200 (inr (lit "{}")) (inr Samples.created)))
        (fun _ _ => Resolved (mkResponse 200 (inr (lit "{}"))
                      (inr (mkRecallResponse (Some (map memory_n (seq 1 10))))))).

(** A store from which only the first five of them come back, with
    other ids and scores. *)
Definition env_five : Env :=
  mkEnv (fun _ => lit "{}") (fun _ => lit "1e+21") Samples.clock
        (fun _ _ => Resolved (mkResponse 200 (inr (lit "{}")) (inr Samples.created)))
        (fun _ _ => Resolved (mkResponse 200 (inr (lit "{}"))
                      (inr (mkRecallResponse
                              (Some (map (fun n => mkRecallResult (lit "other")
                                                     (lit "fact " ++ decimal_nat n)
                                                     (float_of_decimal 1 1) None)
                                         (seq 1 5))))))).


Definition zod_error (input : JsVal) : JsError :=
  mkError (lit "ZodError") (lit "invalid configuration").

(** A store whose one memory has the score 0.995. *)
Definition edge : RecallResult :=
  mkRecallResult (lit "m1") (lit "edge") (float_of_decimal 995 3) None.

Definition env_edge : Env :=
  mkEnv (fun _ => lit "{}") (fun _ => lit "1e+21") Samples.clock
        (fun _ _ => Resolved (mkResponse 200 (inr (lit "{}")) (inr Samples.created)))
        (fun _ _ => Resolved (mkResponse 200 (inr (lit "{}"))
                      (inr (mkRecallResponse (Some [edge]))))).

(** A recall endpoint that answers 200 with the body [null], one that
    answers [{results: [null]}], and one whose result holds numbers where
    strings are declared. *)
Definition net_null (h : list Request) (req : Request) : FetchOutcome JsVal :=
  Resolved (mkResponse 200 (inr (lit "null")) (inr JNull)).



(** A host for which every string stands for one half. *)
Definition one_half (s : JsString) : float64 := float_of_decimal 5 1.

(** A host that writes plain data out in the manner of [JSON.stringify],
    as far as the examples go: a member whose value is [undefined] is left
    out, a string is quoted as it is (the examples hold nothing to escape),
    a number is written as a whole number. *)
Definition quoted (s : JsString) : JsString := DQUOTE ++ s ++ DQUOTE.

Fixpoint json_text (v : JsVal) : JsString :=
  match v with
  | JUndefined | JNull => lit "null"
  | JBool b => if b then lit "true" else lit "false"
  | JNum x => toFixed0 (fun _ => lit "1e+21") x
  | JStr s => quoted s
  | JArr items =>
      lit "["
      ++ (fix elements (l : list JsVal) : JsString :=
            match l with
            | [] => []
            | x :: l' =>
                json_text x ++ match l' with [] => [] | _ => lit "," ++ elements l' end
            end) items
      ++ lit "]"
  | JObj props =>
      lit "{"
      ++ (fix members (l : list (JsString * JsVal)) (first : bool) : JsString :=
            match l with
            | [] => []
            | (k, x) :: l' =>
                match x with
                | JUndefined => members l' first
                | _ => (if first then [] else lit ",") ++ quoted k ++ lit ":" ++ json_text x
                       ++ members l' false
                end
            end) props true
      ++ lit "}"
  end.

(** The accepting store of [Samples.env_ok] behind that host. *)
Definition env_json : Env :=
  mkEnv json_text (fun _ => lit "1e+21") Samples.clock
        (fun _ _ => Resolved (mkResponse 200 (inr (lit "{}")) (inr Samples.created)))
        (fun _ _ => Resolved (mkResponse 200 (inr (lit "{}"))
                      (inr (mkRecallResponse (Some [Samples.dark_mode; Samples.uses_vim]))))).

End MoreSamples.

(** * Properties *)

Import Js Host Client Plugin Spec.
Unset Implicit Arguments.

(** ** binary64: the product [score * 100] and its rounding *)

Section Binary64.
Local Open Scope Z_scope.

Lemma digits2_pos_size p : digits2_pos p = Pos.size p.
Proof. induction p; simpl; congruence. Qed.

Lemma Zdigits2_le m k : 0 <= m -> 0 <= k -> m <= 2 ^ k -> Zdigits2 m <= k + 1.
Proof.
  intros Hm Hk Hle. destruct m as [|p|p]; simpl; try lia.
  rewrite digits2_pos_size.
  assert (H2 : 2 ^ Zpos (Pos.size p) <= 2 * Zpos p).
  { change (2 * Zpos p) with (Zpos p~0). rewrite <- Pos2Z.inj_pow.
    apply Pos2Z.pos_le_pos, Pos.size_le. }
  assert (H3 : 2 ^ Zpos (Pos.size p) <= 2 ^ (k + 1)).
  { rewrite (Z.pow_add_r 2 k 1) by lia. change (2 ^ 1) with 2. lia. }
  apply Z.pow_le_mono_r_iff in H3; lia.
Qed.

(** One step of the rounding shift halves the mantissa. *)
Lemma shr_1_m mrs : 0 <= shr_m mrs -> shr_m (shr_1 mrs) = shr_m mrs / 2.
Proof.
  destruct mrs as [m r s]; cbv [shr_1 shr_m]. intros Hm.
  destruct m as [|[p|p|]|p]; cbv [shr_m]; try lia; try reflexivity.
  - apply Z.div_unique with (r := 1); lia.
  - apply Z.div_unique with (r := 0); lia.
Qed.

Lemma pow2_double p : 2 ^ Z.pos p * 2 ^ Z.pos p = 2 ^ Z.pos p~0.
Proof. rewrite <- Z.pow_add_r by lia. f_equal. lia. Qed.

Lemma pow2_double_succ p : 2 * (2 ^ Z.pos p * 2 ^ Z.pos p) = 2 ^ Z.pos p~1.
Proof.
  rewrite pow2_double.
  replace (Z.pos p~1) with (Z.pos p~0 + 1) by lia.
  rewrite Z.pow_add_r by lia. change (2 ^ 1) with 2. lia.
Qed.

Lemma iter_shr_1_m p : forall mrs, 0 <= shr_m mrs ->
  shr_m (iter_pos shr_1 p mrs) = shr_m mrs / 2 ^ Zpos p.
Proof.
  assert (Hnn : forall a b, 0 <= a -> 0 < b -> 0 <= a / b)
    by (intros; apply Z.div_pos; lia).
  assert (Hpp : forall q, 0 < 2 ^ Z.pos q) by (intros; apply Z.pow_pos_nonneg; lia).
  induction p as [p IH|p IH|]; intros mrs Hm; cbn [iter_pos].
  - assert (H1 : 0 <= shr_m (shr_1 mrs))
      by (rewrite shr_1_m by assumption; apply Hnn; lia).
    assert (H2 : 0 <= shr_m (iter_pos shr_1 p (shr_1 mrs)))
      by (rewrite IH by assumption; apply Hnn; auto).
    rewrite IH, IH, shr_1_m by assumption.
    pose proof (Hpp p).
    rewrite !Z.div_div by lia. rewrite pow2_double_succ. reflexivity.
  - assert (H2 : 0 <= shr_m (iter_pos shr_1 p mrs))
      by (rewrite IH by assumption; apply Hnn; auto).
    rewrite IH, IH by assumption.
    pose proof (Hpp p).
    rewrite !Z.div_div by lia. rewrite pow2_double. reflexivity.
  - rewrite shr_1_m by assumption. reflexivity.
Qed.

(** A mantissa below [2^(K - E)] stays so through the shift to the
    binary64 format, and the exponent stays small. *)
Lemma shr_fexp_bound K M E l :
  -1022 <= K -> 0 <= M -> M <= 2 ^ (K - E) -> E <= K - 52 ->
  0 <= shr_m (fst (shr_fexp 53 1024 M E l))
  /\ shr_m (fst (shr_fexp 53 1024 M E l)) <= 2 ^ (K - snd (shr_fexp 53 1024 M E l))
  /\ snd (shr_fexp 53 1024 M E l) <= K - 52.
Proof.
  intros HK HM HB HE.
  unfold shr_fexp, shr.
  assert (Hrec : shr_m (shr_record_of_loc M l) = M) by (destruct l as [|[]]; reflexivity).
  pose proof (Zdigits2_le M (K - E) HM ltac:(lia) HB) as Hd.
  assert (Hf : fexp 53 1024 (Zdigits2 M + E) <= K - 52).
  { unfold fexp, emin. lia. }
  destruct (fexp 53 1024 (Zdigits2 M + E) - E) as [|p|p] eqn:Hn; cbn [fst snd].
  - rewrite Hrec. lia.
  - rewrite iter_shr_1_m by (rewrite Hrec; assumption). rewrite Hrec.
    assert (Hp : 0 < 2 ^ Z.pos p) by (apply Z.pow_pos_nonneg; lia).
    split; [apply Z.div_pos; lia|]. split; [|lia].
    replace (K - E) with ((K - (E + Z.pos p)) + Z.pos p) in HB by lia.
    rewrite Z.pow_add_r in HB by lia.
    apply Z.div_le_upper_bound; lia.
  - rewrite Hrec. lia.
Qed.

Lemma round_nearest_even_bounds m l :
  m <= round_nearest_even m l <= m + 1.
Proof. destruct l as [|[]]; cbn; try lia. destruct (Z.even m); lia. Qed.

(** Rounding a bounded exact product gives a zero or a finite double under
    the same bound, one bit up. *)
Lemma binary_round_aux_bound K sx M E :
  -1022 <= K <= 1000 -> 0 <= M -> M <= 2 ^ (K - E) -> E <= K - 52 ->
  match binary_round_aux 53 1024 sx M E loc_Exact with
  | S754_zero s => s = sx
  | S754_finite s m e => s = sx /\ Zpos m <= 2 ^ (K + 1 - e) /\ e <= K - 51
  | _ => False
  end.
Proof.
  intros HK HM HB HE. unfold binary_round_aux.
  destruct (shr_fexp_bound K M E loc_Exact) as (H0 & H1 & H2); try lia.
  destruct (shr_fexp 53 1024 M E loc_Exact) as [mrs' e']. cbn [fst snd] in *.
  pose proof (round_nearest_even_bounds (shr_m mrs') (loc_of_shr_record mrs')) as Hr.
  set (mx := round_nearest_even (shr_m mrs') (loc_of_shr_record mrs')) in *.
  assert (Hp : 0 < 2 ^ (K - e')) by (apply Z.pow_pos_nonneg; lia).
  assert (Hmx : mx <= 2 ^ (K + 1 - e')).
  { replace (K + 1 - e') with ((K - e') + 1) by lia.
    rewrite Z.pow_add_r by lia. change (2 ^ 1) with 2. lia. }
  destruct (shr_fexp_bound (K + 1) mx e' loc_Exact) as (G0 & G1 & G2); try lia.
  destruct (shr_fexp 53 1024 mx e' loc_Exact) as [mrs'' e'']. cbn [fst snd] in *.
  destruct (shr_m mrs'') as [|m|m]; [reflexivity| |lia].
  replace (e'' <=? 1024 - 53) with true by (symmetry; apply Z.leb_le; lia).
  repeat split; lia.
Qed.

Lemma float_of_Z_1 : float_of_Z 1 = S754_finite false 4503599627370496 (-52).
Proof. vm_compute. reflexivity. Qed.

Lemma float_of_Z_100 : float_of_Z 100 = S754_finite false 7036874417766400 (-46).
Proof. vm_compute. reflexivity. Qed.

(** A score in [0, 1] is a zero, or positive with a mantissa below 2^53
    and an exponent of at most -52. *)
Lemma unit_score_cases s :
  unit_score s = true ->
  (exists b, s = S754_zero b)
  \/ (exists m e, s = S754_finite false m e /\ Zpos m < 2 ^ 53 /\ e <= -52).
Proof.
  unfold unit_score. rewrite float_of_Z_1. intros H.
  apply andb_prop in H as [H H1]. apply andb_prop in H as [Hv H0].
  destruct s as [b|b| |b m e].
  - left. eauto.
  - destruct b; discriminate.
  - discriminate.
  - right. exists m, e. destruct b; [discriminate|]. split; [reflexivity|].
    cbn [valid_binary] in Hv. unfold bounded, canonical_mantissa in Hv.
    apply andb_prop in Hv as [Hc _]. apply Z.eqb_eq in Hc.
    unfold fexp, emin in Hc. rewrite digits2_pos_size in Hc.
    split.
    + pose proof (Pos.size_gt m) as Hs.
      apply Pos2Z.pos_lt_pos in Hs. rewrite Pos2Z.inj_pow in Hs.
      assert (Z.pos (Pos.size m) <= 53) by lia.
      assert (2 ^ Z.pos (Pos.size m) <= 2 ^ 53) by (apply Z.pow_le_mono_r; lia).
      lia.
    + unfold SFleb, SFcompare in H1.
      destruct (Z.compare_spec e (-52)); try lia; try discriminate.
Qed.

Lemma at_least_1e21_small m e :
  Zpos m <= 2 ^ (9 - e) -> e <= -43 -> at_least_1e21 m e = false.
Proof.
  intros Hm He. destruct e as [|p|p]; try lia.
  unfold at_least_1e21. apply Z.leb_gt.
  rewrite Z.shiftl_mul_pow2 by lia.
  replace (9 - Z.neg p) with (9 + Z.pos p) in Hm by lia.
  rewrite Z.pow_add_r in Hm by lia.
  assert (0 < 2 ^ Z.pos p) by (apply Z.pow_pos_nonneg; lia).
  assert (2 ^ 9 < 10 ^ 21) by (vm_compute; reflexivity).
  nia.
Qed.

(** For a score in [0, 1] the double [score * 100] is non-negative and
    far below 10^21. *)
Lemma percent_product_printable s :
  unit_score s = true -> printable (fmul s (float_of_Z 100)).
Proof.
  intros H. destruct (unit_score_cases _ H) as [[b ->]|(m & e & -> & Hm & He)];
    rewrite float_of_Z_100; [exact I|].
  unfold fmul, SFmul. cbn [xorb].
  assert (HM : Z.pos (m * 7036874417766400) <= 2 ^ (8 - (e + -46))).
  { rewrite Pos2Z.inj_mul.
    assert (2 ^ 106 <= 2 ^ (8 - (e + -46))) by (apply Z.pow_le_mono_r; lia).
    assert (2 ^ 106 = 2 ^ 53 * 2 ^ 53) by (vm_compute; reflexivity).
    assert (7036874417766400 < 2 ^ 53) by (vm_compute; reflexivity).
    nia. }
  pose proof (binary_round_aux_bound 8 false (Z.pos (m * 7036874417766400)) (e + -46)
                ltac:(lia) ltac:(lia) HM ltac:(lia)) as HB.
  destruct (binary_round_aux 53 1024 false (Z.pos (m * 7036874417766400)) (e + -46) loc_Exact)
    as [b|b| |b m' e']; try contradiction; [exact I|].
  destruct HB as (-> & Hm' & He').
  split; [reflexivity|]. apply at_least_1e21_small; [exact Hm'|lia].
Qed.

Lemma round_half (a b : Z) :
  0 < b -> round (inject_Z a / inject_Z b) = (2 * a + b) / (2 * b).
Proof.
  intros Hb. unfold round. rewrite Zdiv_Qdiv. apply Qfloor_comp.
  rewrite !inject_Z_plus, !inject_Z_mult.
  assert (Hq : ~ (inject_Z b == 0)%Q).
  { intros H. apply (inject_Z_injective b 0) in H. lia. }
  change (inject_Z 2) with 2%Q. field. exact Hq.
Qed.

(** The integer [toFixed(0)] picks is the value rounded, halves upwards. *)
Lemma nearest_integer_round m e :
  nearest_integer m e = round (float_value (S754_finite false m e)).
Proof.
  unfold float_value.
  destruct e as [|p|p].
  - transitivity (round (inject_Z (Z.pos m) / inject_Z 1)).
    + rewrite round_half by lia. cbn [nearest_integer].
      apply Z.div_unique with (r := 1); lia.
    + unfold round. apply Qfloor_comp.
      change (2 ^ 0)%Q with 1%Q. change (inject_Z 1) with 1%Q. field.
  - transitivity (round (inject_Z (Z.pos m * 2 ^ Z.pos p) / inject_Z 1)).
    + rewrite round_half by lia. cbn [nearest_integer].
      rewrite Z.shiftl_mul_pow2 by lia.
      apply Z.div_unique with (r := 1); lia.
    + unfold round. apply Qfloor_comp. rewrite inject_Z_mult.
      rewrite (Zpower_Qpower 2 (Z.pos p)) by lia.
      change (inject_Z 2) with 2%Q. change (inject_Z 1) with 1%Q. field.
  - assert (HX : 0 < 2 ^ Z.pos p) by (apply Z.pow_pos_nonneg; lia).
    transitivity (round (inject_Z (Z.pos m) / inject_Z (2 ^ Z.pos p))).
    + rewrite round_half by lia. cbn [nearest_integer].
      rewrite Z.shiftr_div_pow2, Z.shiftl_mul_pow2 by lia.
      assert (Hh : 2 ^ Z.pos p = 2 * 2 ^ (Z.pos p - 1)).
      { replace (Z.pos p) with (1 + (Z.pos p - 1)) at 1 by lia.
        rewrite Z.pow_add_r by lia. reflexivity. }
      rewrite Z.mul_1_l.
      replace (2 * Z.pos m + 2 ^ Z.pos p) with ((Z.pos m + 2 ^ (Z.pos p - 1)) * 2) by lia.
      rewrite (Z.mul_comm 2 (2 ^ Z.pos p)).
      rewrite Z.div_mul_cancel_r by lia. reflexivity.
    + unfold round. apply Qfloor_comp.
      change (Z.neg p) with (- Z.pos p). rewrite Qpower_opp.
      rewrite (Zpower_Qpower 2 (Z.pos p)) by lia.
      change (inject_Z 2) with 2%Q.
      assert (Hq : ~ (2 ^ Z.pos p == 0)%Q) by (apply Qpower_not_0; discriminate).
      field. exact Hq.
Qed.

Lemma toFixed0_round nt x :
  printable x -> toFixed0 nt x = decimal (Z.to_N (round (float_value x))).
Proof.
  destruct x as [b|b| |b m e]; try contradiction.
  - intros _. reflexivity.
  - intros [-> H]. unfold toFixed0. rewrite H. rewrite nearest_integer_round. reflexivity.
Qed.

(** The percentage the recall tool prints for a score in [0, 1]. *)
Lemma toFixed0_percent nt s :
  unit_score s = true -> toFixed0 nt (fmul s (float_of_Z 100)) = percent s.
Proof. intros H. apply toFixed0_round, percent_product_printable, H. Qed.

End Binary64.

(** ** Strings and arrays *)

Section Strings.

Lemma trimStart_white_space p :
  Forall (fun c => is_white_space c = true) p -> trimStart p = [].
Proof.
  induction 1 as [|c p Hc _ IH]; [reflexivity|].
  cbn [trimStart]. rewrite Hc. exact IH.
Qed.

(** Nothing is left of a string of white space. *)
Lemma trim_white_space p :
  Forall (fun c => is_white_space c = true) p -> trim p = [].
Proof.
  intros H. unfold trim, trimEnd. rewrite (trimStart_white_space p H). reflexivity.
Qed.

(** Lines joined by a separator and closed by one more are the lines each
    followed by the separator. *)
Lemma join_terminated {A : Type} (f : A -> JsString) sep l :
  l <> [] -> join sep (map f l) ++ sep = flat_map (fun x => f x ++ sep) l.
Proof.
  induction l as [|x l IH]; [congruence|]. intros _.
  destruct l as [|y l].
  - cbn. rewrite app_nil_r. reflexivity.
  - change (join sep (map f (x :: y :: l)))
      with (f x ++ sep ++ join sep (map f (y :: l))).
    rewrite <- !app_assoc. rewrite IH by discriminate.
    cbn [flat_map]. rewrite <- !app_assoc. reflexivity.
Qed.

(** [map] with an index pairs the elements with 0, 1, 2, ... in order. *)
Lemma mapi_from_combine {A B : Type} (f : A -> nat -> B) l : forall i,
  mapi_from i f l = map (fun p => f (snd p) (fst p)) (combine (seq i (length l)) l).
Proof.
  induction l as [|x l IH]; intros i; [reflexivity|].
  cbn. f_equal. apply IH.
Qed.

Lemma header_app k hs hs' :
  header k (hs ++ hs') = match header k hs with Some v => Some v | None => header k hs' end.
Proof.
  induction hs as [|[k' v] hs IH]; [reflexivity|].
  cbn. destruct (str_eq_dec k k'); [reflexivity|exact IH].
Qed.

End Strings.

(** ** The client *)

Section ClientFacts.
Variable env : Env.
Variable client : HindsightClient.

Lemma ok_status {T : Type} (r : Response T) :
  negb (ok r) = ((status r <? 200) || (299 <? status r))%N.
Proof.
  unfold ok. rewrite negb_andb, !N.leb_antisym, !negb_involutive. reflexivity.
Qed.

(** One call of [request] puts one request on the wire and ends as the
    exchange settles. *)
Lemma request_run {T : Type} (net : list Request -> Request -> FetchOutcome T)
    method path body w :
  request env net client method path body w
  = (settle (net (sent w) (build_request env client method path body)),
     after_send w (build_request env client method path body)).
Proof.
  unfold request, bind, fetch, settle, after_send.
  destruct (net (sent w) (build_request env client method path body)) as [e|r];
    [reflexivity|].
  rewrite ok_status.
  destruct ((status r <? 200) || (299 <? status r))%N.
  - unfold await. destruct (text r); reflexivity.
  - unfold await. destruct (json r); reflexivity.
Qed.

Lemma retain_run content options w :
  retain env client content options w
  = (settle (fetch_memories env (sent w)
               (retain_request env client content options (Date_toISOString env (sent w)))),
     after_send w (retain_request env client content options (Date_toISOString env (sent w)))).
Proof.
  unfold retain, bind, new_Date_toISOString. rewrite request_run. reflexivity.
Qed.

Lemma recall_run query options w :
  recall env client query options w
  = (settle (fetch_recall env (sent w) (recall_request env client query options)),
     after_send w (recall_request env client query options)).
Proof. unfold recall. rewrite request_run. reflexivity. Qed.

(** The Authorization header is there exactly for a non-empty key. *)
Lemma authorization_header v :
  header (lit "Authorization") (request_headers client) = Some v
  <-> exists k, apiKey client = Some k /\ k <> [] /\ v = lit "Bearer " ++ k.
Proof.
  unfold request_headers. destruct (apiKey client) as [[|c k]|].
  - cbn. split; [discriminate|]. intros (k & Hk & Hne & _). injection Hk as <-. congruence.
  - cbn [truthy]. rewrite header_app.
    replace (header (lit "Authorization") [(lit "Content-Type", lit "application/json")])
      with (@None JsString) by (vm_compute; reflexivity).
    cbn [header]. destruct (str_eq_dec (lit "Authorization") (lit "Authorization")); [|congruence].
    split.
    + intros H. injection H as <-. exists (c :: k). repeat split. discriminate.
    + intros (k' & Hk & _ & ->). injection Hk as <-. reflexivity.
  - split; [vm_compute; discriminate|]. intros (k & Hk & _). discriminate.
Qed.

Lemma no_authorization_header :
  header (lit "Authorization") (request_headers client) = None
  <-> apiKey client = None \/ apiKey client = Some [].
Proof.
  split.
  - intros H. destruct (apiKey client) as [[|c k]|] eqn:Hk; auto.
    assert (Hh : header (lit "Authorization") (request_headers client)
                 = Some (lit "Bearer " ++ c :: k)).
    { apply authorization_header. exists (c :: k). repeat split; [exact Hk|discriminate]. }
    congruence.
  - intros H. destruct (header (lit "Authorization") (request_headers client)) as [v|] eqn:Hv;
      [|reflexivity].
    apply authorization_header in Hv as (k & Hk & Hne & _).
    destruct H as [H|H]; rewrite H in Hk; [discriminate|]. injection Hk as <-. congruence.
Qed.

End ClientFacts.

(** ** Extraction of the auto-retain hook *)

Section Extraction.

Lemma push_text_spec toRetain s :
  push_text toRetain (JStr s) = toRetain ++ map trim (filter long_enough [s]).
Proof.
  unfold push_text, long_enough. cbn [filter].
  destruct (10 <? length (trim s)); cbn [map]; [reflexivity|].
  symmetry. apply app_nil_r.
Qed.

Lemma scan_block_spec toRetain block :
  scan_block toRetain block
  = toRetain ++ map trim (filter long_enough (block_texts block)).
Proof.
  unfold scan_block, block_texts.
  destruct block as [| |b|x|s|items|props];
    try (cbn; symmetry; apply app_nil_r).
  - destruct (truthy (JBool b)); cbn; symmetry; apply app_nil_r.
  - destruct (truthy (JNum x)); cbn; symmetry; apply app_nil_r.
  - destruct (truthy (JStr s)); cbn; symmetry; apply app_nil_r.
  - cbn [truthy typeof_object andb has_prop prop].
    destruct (assoc (lit "type") props) as [ty|];
      [|cbn; symmetry; apply app_nil_r].
    destruct (strict_eq_str ty (lit "text"));
      [|cbn; symmetry; apply app_nil_r].
    destruct (assoc (lit "text") props) as [[| |b|x|s|items|props']|];
      cbn [andb push_text]; try (cbn; symmetry; apply app_nil_r).
    apply push_text_spec.
Qed.

Lemma fold_scan_block blocks : forall toRetain,
  fold_left scan_block blocks toRetain
  = toRetain ++ map trim (filter long_enough (flat_map block_texts blocks)).
Proof.
  induction blocks as [|b blocks IH]; intros toRetain; cbn [fold_left flat_map].
  - cbn. symmetry. apply app_nil_r.
  - rewrite IH, scan_block_spec, filter_app, map_app, app_assoc. reflexivity.
Qed.

Lemma scan_message_spec toRetain msg :
  scan_message toRetain msg
  = toRetain ++ map trim (filter long_enough
                            (if is_user msg then candidate_texts msg else [])).
Proof.
  unfold scan_message, is_user, candidate_texts.
  destruct msg as [| |b|x|s|items|props];
    try (cbn; symmetry; apply app_nil_r).
  - destruct (truthy (JBool b)); cbn; symmetry; apply app_nil_r.
  - destruct (truthy (JNum x)); cbn; symmetry; apply app_nil_r.
  - destruct (truthy (JStr s)); cbn; symmetry; apply app_nil_r.
  - cbn [truthy typeof_object negb orb].
    destruct (strict_eq_str (prop (JObj props) (lit "role")) (lit "user"));
      cbn [negb]; [|cbn; symmetry; apply app_nil_r].
    destruct (prop (JObj props) (lit "content")) as [| |b|x|s|items|props'];
      try (cbn; symmetry; apply app_nil_r).
    + apply push_text_spec.
    + apply fold_scan_block.
Qed.

Lemma fold_scan_message msgs : forall toRetain,
  fold_left scan_message msgs toRetain = toRetain ++ candidates msgs.
Proof.
  unfold candidates, raw_candidates.
  induction msgs as [|msg msgs IH]; intros toRetain; cbn [fold_left].
  - cbn. symmetry. apply app_nil_r.
  - rewrite IH, scan_message_spec, <- app_assoc. f_equal.
    cbn [filter]. destruct (is_user msg).
    + cbn [flat_map]. rewrite filter_app, map_app. reflexivity.
    + reflexivity.
Qed.

(** The loop of the source collects what section 4.2 describes. *)
Lemma extract_candidates msgs : extract msgs = candidates msgs.
Proof. unfold extract. apply fold_scan_message. Qed.

Lemma candidates_trimmed msgs c :
  In c (candidates msgs) ->
  exists raw, In raw (raw_candidates msgs) /\ c = trim raw /\ 10 < length (trim raw).
Proof.
  unfold candidates. intros H. apply in_map_iff in H as (raw & <- & Hin).
  exists raw. repeat split; [exact Hin|].
  unfold raw_candidates in Hin. apply filter_In in Hin as [_ Hlong].
  unfold long_enough in Hlong. apply Nat.ltb_lt in Hlong. exact Hlong.
Qed.

Lemma raw_candidates_from_user msgs raw :
  In raw (raw_candidates msgs) ->
  exists msg, In msg msgs /\ is_user msg = true /\ In raw (candidate_texts msg).
Proof.
  unfold raw_candidates. intros H. apply filter_In in H as [H _].
  apply in_flat_map in H as (msg & Hmsg & Hraw).
  apply filter_In in Hmsg as [Hin Hu]. eauto.
Qed.

End Extraction.

(** ** The retain loop of the auto-retain hook *)

Section RetainLoop.
Variable env : Env.
Variable client : HindsightClient.

Lemma world_eta w : mkWorld (sent w) (logged w) = w.
Proof. destruct w; reflexivity. Qed.

(** What the loop over the candidates [l] does from the world [w]: it
    sends the requests [rs], one per candidate and in their order, logs
    nothing, counts every item when it completes, and ends at the first
    request that fails. *)
Lemma retain_each_run l : forall n w,
  exists rs,
    snd (retain_each env client l n w) = mkWorld (sent w ++ rs) (logged w)
    /\ Forall2 (auto_request env client) rs (firstn (length rs) l)
    /\ length rs <= length l
    /\ (forall n', fst (retain_each env client l n w) = Normal n' ->
          n' = n + length l /\ length rs = length l)
    /\ (forall rs1 req rs2 err,
          rs = rs1 ++ req :: rs2 ->
          settle (fetch_memories env (sent w ++ rs1) req) = Throw err ->
          rs2 = [] /\ fst (retain_each env client l n w) = Throw err)
    /\ (forall err, fst (retain_each env client l n w) = Throw err ->
          exists rs1 req, rs = rs1 ++ [req]
            /\ settle (fetch_memories env (sent w ++ rs1) req) = Throw err)
    /\ (store_accepts env -> exists n', fst (retain_each env client l n w) = Normal n').
Proof.
  induction l as [|c l IH]; intros n w.
  - exists []. cbn [retain_each]. unfold ret. cbn [fst snd length firstn].
    rewrite app_nil_r, world_eta. repeat split; try lia.
    + constructor.
    + injection H as <-. lia.
    + destruct rs1; discriminate.
    + destruct rs1; discriminate.
    + discriminate.
    + intros _. eauto.
  - cbn [retain_each]. unfold bind. rewrite retain_run.
    set (req := retain_request env client c (Some auto_options)
                               (Date_toISOString env (sent w))).
    destruct (settle (fetch_memories env (sent w) req)) as [v|e] eqn:Hreq.
    + destruct (IH (S n) (after_send w req))
        as (rs & Hs & HF & Hlen & Hn & Hd & Ht & Ha).
      exists (req :: rs). cbn [length firstn].
      split; [rewrite Hs; cbn [after_send sent logged]; rewrite <- app_assoc; reflexivity|].
      split; [constructor; [exists (Date_toISOString env (sent w)); reflexivity|exact HF]|].
      split; [lia|].
      split; [intros n' Hn'; apply Hn in Hn'; lia|].
      split.
      { intros rs1 r rs2 err Hrs Hfail. destruct rs1 as [|a rs1].
        - cbn in Hrs. injection Hrs as <- _. rewrite app_nil_r in Hfail. congruence.
        - cbn in Hrs. injection Hrs as <- Hrs.
          apply (Hd rs1 r rs2 err Hrs).
          cbn [after_send sent]. rewrite <- app_assoc. exact Hfail. }
      split.
      { intros err Herr. destruct (Ht err Herr) as (rs1 & r & -> & Hfail).
        exists (req :: rs1), r. split; [reflexivity|].
        cbn [after_send sent] in Hfail. rewrite <- app_assoc in Hfail. exact Hfail. }
      exact Ha.
    + exists [req]. cbn [fst snd length firstn].
      split; [reflexivity|].
      split; [constructor; [exists (Date_toISOString env (sent w)); reflexivity|constructor]|].
      split; [lia|].
      split; [discriminate|].
      split.
      { intros rs1 r rs2 err Hrs Hfail. destruct rs1 as [|a rs1].
        - cbn in Hrs. injection Hrs as <- <-. rewrite app_nil_r in Hfail.
          split; [reflexivity|congruence].
        - cbn in Hrs. injection Hrs as _ Hrs. destruct rs1; discriminate. }
      split.
      { intros err Herr. injection Herr as <-. exists [], req.
        split; [reflexivity|]. rewrite app_nil_r. exact Hreq. }
      intros Hacc. destruct (Hacc (sent w) req) as [v Hv]. congruence.
Qed.

End RetainLoop.

(** ** The handlers, exchange by exchange *)

Section Handlers.
Variable env : Env.
Variable client : HindsightClient.

Lemma hindsight_recall_failed params w err :
  settle (fetch_recall env (sent w) (recall_tool_request env client params)) = Throw err ->
  hindsight_recall env client params w
  = (Normal (mkToolResult
               [mkTextBlock (lit "text") (lit "Memory recall failed: " ++ String_err err)]
               (ErrorDetails (String_err err))),
     after_log (after_send w (recall_tool_request env client params)) Warn
               (lit "hindsight_recall failed: " ++ String_err err)).
Proof.
  intros H. unfold hindsight_recall, try_catch, bind. rewrite recall_run.
  fold (recall_tool_request env client params). rewrite H. reflexivity.
Qed.

Lemma hindsight_recall_settled params w response :
  settle (fetch_recall env (sent w) (recall_tool_request env client params))
  = Normal response ->
  hindsight_recall env client params w
  = (Normal
       match results response with
       | None | Some [] =>
           mkToolResult
             [mkTextBlock (lit "text") (lit "No relevant memories found.")]
             (RecallDetails 0 None)
       | Some rs =>
           mkToolResult
             [mkTextBlock (lit "text")
                (lit "Found " ++ decimal_nat (length rs) ++ lit " memories:" ++ LF ++ LF
                 ++ join (LF ++ LF) (mapi (recall_line env) rs))]
             (RecallDetails (length rs)
                (Some (map (fun r => mkMemoryDetail (memory_id r) (content r) (score r)) rs)))
       end,
     after_send w (recall_tool_request env client params)).
Proof.
  intros H. unfold hindsight_recall, try_catch, bind. rewrite recall_run.
  fold (recall_tool_request env client params). rewrite H.
  destruct (results response) as [[|r rs]|]; reflexivity.
Qed.

Lemma hindsight_retain_failed params w err :
  settle (fetch_memories env (sent w) (retain_tool_request env client params w)) = Throw err ->
  hindsight_retain env client params w
  = (Normal (mkToolResult
               [mkTextBlock (lit "text") (lit "Failed to store memory: " ++ String_err err)]
               (ErrorDetails (String_err err))),
     after_log (after_send w (retain_tool_request env client params w)) Warn
               (lit "hindsight_retain failed: " ++ String_err err)).
Proof.
  intros H. unfold hindsight_retain, try_catch, bind. rewrite retain_run.
  fold (retain_tool_request env client params w). rewrite H. reflexivity.
Qed.

Lemma hindsight_retain_settled params w v :
  settle (fetch_memories env (sent w) (retain_tool_request env client params w)) = Normal v ->
  nullish v = false ->
  hindsight_retain env client params w
  = (Normal (mkToolResult
               [mkTextBlock (lit "text")
                  (lit "Stored in memory: " ++ DQUOTE ++ slice0 100 (param_content params)
                   ++ (if 100 <? length (param_content params) then lit "..." else [])
                   ++ DQUOTE)]
               (RetainDetails (lit "created") (prop v (lit "memory_ids")))),
     after_send w (retain_tool_request env client params w)).
Proof.
  intros H Hv. unfold hindsight_retain, try_catch, bind. rewrite retain_run.
  fold (retain_tool_request env client params w). rewrite H.
  destruct v; try discriminate; reflexivity.
Qed.

(** Whatever the store does, the retain tool sends exactly one request. *)
Lemma hindsight_retain_sent params w :
  sent (snd (hindsight_retain env client params w))
  = sent w ++ [retain_tool_request env client params w].
Proof.
  unfold hindsight_retain, try_catch, bind. rewrite retain_run.
  fold (retain_tool_request env client params w).
  destruct (settle _) as [v|e]; [|reflexivity].
  destruct v; reflexivity.
Qed.

Lemma hindsight_recall_returns params w :
  exists r w', hindsight_recall env client params w = (Normal r, w').
Proof.
  destruct (settle (fetch_recall env (sent w) (recall_tool_request env client params)))
    as [response|err] eqn:H.
  - rewrite (hindsight_recall_settled _ _ _ H). eauto.
  - rewrite (hindsight_recall_failed _ _ _ H). eauto.
Qed.

Lemma hindsight_retain_returns params w :
  exists r w', hindsight_retain env client params w = (Normal r, w').
Proof.
  unfold hindsight_retain, try_catch, bind. rewrite retain_run.
  destruct (settle _) as [v|e]; [|do 2 eexists; reflexivity].
  destruct v; do 2 eexists; reflexivity.
Qed.

Lemma before_agent_start_skipped event w :
  match prompt event with
  | None => True
  | Some p => length p < 10
  end ->
  before_agent_start env client event w = (Normal None, w).
Proof.
  unfold before_agent_start. destruct (prompt event) as [p|]; [|reflexivity].
  intros H. apply Nat.ltb_lt in H. rewrite H, orb_true_r. reflexivity.
Qed.

Lemma prompt_gate_open (p : JsString) :
  10 <= length p -> negb (truthy (JStr p)) || (length p <? 10) = false.
Proof.
  intros H. apply orb_false_iff. split.
  - destruct p; [cbn in H; lia|reflexivity].
  - apply Nat.ltb_ge. exact H.
Qed.

Lemma before_agent_start_failed (p : JsString) w err :
  10 <= length p ->
  settle (fetch_recall env (sent w) (auto_recall_request env client p)) = Throw err ->
  before_agent_start env client (mkBeforeAgentStart (Some p)) w
  = (Normal None,
     after_log (after_send w (auto_recall_request env client p)) Warn
               (lit "hindsight-memory: auto-recall failed: " ++ String_err err)).
Proof.
  intros Hp H. unfold before_agent_start. cbn [prompt].
  rewrite (prompt_gate_open p Hp). unfold try_catch, bind. rewrite recall_run.
  fold (auto_recall_request env client p). rewrite H. reflexivity.
Qed.

Lemma before_agent_start_settled (p : JsString) w response :
  10 <= length p ->
  settle (fetch_recall env (sent w) (auto_recall_request env client p)) = Normal response ->
  before_agent_start env client (mkBeforeAgentStart (Some p)) w
  = match results response with
    | None | Some [] => (Normal None, after_send w (auto_recall_request env client p))
    | Some rs =>
        (Normal (Some (mkPrepend
                         (lit "<relevant-memories>" ++ LF
                          ++ lit "The following memories may be relevant:" ++ LF
                          ++ join LF (map (fun r => lit "- " ++ content r) (firstn 5 rs))
                          ++ LF ++ lit "</relevant-memories>"))),
         after_log (after_send w (auto_recall_request env client p)) Info
                   (lit "hindsight-memory: injecting " ++ decimal_nat (length rs)
                    ++ lit " memories into context"))
    end.
Proof.
  intros Hp H. unfold before_agent_start. cbn [prompt].
  rewrite (prompt_gate_open p Hp). unfold try_catch, bind. rewrite recall_run.
  fold (auto_recall_request env client p). rewrite H.
  destruct (results response) as [[|r rs]|]; reflexivity.
Qed.

Lemma before_agent_start_sent (p : JsString) w :
  10 <= length p ->
  sent (snd (before_agent_start env client (mkBeforeAgentStart (Some p)) w))
  = sent w ++ [auto_recall_request env client p].
Proof.
  intros Hp.
  destruct (settle (fetch_recall env (sent w) (auto_recall_request env client p)))
    as [response|err] eqn:H.
  - rewrite (before_agent_start_settled p w response Hp H).
    destruct (results response) as [[|r rs]|]; reflexivity.
  - rewrite (before_agent_start_failed p w err Hp H). reflexivity.
Qed.

Lemma before_agent_start_returns event w :
  exists r w', before_agent_start env client event w = (Normal r, w').
Proof.
  destruct event as [[p|]]; [|rewrite before_agent_start_skipped; cbn; eauto].
  destruct (Nat.lt_ge_cases (length p) 10) as [Hp|Hp].
  - rewrite before_agent_start_skipped; cbn; eauto.
  - destruct (settle (fetch_recall env (sent w) (auto_recall_request env client p)))
      as [response|err] eqn:H.
    + rewrite (before_agent_start_settled p w response Hp H).
      destruct (results response) as [[|r rs]|]; eauto.
    + rewrite (before_agent_start_failed p w err Hp H). eauto.
Qed.

End Handlers.

(** ** The auto-retain hook as a whole *)

Section AutoRetain.
Variable env : Env.
Variable client : HindsightClient.

Lemma agent_end_skipped event w :
  success event = false \/ messages event = None \/ messages event = Some [] ->
  agent_end env client event w = (Normal tt, w).
Proof.
  unfold agent_end. intros [H|[H|H]].
  - rewrite H. destruct (messages event); reflexivity.
  - rewrite H. reflexivity.
  - rewrite H. cbn. rewrite orb_true_r. reflexivity.
Qed.

(** Every run of the hook: it returns nothing, it sends the requests [rs],
    and a request that fails is the last one and leaves one warning. *)
Lemma agent_end_run event w :
  exists rs w',
    agent_end env client event w = (Normal tt, w')
    /\ sent w' = sent w ++ rs
    /\ (forall rs1 req rs2 err,
          rs = rs1 ++ req :: rs2 ->
          settle (fetch_memories env (sent w ++ rs1) req) = Throw err ->
          rs2 = []
          /\ logged w' = logged w ++ [(Warn, lit "hindsight-memory: auto-retain failed: "
                                              ++ String_err err)])
    /\ match messages event with
       | Some msgs =>
           if success event
           then Forall2 (auto_request env client) rs
                        (firstn (length rs) (firstn 5 (candidates msgs)))
                /\ length rs <= length (firstn 5 (candidates msgs))
                /\ (store_accepts env -> length rs = length (firstn 5 (candidates msgs)))
           else rs = []
       | None => rs = []
       end.
Proof.
  assert (Hskip : forall (P : list Request -> Prop), P [] ->
            agent_end env client event w = (Normal tt, w) ->
            exists rs w',
              agent_end env client event w = (Normal tt, w')
              /\ sent w' = sent w ++ rs
              /\ (forall rs1 req rs2 err,
                    rs = rs1 ++ req :: rs2 ->
                    settle (fetch_memories env (sent w ++ rs1) req) = Throw err ->
                    rs2 = []
                    /\ logged w' = logged w
                         ++ [(Warn, lit "hindsight-memory: auto-retain failed: "
                                    ++ String_err err)])
              /\ P rs).
  { intros P HP Hrun. exists [], w. rewrite app_nil_r.
    repeat split; auto. all: destruct rs1; discriminate. }
  destruct (messages event) as [msgs|] eqn:Hm;
    [|apply Hskip; [reflexivity|apply agent_end_skipped; auto]].
  destruct (success event) eqn:Hs;
    [|apply Hskip; [reflexivity|apply agent_end_skipped; auto]].
  destruct msgs as [|msg msgs].
  { apply Hskip; [|apply agent_end_skipped; auto].
    cbn. repeat split; [constructor|lia]. }
  clear Hskip. unfold agent_end. rewrite Hm, Hs. cbn [negb orb length Nat.eqb].
  unfold try_catch, bind. rewrite extract_candidates.
  set (l := firstn 5 (candidates (msg :: msgs))).
  destruct (retain_each_run env client l 0 w) as (rs & Hw & HF & Hlen & Hn & Hd & Ht & Ha).
  destruct (retain_each env client l 0 w) as [[n|err] w1]; cbn [fst snd] in *; subst w1.
  - exists rs.
    assert (Hnone : forall rs1 req rs2 err,
              rs = rs1 ++ req :: rs2 ->
              settle (fetch_memories env (sent w ++ rs1) req) = Throw err -> False).
    { intros rs1 req rs2 err Hrs Hfail.
      destruct (Hd rs1 req rs2 err Hrs Hfail) as [_ Hx]. discriminate. }
    destruct (0 <? n); eexists; (split; [reflexivity|]);
      (split; [reflexivity|]);
      (split; [intros rs1 req rs2 err Hrs Hfail;
               destruct (Hnone rs1 req rs2 err Hrs Hfail)|]);
      (split; [exact HF|]); (split; [exact Hlen|]);
      intros _; apply (Hn n eq_refl).
  - exists rs. eexists. split; [reflexivity|]. split; [reflexivity|].
    split.
    + intros rs1 req rs2 err' Hrs Hfail.
      destruct (Hd rs1 req rs2 err' Hrs Hfail) as [-> Herr].
      injection Herr as ->. split; reflexivity.
    + split; [exact HF|]. split; [exact Hlen|].
      intros Hacc. destruct (Ha Hacc) as [n Hn']. discriminate.
Qed.

End AutoRetain.

(** A reply that is [null]: reading [memory_ids] off it throws, and the
    retain tool reports the TypeError. *)
Lemma hindsight_retain_null env client params w v :
  settle (fetch_memories env (sent w) (retain_tool_request env client params w)) = Normal v ->
  nullish v = true ->
  exists err,
    name err = lit "TypeError"
    /\ hindsight_retain env client params w
       = (Normal (mkToolResult
               [mkTextBlock (lit "text") (lit "Failed to store memory: " ++ String_err err)]
               (ErrorDetails (String_err err))),
          after_log (after_send w (retain_tool_request env client params w)) Warn
                    (lit "hindsight_retain failed: " ++ String_err err)).
Proof.
  intros H Hv. unfold hindsight_retain, try_catch, bind. rewrite retain_run.
  fold (retain_tool_request env client params w). rewrite H.
  destruct v; try discriminate; eexists; (split; [|reflexivity]); reflexivity.
Qed.

(** ** The handlers over a recall reply of any shape *)

Section RawReplies.
Variable env : Env.
Variable net : list Request -> Request -> FetchOutcome JsVal.
Variable StringToNumber : JsString -> float64.
Variable client : HindsightClient.

Lemma recall_raw_run query options w :
  Raw.recall_raw env net client query options w
  = (settle (net (sent w) (recall_request env client query options)),
     after_send w (recall_request env client query options)).
Proof. unfold Raw.recall_raw. rewrite request_run. reflexivity. Qed.



Lemma hindsight_recall_raw_failed params w err :
  settle (net (sent w) (recall_tool_request env client params)) = Throw err ->
  Raw.hindsight_recall_raw env net StringToNumber client params w
  = (Normal (Raw.mkRawToolResult
               [mkTextBlock (lit "text") (lit "Memory recall failed: " ++ String_err err)]
               (Raw.RawError (String_err err))),
     after_log (after_send w (recall_tool_request env client params)) Warn
               (lit "hindsight_recall failed: " ++ String_err err)).
Proof.
  intros H. unfold Raw.hindsight_recall_raw, try_catch, bind. rewrite recall_raw_run.
  fold (recall_tool_request env client params). rewrite H. reflexivity.
Qed.

(** The recall tool on a reply that parsed, whatever its shape. *)
Lemma hindsight_recall_raw_settled params w v :
  settle (net (sent w) (recall_tool_request env client params)) = Normal v ->
  Raw.hindsight_recall_raw env net StringToNumber client params w
  = match Raw.listing env StringToNumber v with
    | Normal r => (Normal r, after_send w (recall_tool_request env client params))
    | Throw err =>
        (Normal (Raw.mkRawToolResult
                   [mkTextBlock (lit "text") (lit "Memory recall failed: " ++ String_err err)]
                   (Raw.RawError (String_err err))),
         after_log (after_send w (recall_tool_request env client params)) Warn
                   (lit "hindsight_recall failed: " ++ String_err err))
    end.
Proof.
  intros H. unfold Raw.hindsight_recall_raw, try_catch, bind. rewrite recall_raw_run.
  fold (recall_tool_request env client params). rewrite H. unfold Raw.complete.
  destruct (Raw.listing env StringToNumber v); reflexivity.
Qed.

(** A listing never carries an error detail. *)
Lemma listing_counts v r :
  Raw.listing env StringToNumber v = Normal r ->
  exists text count memories,
    r = Raw.mkRawToolResult [mkTextBlock (lit "text") text] (Raw.RawCount count memories).
Proof.
  unfold Raw.listing. destruct (Raw.get v (lit "results")) as [results|e]; [|discriminate].
  destruct (negb (truthy results) || Raw.length_is_zero results).
  - intros Hr. injection Hr as <-. eauto.
  - destruct results; try discriminate.
    destruct (Raw.map_from (Raw.recall_line_raw env StringToNumber) 0 items); [|discriminate].
    intros Hr. injection Hr as <-. eauto.
Qed.

(** Whatever the reply, the recall tool returns: a listing, or the
    degraded result of the error that was caught, with one warning. *)
Lemma hindsight_recall_raw_returns params w :
  exists r w',
    Raw.hindsight_recall_raw env net StringToNumber client params w = (Normal r, w')
    /\ sent w' = sent w ++ [recall_tool_request env client params]
    /\ match Raw.raw_details r with
       | Raw.RawCount _ _ => logged w' = logged w
       | Raw.RawError e =>
           exists err,
             e = String_err err
             /\ Raw.raw_content r
                = [mkTextBlock (lit "text") (lit "Memory recall failed: " ++ String_err err)]
             /\ logged w' = logged w ++ [(Warn, lit "hindsight_recall failed: "
                                                 ++ String_err err)]
       end.
Proof.
  destruct (settle (net (sent w) (recall_tool_request env client params))) as [v|err] eqn:H.
  - rewrite (hindsight_recall_raw_settled params w v H).
    destruct (Raw.listing env StringToNumber v) as [r|err] eqn:Hl.
    + destruct (listing_counts v r Hl) as (text & count & memories & ->).
      do 2 eexists. repeat split.
    + do 2 eexists. split; [reflexivity|]. split; [reflexivity|]. exists err. repeat split.
  - rewrite (hindsight_recall_raw_failed params w err H).
    do 2 eexists. split; [reflexivity|]. split; [reflexivity|]. exists err. repeat split.
Qed.

(** A reply that is [null]: the tool reports the TypeError. *)
Lemma hindsight_recall_raw_null params w v :
  settle (net (sent w) (recall_tool_request env client params)) = Normal v ->
  nullish v = true ->
  exists err,
    name err = lit "TypeError"
    /\ Raw.hindsight_recall_raw env net StringToNumber client params w
       = (Normal (Raw.mkRawToolResult
                    [mkTextBlock (lit "text") (lit "Memory recall failed: " ++ String_err err)]
                    (Raw.RawError (String_err err))),
          after_log (after_send w (recall_tool_request env client params)) Warn
                    (lit "hindsight_recall failed: " ++ String_err err)).
Proof.
  intros H Hv. rewrite (hindsight_recall_raw_settled params w v H).
  destruct v; try discriminate; eexists; (split; [|reflexivity]); reflexivity.
Qed.



Lemma bullets_raw_throw l : forall i e,
  Raw.map_from (Raw.bullet_raw env) i l = Throw e -> name e = lit "TypeError".
Proof.
  induction l as [|r l IH]; intros i e Hl; [discriminate|].
  cbn [Raw.map_from] in Hl.
  destruct (Raw.bullet_raw env r i) as [line|e'] eqn:Hline.
  - destruct (Raw.map_from (Raw.bullet_raw env) (S i) l) as [t|e'] eqn:Ht; [discriminate|].
    injection Hl as <-. exact (IH (S i) e' Ht).
  - injection Hl as <-. destruct r; try discriminate;
      cbn in Hline; injection Hline as <-; reflexivity.
Qed.

Lemma before_agent_start_raw_skipped event w :
  match prompt event with
  | None => True
  | Some p => length p < 10
  end ->
  Raw.before_agent_start_raw env net client event w = (Normal None, w).
Proof.
  unfold Raw.before_agent_start_raw. destruct (prompt event) as [p|]; [|reflexivity].
  intros H. apply Nat.ltb_lt in H. rewrite H, orb_true_r. reflexivity.
Qed.

Lemma before_agent_start_raw_failed (p : JsString) w err :
  10 <= length p ->
  settle (net (sent w) (auto_recall_request env client p)) = Throw err ->
  Raw.before_agent_start_raw env net client (mkBeforeAgentStart (Some p)) w
  = (Normal None,
     after_log (after_send w (auto_recall_request env client p)) Warn
               (lit "hindsight-memory: auto-recall failed: " ++ String_err err)).
Proof.
  intros Hp H. unfold Raw.before_agent_start_raw. cbn [prompt].
  rewrite (prompt_gate_open p Hp). unfold try_catch, bind. rewrite recall_raw_run.
  fold (auto_recall_request env client p). rewrite H. reflexivity.
Qed.

(** The auto-recall hook on a reply that parsed, whatever its shape: it
    injects, or returns nothing, or returns nothing and warns of the error
    it caught. *)
Lemma before_agent_start_raw_settled (p : JsString) w v :
  10 <= length p ->
  settle (net (sent w) (auto_recall_request env client p)) = Normal v ->
  (exists r ls,
     Raw.before_agent_start_raw env net client (mkBeforeAgentStart (Some p)) w
     = (Normal r, mkWorld (sent w ++ [auto_recall_request env client p]) (logged w ++ ls))
     /\ match r with
        | Some _ => exists line, ls = [(Info, line)]
        | None => ls = []
        end)
  \/ (exists err,
        name err = lit "TypeError"
        /\ Raw.before_agent_start_raw env net client (mkBeforeAgentStart (Some p)) w
           = (Normal None,
              after_log (after_send w (auto_recall_request env client p)) Warn
                        (lit "hindsight-memory: auto-recall failed: " ++ String_err err))).
Proof.
  intros Hp H. unfold Raw.before_agent_start_raw. cbn [prompt].
  rewrite (prompt_gate_open p Hp). unfold try_catch, bind. rewrite recall_raw_run.
  fold (auto_recall_request env client p). rewrite H.
  assert (Hnone : forall (X : option BeforeAgentStartResult -> Prop), X None ->
            exists r ls,
              (Normal (@None BeforeAgentStartResult),
               after_send w (auto_recall_request env client p))
              = (Normal r, mkWorld (sent w ++ [auto_recall_request env client p])
                                   (logged w ++ ls))
              /\ match r with
                 | Some _ => exists line, ls = [(Info, line)]
                 | None => ls = []
                 end).
  { intros X _. exists None, []. rewrite app_nil_r. split; reflexivity. }
  destruct v; cbn [member ret throw];
    try (right; eexists; split; [|reflexivity]; reflexivity);
    try (left; exact (Hnone (fun _ => True) I)).
  destruct (negb (truthy (prop (JObj props) (lit "results")))
            || Raw.length_is_zero (prop (JObj props) (lit "results")));
    [left; exact (Hnone (fun _ => True) I)|].
  destruct (prop (JObj props) (lit "results"));
    try (right; eexists; split; [|reflexivity]; reflexivity).
  unfold Raw.complete.
  destruct (Raw.map_from (Raw.bullet_raw env) 0 (firstn 5 items)) as [lines|e] eqn:Hl.
  - left. do 2 eexists. split; [reflexivity|]. eexists. reflexivity.
  - right. exists e. split; [|reflexivity].
    exact (bullets_raw_throw (firstn 5 items) 0 e Hl).
Qed.

Lemma before_agent_start_raw_returns event w :
  exists r w', Raw.before_agent_start_raw env net client event w = (Normal r, w').
Proof.
  destruct event as [[p|]]; [|rewrite before_agent_start_raw_skipped; cbn; eauto].
  destruct (Nat.lt_ge_cases (length p) 10) as [Hp|Hp].
  - rewrite before_agent_start_raw_skipped; cbn; eauto.
  - destruct (settle (net (sent w) (auto_recall_request env client p))) as [v|err] eqn:H.
    + destruct (before_agent_start_raw_settled p w v Hp H)
        as [(r & ls & -> & _)|(err & _ & ->)]; eauto.
    + rewrite (before_agent_start_raw_failed p w err Hp H). eauto.
Qed.

(** A reply that is [null]: the hook returns nothing and warns. *)
Lemma before_agent_start_raw_null (p : JsString) w v :
  10 <= length p ->
  settle (net (sent w) (auto_recall_request env client p)) = Normal v ->
  nullish v = true ->
  exists err,
    name err = lit "TypeError"
    /\ Raw.before_agent_start_raw env net client (mkBeforeAgentStart (Some p)) w
       = (Normal None,
          after_log (after_send w (auto_recall_request env client p)) Warn
                    (lit "hindsight-memory: auto-recall failed: " ++ String_err err)).
Proof.
  intros Hp H Hv. unfold Raw.before_agent_start_raw. cbn [prompt].
  rewrite (prompt_gate_open p Hp). unfold try_catch, bind. rewrite recall_raw_run.
  fold (auto_recall_request env client p). rewrite H.
  destruct v; try discriminate; eexists; (split; [|reflexivity]); reflexivity.
Qed.

End RawReplies.

(** ** The declared type as a view of the reply *)

Section TypedView.
Variable env : Env.
Variable StringToNumber : JsString -> float64.
Variable client : HindsightClient.






End TypedView.

(** ** The claims *)

Lemma String_err_Error msg :
  msg <> [] -> String_err (Error msg) = lit "Error: " ++ msg.
Proof. destruct msg; [congruence|reflexivity]. Qed.

Lemma env_ok_accepts : store_accepts Samples.env_ok.
Proof. intros h req. exists Samples.created. reflexivity. Qed.

Lemma env_json_accepts : store_accepts MoreSamples.env_json.
Proof. intros h req. exists Samples.created. reflexivity. Qed.


(** C1. Every failure of a client call is kept away from the host.  The
    client ends a call as its one exchange settles, and on a status outside
    200..299 it throws an error whose message carries the status code and
    the raw body text.  When the exchange a tool starts fails with [err],
    the tool returns a degraded result: one text block whose text ends with
    [String(err)], and the detail [{error: String(err)}].  When the
    exchange of a hook fails, the hook returns nothing, leaves exactly one
    warning and sends nothing after the request that failed.  A reply that
    parses and is not what the client declares can make a handler throw
    while it reads the reply ([null.results], say); that is caught just
    the same: over a recall reply of any shape the recall tool returns a
    listing or the degraded result of the error it caught, with one
    warning, and the auto-recall hook returns; a reply that is [null]
    makes either tool report a TypeError and the hook warn of one.  No
    handler ever completes by throwing. *)
Theorem client_failures_are_isolated (env : Env) (client : HindsightClient) (w : World) :
  (forall (T : Type) (net : list Request -> Request -> FetchOutcome T) method path body,
      let req := build_request env client method path body in
      request env net client method path body w
      = (settle (net (sent w) req), after_send w req)
      /\ forall r raw,
           net (sent w) req = Resolved r -> ok r = false -> text r = inr raw ->
           let err := Error (lit "Hindsight API error (" ++ decimal (status r)
                             ++ lit "): " ++ raw) in
           request env net client method path body w = (Throw err, after_send w req)
           /\ String_err err = lit "Error: Hindsight API error (" ++ decimal (status r)
                               ++ lit "): " ++ raw)
  /\ (forall params err,
        settle (fetch_recall env (sent w) (recall_tool_request env client params))
        = Throw err ->
        hindsight_recall env client params w
        = (Normal (mkToolResult
                     [mkTextBlock (lit "text") (lit "Memory recall failed: " ++ String_err err)]
                     (ErrorDetails (String_err err))),
           after_log (after_send w (recall_tool_request env client params)) Warn
                     (lit "hindsight_recall failed: " ++ String_err err)))
  /\ (forall params err,
        settle (fetch_memories env (sent w) (retain_tool_request env client params w))
        = Throw err ->
        hindsight_retain env client params w
        = (Normal (mkToolResult
                     [mkTextBlock (lit "text") (lit "Failed to store memory: " ++ String_err err)]
                     (ErrorDetails (String_err err))),
           after_log (after_send w (retain_tool_request env client params w)) Warn
                     (lit "hindsight_retain failed: " ++ String_err err)))
  /\ (forall (p : JsString) err,
        10 <= length p ->
        settle (fetch_recall env (sent w) (auto_recall_request env client p)) = Throw err ->
        before_agent_start env client (mkBeforeAgentStart (Some p)) w
        = (Normal None,
           after_log (after_send w (auto_recall_request env client p)) Warn
                     (lit "hindsight-memory: auto-recall failed: " ++ String_err err)))
  /\ (forall event,
        exists rs w',
          agent_end env client event w = (Normal tt, w')
          /\ sent w' = sent w ++ rs
          /\ forall rs1 req rs2 err,
               rs = rs1 ++ req :: rs2 ->
               settle (fetch_memories env (sent w ++ rs1) req) = Throw err ->
               rs2 = []
               /\ logged w' = logged w ++ [(Warn, lit "hindsight-memory: auto-retain failed: "
                                                   ++ String_err err)])
  /\ (forall params, exists r w', hindsight_recall env client params w = (Normal r, w'))
  /\ (forall params, exists r w', hindsight_retain env client params w = (Normal r, w'))
  /\ (forall event, exists r w', before_agent_start env client event w = (Normal r, w'))
  /\ (forall params v,
        settle (fetch_memories env (sent w) (retain_tool_request env client params w))
        = Normal v ->
        nullish v = true ->
        exists err,
          name err = lit "TypeError"
          /\ hindsight_retain env client params w
             = (Normal (mkToolResult
                          [mkTextBlock (lit "text")
                             (lit "Failed to store memory: " ++ String_err err)]
                          (ErrorDetails (String_err err))),
                after_log (after_send w (retain_tool_request env client params w)) Warn
                          (lit "hindsight_retain failed: " ++ String_err err)))
  /\ (forall (net : list Request -> Request -> FetchOutcome JsVal) StringToNumber params,
        exists r w',
          Raw.hindsight_recall_raw env net StringToNumber client params w = (Normal r, w')
          /\ sent w' = sent w ++ [recall_tool_request env client params]
          /\ match Raw.raw_details r with
             | Raw.RawCount _ _ => logged w' = logged w
             | Raw.RawError e =>
                 exists err,
                   e = String_err err
                   /\ Raw.raw_content r
                      = [mkTextBlock (lit "text")
                           (lit "Memory recall failed: " ++ String_err err)]
                   /\ logged w' = logged w ++ [(Warn, lit "hindsight_recall failed: "
                                                       ++ String_err err)]
             end)
  /\ (forall (net : list Request -> Request -> FetchOutcome JsVal) StringToNumber params v,
        settle (net (sent w) (recall_tool_request env client params)) = Normal v ->
        nullish v = true ->
        exists err,
          name err = lit "TypeError"
          /\ Raw.hindsight_recall_raw env net StringToNumber client params w
             = (Normal (Raw.mkRawToolResult
                          [mkTextBlock (lit "text")
                             (lit "Memory recall failed: " ++ String_err err)]
                          (Raw.RawError (String_err err))),
                after_log (after_send w (recall_tool_request env client params)) Warn
                          (lit "hindsight_recall failed: " ++ String_err err)))
  /\ (forall (net : list Request -> Request -> FetchOutcome JsVal) event,
        exists r w', Raw.before_agent_start_raw env net client event w = (Normal r, w'))
  /\ (forall (net : list Request -> Request -> FetchOutcome JsVal) (p : JsString) v,
        10 <= length p ->
        settle (net (sent w) (auto_recall_request env client p)) = Normal v ->
        nullish v = true ->
        exists err,
          name err = lit "TypeError"
          /\ Raw.before_agent_start_raw env net client (mkBeforeAgentStart (Some p)) w
             = (Normal None,
                after_log (after_send w (auto_recall_request env client p)) Warn
                          (lit "hindsight-memory: auto-recall failed: " ++ String_err err))).
Proof.
  split.
  { intros T net method path body req. split; [apply request_run|].
    intros r raw Hnet Hok Htext err. split.
    - rewrite request_run. fold req. rewrite Hnet. unfold settle.
      rewrite <- ok_status, Hok, Htext. reflexivity.
    - unfold err. rewrite String_err_Error by discriminate. reflexivity. }
  split; [intros params err; apply hindsight_recall_failed|].
  split; [intros params err; apply hindsight_retain_failed|].
  split; [intros p err; apply before_agent_start_failed|].
  split.
  { intros event. destruct (agent_end_run env client event w) as (rs & w' & H1 & H2 & H3 & _).
    exists rs, w'. auto. }
  split; [intros params; apply hindsight_recall_returns|].
  split; [intros params; apply hindsight_retain_returns|].
  split; [intros event; apply before_agent_start_returns|].
  split; [intros params v; apply hindsight_retain_null|].
  split; [intros net StringToNumber params; apply hindsight_recall_raw_returns|].
  split; [intros net StringToNumber params v; apply hindsight_recall_raw_null|].
  split; [intros net event; apply before_agent_start_raw_returns|].
  intros net p v. apply before_agent_start_raw_null.
Qed.

(** Scenario 3 of the specification: the store answers 500 "db down" to a
    retain; the tool's text contains "db down" and nothing is thrown.  A
    store that accepts two items and then is down: the auto-retain hook
    stops at the third request and leaves one warning.  And a recall
    endpoint that answers 200 with the body [null]: the recall tool reports
    a TypeError, the auto-recall hook warns of one. *)
Lemma client_failures_are_isolated_witness :
  hindsight_retain Samples.env_down Samples.client
    (mkRetainParams (lit "User prefers dark mode") None (Some [lit "preference"]))
    Samples.w0
  = (Normal (mkToolResult
               [mkTextBlock (lit "text")
                  (lit "Failed to store memory: Error: Hindsight API error (500): db down")]
               (ErrorDetails (lit "Error: Hindsight API error (500): db down"))),
     mkWorld
       [retain_request Samples.env_down Samples.client (lit "User prefers dark mode")
          (Some (mkRetainOptions None (Some [lit "preference"])))
          (lit "2026-01-01T00:00:00.000Z")]
       [(Warn, lit "hindsight_retain failed: Error: Hindsight API error (500): db down")])
  /\ (exists w',
        agent_end Samples.env_flaky Samples.client
          (mkAgentEnd true (Some Samples.conversation)) Samples.w0 = (Normal tt, w')
        /\ length (sent w') = 3
        /\ logged w'
           = [(Warn, lit "hindsight-memory: auto-retain failed: Error: Hindsight API error (500): db down")])
  /\ (exists err,
        name err = lit "TypeError"
        /\ fst (Raw.hindsight_recall_raw Samples.env_ok MoreSamples.net_null
                  MoreSamples.one_half Samples.client
                  (mkRecallParams (lit "dark mode") None) Samples.w0)
           = Normal (Raw.mkRawToolResult
                       [mkTextBlock (lit "text")
                          (lit "Memory recall failed: " ++ String_err err)]
                       (Raw.RawError (String_err err))))
  /\ (exists err,
        name err = lit "TypeError"
        /\ Raw.before_agent_start_raw Samples.env_ok MoreSamples.net_null Samples.client
             (mkBeforeAgentStart (Some (lit "What theme does the user like?"))) Samples.w0
           = (Normal None,
              mkWorld [auto_recall_request Samples.env_ok Samples.client
                         (lit "What theme does the user like?")]
                      [(Warn, lit "hindsight-memory: auto-recall failed: "
                              ++ String_err err)])).
Proof.
  split; [|split; [|split]].
  - destruct (client_failures_are_isolated Samples.env_down Samples.client Samples.w0)
      as (_ & _ & H & _).
    rewrite (H (mkRetainParams (lit "User prefers dark mode") None (Some [lit "preference"]))
               (RemoteServiceError 500 (lit "db down"))).
    + reflexivity.
    + reflexivity.
  - destruct (client_failures_are_isolated Samples.env_flaky Samples.client Samples.w0)
      as (_ & _ & _ & _ & H & _).
    destruct (H (mkAgentEnd true (Some Samples.conversation)))
      as (rs & w' & Hrun & Hsent & Hfail).
    exists w'. split; [exact Hrun|].
    assert (Hw : w' = snd (agent_end Samples.env_flaky Samples.client
                             (mkAgentEnd true (Some Samples.conversation)) Samples.w0))
      by (rewrite Hrun; reflexivity).
    assert (Hrs : sent (snd (agent_end Samples.env_flaky Samples.client
                               (mkAgentEnd true (Some Samples.conversation)) Samples.w0))
                  = rs) by (rewrite <- Hw; exact Hsent).
    vm_compute in Hrs. subst rs.
    match type of Hfail with
    | forall rs1 req rs2 err, [?a; ?b; ?c] = _ -> _ =>
        destruct (Hfail [a; b] c [] (RemoteServiceError 500 (lit "db down")) eq_refl)
          as [_ Hlog]
    end.
    + vm_compute. reflexivity.
    + split; [rewrite Hsent; reflexivity|exact Hlog].
  - destruct (client_failures_are_isolated Samples.env_ok Samples.client Samples.w0)
      as (_ & _ & _ & _ & _ & _ & _ & _ & _ & _ & H & _).
    destruct (H MoreSamples.net_null MoreSamples.one_half
                (mkRecallParams (lit "dark mode") None) JNull eq_refl eq_refl)
      as (err & Hname & Hrun).
    exists err. split; [exact Hname|]. rewrite Hrun. reflexivity.
  - destruct (client_failures_are_isolated Samples.env_ok Samples.client Samples.w0)
      as (_ & _ & _ & _ & _ & _ & _ & _ & _ & _ & _ & _ & H).
    destruct (H MoreSamples.net_null (lit "What theme does the user like?") JNull)
      as (err & Hname & Hrun).
    + vm_compute. lia.
    + reflexivity.
    + reflexivity.
    + exists err. split; [exact Hname|]. exact Hrun.
Defined.

Lemma auto_request_submission env client r (c : JsString) :
  auto_request env client r c -> Written.auto_submission env client r c.
Proof. intros [now ->]. exists now. reflexivity. Qed.

Lemma auto_requests_submissions env client rs cs :
  Forall2 (auto_request env client) rs cs ->
  Forall2 (Written.auto_submission env client) rs cs.
Proof.
  induction 1 as [|r c rs cs Hr _ IH]; constructor;
    [apply auto_request_submission; exact Hr|exact IH].
Qed.

(** C2. The auto-retain hook on a turn-ended event.  When the turn failed,
    or carries no message list or an empty one, nothing is sent and nothing
    is logged.  Otherwise every request sent is a POST of one item to the
    memories of the bank, and the item is written out: its content is a
    candidate, its context is "auto-captured from conversation", its tags
    are "conversation" and "auto", and it has a timestamp.  The candidates
    so submitted are a beginning of the first five candidates, one request
    per candidate and in their order; all of the first five when the store
    accepts every request.  The candidates are, in message order, the
    trimmed texts of the messages of role "user" (the string content, or
    the text of each block of type "text") whose trimmed length exceeds
    10; the loop of the source computes exactly these. *)
Theorem auto_retain_policy (env : Env) (client : HindsightClient)
    (event : AgentEndEvent) (w : World) :
  (success event = false \/ messages event = None \/ messages event = Some [] ->
   agent_end env client event w = (Normal tt, w))
  /\ (forall msgs,
        success event = true -> messages event = Some msgs ->
        exists rs submitted,
          sent (snd (agent_end env client event w)) = sent w ++ rs
          /\ Forall2
               (fun r c =>
                  exists now,
                    r = mkRequest
                          (baseUrl client ++ lit "/v1/default/banks/" ++ bankId client
                           ++ lit "/memories")
                          (lit "POST") (request_headers client)
                          (Some (JSON_stringify env
                                   (JObj [(lit "items",
                                           JArr [JObj
                                             [ (lit "content", JStr c);
                                               (lit "context",
                                                JStr (lit "auto-captured from conversation"));
                                               (lit "tags",
                                                JArr [JStr (lit "conversation");
                                                      JStr (lit "auto")]);
                                               (lit "timestamp", JStr now) ]])]))))
               rs submitted
          /\ prefix_of submitted (firstn 5 (candidates msgs))
          /\ length rs <= 5
          /\ (store_accepts env -> submitted = firstn 5 (candidates msgs)))
  /\ (forall msgs,
        extract msgs = candidates msgs
        /\ forall c, In c (candidates msgs) ->
             exists msg raw,
               In msg msgs /\ is_user msg = true /\ In raw (candidate_texts msg)
               /\ c = trim raw /\ 10 < length (trim raw)).
Proof.
  split; [apply agent_end_skipped|]. split.
  - intros msgs Hs Hm.
    destruct (agent_end_run env client event w) as (rs & w' & Hrun & Hsent & _ & Hrs).
    rewrite Hm, Hs in Hrs. destruct Hrs as (HF & Hlen & Hacc).
    exists rs, (firstn (length rs) (firstn 5 (candidates msgs))).
    rewrite Hrun. cbn [snd].
    split; [exact Hsent|].
    split; [exact (auto_requests_submissions env client _ _ HF)|].
    split; [exists (skipn (length rs) (firstn 5 (candidates msgs)));
            symmetry; apply firstn_skipn|].
    split.
    + pose proof (firstn_le_length 5 (candidates msgs)). lia.
    + intros Ha. rewrite (Hacc Ha). apply firstn_all.
  - intros msgs. split; [apply extract_candidates|].
    intros c Hc. destruct (candidates_trimmed msgs c Hc) as (raw & Hraw & -> & Hlong).
    destruct (raw_candidates_from_user msgs raw Hraw) as (msg & Hin & Hu & Ht).
    exists msg, raw. auto.
Qed.

(** A successful turn with seven candidates in nine messages, the store
    accepting and the host writing the bodies out: the first five are
    submitted, trimmed and in order, each with the context and the tags of
    an automatic capture and the time of its own request; the body of the
    second one is written out in full.  That candidate comes from a text
    block of the fourth message.  The same conversation on a failed turn:
    nothing is sent. *)
Lemma auto_retain_policy_witness :
  let run := agent_end MoreSamples.env_json Samples.client
               (mkAgentEnd true (Some Samples.conversation)) Samples.w0 in
  Forall2 (Written.auto_submission MoreSamples.env_json Samples.client) (sent (snd run))
    [ lit "I prefer dark mode in every editor";
      lit "My deploy target is staging";
      lit "Please remember my name is Ada";
      lit "I work in the Berlin office";
      lit "My editor of choice is vim" ]
  /\ sent (snd run)
     = map (fun c_now => Written.creation_request MoreSamples.env_json Samples.client
                           (Written.auto_item (fst c_now) (snd c_now)))
           [ (lit "I prefer dark mode in every editor", lit "2026-01-01T00:00:00.000Z");
             (lit "My deploy target is staging", lit "2026-01-01T00:00:01.000Z");
             (lit "Please remember my name is Ada", lit "2026-01-01T00:00:02.000Z");
             (lit "I work in the Berlin office", lit "2026-01-01T00:00:03.000Z");
             (lit "My editor of choice is vim", lit "2026-01-01T00:00:04.000Z") ]
  /\ option_map req_body (nth_error (sent (snd run)) 1)
     = Some (Some (lit "{" ++ MoreSamples.quoted (lit "items") ++ lit ":[{"
                   ++ MoreSamples.quoted (lit "content") ++ lit ":"
                   ++ MoreSamples.quoted (lit "My deploy target is staging") ++ lit ","
                   ++ MoreSamples.quoted (lit "context") ++ lit ":"
                   ++ MoreSamples.quoted (lit "auto-captured from conversation") ++ lit ","
                   ++ MoreSamples.quoted (lit "tags") ++ lit ":["
                   ++ MoreSamples.quoted (lit "conversation") ++ lit ","
                   ++ MoreSamples.quoted (lit "auto") ++ lit "],"
                   ++ MoreSamples.quoted (lit "timestamp") ++ lit ":"
                   ++ MoreSamples.quoted (lit "2026-01-01T00:00:01.000Z") ++ lit "}]}"))
  /\ agent_end MoreSamples.env_json Samples.client
       (mkAgentEnd false (Some Samples.conversation)) Samples.w0
     = (Normal tt, Samples.w0)
  /\ (exists msg raw,
        In msg Samples.conversation /\ is_user msg = true
        /\ In raw (candidate_texts msg)
        /\ lit "My deploy target is staging" = trim raw /\ 10 < length (trim raw)).
Proof.
  intros run. split; [|split; [|split; [|split]]].
  - destruct (auto_retain_policy MoreSamples.env_json Samples.client
                (mkAgentEnd true (Some Samples.conversation)) Samples.w0) as (_ & H & _).
    destruct (H Samples.conversation eq_refl eq_refl)
      as (rs & submitted & Hs & HF & _ & _ & Ha).
    rewrite (Ha env_json_accepts) in HF. unfold run. rewrite Hs. exact HF.
  - vm_compute. reflexivity.
  - vm_compute. reflexivity.
  - destruct (auto_retain_policy MoreSamples.env_json Samples.client
                (mkAgentEnd false (Some Samples.conversation)) Samples.w0) as (H & _).
    apply H. left. reflexivity.
  - destruct (auto_retain_policy MoreSamples.env_json Samples.client
                (mkAgentEnd true (Some Samples.conversation)) Samples.w0) as (_ & _ & H).
    destruct (H Samples.conversation) as [_ Hc].
    apply Hc. vm_compute. right. left. reflexivity.
Defined.

(** C3. The auto-recall hook on a turn-starting event.  Without a prompt,
    or with one shorter than 10 code units, nothing is sent and nothing is
    returned.  Otherwise exactly one search request is sent, for the prompt
    as the query and with [max_tokens] 1500.  When it returns no results
    nothing is injected; when it returns some, the hook returns a
    prependContext whose text is the opening marker, the preamble, one line
    "- {content}" for each of the first five results in the order received,
    and the closing marker. *)
Theorem auto_recall_policy (env : Env) (client : HindsightClient)
    (event : BeforeAgentStartEvent) (w : World) :
  (match prompt event with
   | None => True
   | Some p => length p < 10
   end ->
   before_agent_start env client event w = (Normal None, w))
  /\ (forall p : JsString,
        prompt event = Some p -> 10 <= length p ->
        let req := auto_recall_request env client p in
        sent (snd (before_agent_start env client event w)) = sent w ++ [req]
        /\ (exists body,
              req_body req = Some (JSON_stringify env body)
              /\ prop body (lit "query") = JStr p
              /\ prop body (lit "max_tokens") = JNum (float_of_Z 1500))
        /\ forall response,
             settle (fetch_recall env (sent w) req) = Normal response ->
             match results response with
             | None | Some [] =>
                 before_agent_start env client event w = (Normal None, after_send w req)
             | Some rs =>
                 fst (before_agent_start env client event w)
                 = Normal (Some (mkPrepend
                     (lit "<relevant-memories>" ++ LF
                      ++ lit "The following memories may be relevant:" ++ LF
                      ++ flat_map bullet_line (firstn 5 rs)
                      ++ lit "</relevant-memories>")))
             end).
Proof.
  split; [apply before_agent_start_skipped|].
  intros p Hp Hlen req. destruct event as [pr]. cbn in Hp. subst pr.
  split; [apply before_agent_start_sent; exact Hlen|].
  split.
  { exists (recall_body p (Some (mkRecallOptions (Some (float_of_Z 1500)) None))).
    repeat split. }
  intros response Hres.
  rewrite (before_agent_start_settled env client p w response Hlen Hres).
  destruct (results response) as [[|r rs]|]; try reflexivity.
  cbn [fst]. do 3 f_equal.
  assert (Hb : flat_map bullet_line (firstn 5 (r :: rs))
               = join LF (map (fun r => lit "- " ++ content r) (firstn 5 (r :: rs))) ++ LF).
  { rewrite join_terminated by discriminate.
    apply flat_map_ext. intros a. unfold bullet_line. rewrite app_assoc. reflexivity. }
  rewrite Hb, <- !app_assoc. reflexivity.
Qed.

(** A prompt of 30 code units with a store that recalls two memories, and
    scenario 4: a prompt of length 5 sends nothing. *)
Lemma auto_recall_policy_witness :
  fst (before_agent_start Samples.env_ok Samples.client
         (mkBeforeAgentStart (Some (lit "What theme does the user like?"))) Samples.w0)
  = Normal (Some (mkPrepend
      (lit "<relevant-memories>" ++ LF
       ++ lit "The following memories may be relevant:" ++ LF
       ++ lit "- User prefers dark mode" ++ LF
       ++ lit "- User edits with vim" ++ LF
       ++ lit "</relevant-memories>")))
  /\ before_agent_start Samples.env_ok Samples.client
       (mkBeforeAgentStart (Some (lit "hello"))) Samples.w0
     = (Normal None, Samples.w0).
Proof.
  split.
  - destruct (auto_recall_policy Samples.env_ok Samples.client
                (mkBeforeAgentStart (Some (lit "What theme does the user like?")))
                Samples.w0) as [_ H].
    destruct (H (lit "What theme does the user like?") eq_refl) as (_ & _ & H3).
    + vm_compute. lia.
    + exact (H3 (mkRecallResponse (Some [Samples.dark_mode; Samples.uses_vim])) eq_refl).
  - destruct (auto_recall_policy Samples.env_ok Samples.client
                (mkBeforeAgentStart (Some (lit "hello"))) Samples.w0) as [H _].
    apply H. vm_compute. lia.
Defined.

Lemma recall_lines_numbered env rs : forall i,
  Forall (fun r => unit_score (score r) = true) rs ->
  mapi_from i (recall_line env) rs
  = map (fun ir => numbered_entry (fst ir) (snd ir)) (combine (seq (S i) (length rs)) rs).
Proof.
  induction rs as [|r rs IH]; intros i H; [reflexivity|].
  inversion H as [|? ? Hr Hrs]; subst.
  cbn [mapi_from length seq combine map fst snd]. f_equal; [|apply IH; exact Hrs].
  unfold recall_line, numbered_entry.
  rewrite (toFixed0_percent (Number_toString env) (score r) Hr), Nat.add_1_r. reflexivity.
Qed.

Lemma percent_of_sample_scores nt :
  toFixed0 nt (fmul (float_of_decimal 873 3) (float_of_Z 100)) = lit "87"
  /\ toFixed0 nt (fmul (float_of_decimal 9 1) (float_of_Z 100)) = lit "90"
  /\ toFixed0 nt (fmul (float_of_decimal 6 1) (float_of_Z 100)) = lit "60".
Proof. repeat split; vm_compute; reflexivity. Qed.

(** C4, as stated, fails.  The double nearest to 0.995 is a score in
    [0, 1] whose value is a little less than 0.995, so its value times 100
    rounds to 99 and the entry of the claim reads "(relevance: 99%)"; the
    product the source computes in binary64 is 99.5, and the tool prints
    "(relevance: 100%)". *)
Lemma rendered_percent_is_not_round :
  unit_score (score MoreSamples.edge) = true
  /\ round (float_value (score MoreSamples.edge) * 100)%Q = 99%Z
  /\ rounded_entry 1 MoreSamples.edge = lit "1. edge (relevance: 99%)"
  /\ fst (hindsight_recall MoreSamples.env_edge Samples.client
            (mkRecallParams (lit "edge") None) Samples.w0)
     = Normal (mkToolResult
                 [mkTextBlock (lit "text")
                    (lit "Found 1 memories:" ++ LF ++ LF ++ lit "1. edge (relevance: 100%)")]
                 (RecallDetails 1
                    (Some [mkMemoryDetail (lit "m1") (lit "edge") (float_of_decimal 995 3)])))
  /\ fst (hindsight_recall MoreSamples.env_edge Samples.client
            (mkRecallParams (lit "edge") None) Samples.w0)
     <> Normal (mkToolResult
                  [mkTextBlock (lit "text")
                     (lit "Found 1 memories:" ++ LF ++ LF
                      ++ rounded_entry 1 MoreSamples.edge)]
                  (RecallDetails 1
                     (Some [mkMemoryDetail (lit "m1") (lit "edge") (float_of_decimal 995 3)]))).
Proof.
  split; [vm_compute; reflexivity|]. split; [vm_compute; reflexivity|].
  split; [vm_compute; reflexivity|].
  split; [vm_compute; reflexivity|].
  intros H. vm_compute in H. discriminate H.
Qed.

(** C4, amended.  The recall tool on a recall that succeeds.  With no
    results the result is one text block "No relevant memories found." and
    the detail [{count: 0}].  With n > 0 results, each a RecallResult with
    its score in [0, 1], the text is "Found n memories:" and, after a blank
    line, the entries "{index}. {content} (relevance: {p}%)" numbered from
    1 in the order received and separated by blank lines; the detail counts
    and lists them.  Here p is the binary64 product of the score and 100,
    rounded to the nearest integer, halves upwards.  A score of 0.873
    prints 87%, and two results of scores 0.9 and 0.6 give exactly the text
    of scenario 2. *)
Theorem recall_tool_rendering (env : Env) (client : HindsightClient)
    (params : RecallParams) (w : World) :
  (forall response,
     settle (fetch_recall env (sent w) (recall_tool_request env client params))
     = Normal response ->
     match results response with
     | None | Some [] =>
         fst (hindsight_recall env client params w)
         = Normal (mkToolResult
                     [mkTextBlock (lit "text") (lit "No relevant memories found.")]
                     (RecallDetails 0 None))
     | Some rs =>
         Forall (fun r => unit_score (score r) = true) rs ->
         fst (hindsight_recall env client params w)
         = Normal (mkToolResult
                     [mkTextBlock (lit "text")
                        (lit "Found " ++ decimal_nat (length rs) ++ lit " memories:"
                         ++ LF ++ LF
                         ++ join (LF ++ LF)
                              (map (fun ir => numbered_entry (fst ir) (snd ir))
                                   (combine (seq 1 (length rs)) rs)))]
                     (RecallDetails (length rs)
                        (Some (map (fun r => mkMemoryDetail (memory_id r) (content r) (score r))
                                   rs))))
     end)
  /\ (forall r i,
        score r = float_of_decimal 873 3 ->
        recall_line env r i
        = decimal_nat (i + 1) ++ lit ". " ++ content r ++ lit " (relevance: 87%)")
  /\ (forall response r1 r2,
        settle (fetch_recall env (sent w) (recall_tool_request env client params))
        = Normal response ->
        results response = Some [r1; r2] ->
        score r1 = float_of_decimal 9 1 -> score r2 = float_of_decimal 6 1 ->
        fst (hindsight_recall env client params w)
        = Normal (mkToolResult
                    [mkTextBlock (lit "text")
                       (lit "Found 2 memories:" ++ LF ++ LF
                        ++ lit "1. " ++ content r1 ++ lit " (relevance: 90%)" ++ LF ++ LF
                        ++ lit "2. " ++ content r2 ++ lit " (relevance: 60%)")]
                    (RecallDetails 2
                       (Some [mkMemoryDetail (memory_id r1) (content r1) (score r1);
                              mkMemoryDetail (memory_id r2) (content r2) (score r2)])))).
Proof.
  destruct (percent_of_sample_scores (Number_toString env)) as (H87 & H90 & H60).
  split; [|split].
  - intros response Hres. rewrite (hindsight_recall_settled env client params w response Hres).
    destruct (results response) as [[|r rs]|]; try reflexivity.
    intros Hunit. cbn [fst]. unfold mapi.
    rewrite (recall_lines_numbered env (r :: rs) 0 Hunit). reflexivity.
  - intros r i Hs. unfold recall_line. rewrite Hs, H87. reflexivity.
  - intros response r1 r2 Hres Hrs H1 H2.
    assert (H90' : toFixed0 (Number_toString env) (fmul (score r1) (float_of_Z 100))
                   = lit "90") by (rewrite H1; exact H90).
    assert (H60' : toFixed0 (Number_toString env) (fmul (score r2) (float_of_Z 100))
                   = lit "60") by (rewrite H2; exact H60).
    rewrite (hindsight_recall_settled env client params w response Hres), Hrs.
    cbn [fst mapi mapi_from join length map].
    unfold recall_line. rewrite H90', H60'.
    do 4 f_equal. rewrite <- !app_assoc. reflexivity.
Qed.

(** Scenario 2 on the sample store, twice: two memories of scores 0.9 and
    0.6, both in [0, 1]; and a memory of score 0.873. *)
Lemma recall_tool_rendering_witness :
  fst (hindsight_recall Samples.env_ok Samples.client
         (mkRecallParams (lit "dark mode") None) Samples.w0)
  = Normal (mkToolResult
      [mkTextBlock (lit "text")
         (lit "Found 2 memories:" ++ LF ++ LF
          ++ lit "1. User prefers dark mode (relevance: 90%)" ++ LF ++ LF
          ++ lit "2. User edits with vim (relevance: 60%)")]
      (RecallDetails 2
         (Some [mkMemoryDetail (lit "m1") (lit "User prefers dark mode") (float_of_decimal 9 1);
                mkMemoryDetail (lit "m2") (lit "User edits with vim") (float_of_decimal 6 1)])))
  /\ fst (hindsight_recall Samples.env_ok Samples.client
            (mkRecallParams (lit "dark mode") None) Samples.w0)
     = Normal (mkToolResult
         [mkTextBlock (lit "text")
            (lit "Found 2 memories:" ++ LF ++ LF
             ++ lit "1. " ++ lit "User prefers dark mode" ++ lit " (relevance: 90%)" ++ LF ++ LF
             ++ lit "2. " ++ lit "User edits with vim" ++ lit " (relevance: 60%)")]
         (RecallDetails 2
            (Some [mkMemoryDetail (lit "m1") (lit "User prefers dark mode")
                     (float_of_decimal 9 1);
                   mkMemoryDetail (lit "m2") (lit "User edits with vim")
                     (float_of_decimal 6 1)])))
  /\ recall_line Samples.env_ok
       (mkRecallResult (lit "m3") (lit "User likes tea") (float_of_decimal 873 3) None) 2
     = lit "3. User likes tea (relevance: 87%)".
Proof.
  destruct (recall_tool_rendering Samples.env_ok Samples.client
              (mkRecallParams (lit "dark mode") None) Samples.w0) as (H1 & H2 & H3).
  split; [|split].
  - specialize (H1 (mkRecallResponse (Some [Samples.dark_mode; Samples.uses_vim])) eq_refl).
    cbn [results] in H1. rewrite H1.
    + vm_compute. reflexivity.
    + repeat constructor.
  - exact (H3 (mkRecallResponse (Some [Samples.dark_mode; Samples.uses_vim]))
              Samples.dark_mode Samples.uses_vim eq_refl eq_refl eq_refl eq_refl).
  - rewrite (H2 (mkRecallResult (lit "m3") (lit "User likes tea") (float_of_decimal 873 3) None)
                2 eq_refl).
    reflexivity.
Defined.

Lemma retain_normal env client params w v w1 :
  retain env client (param_content params)
         (Some (mkRetainOptions (param_context params) (param_tags params))) w
  = (Normal v, w1) ->
  settle (fetch_memories env (sent w) (retain_tool_request env client params w)) = Normal v
  /\ w1 = after_send w (retain_tool_request env client params w).
Proof.
  rewrite retain_run. fold (retain_tool_request env client params w).
  intros H. injection H as H1 H2. auto.
Qed.

(** C5. The retain tool on a retain that succeeds: when the client's
    [retain] returns the parsed body [v] (an object, as its declared
    contract [{success, items_count}] has it), the tool returns one text
    block, the confirmation, and the detail [{action: "created",
    memoryIds}] where [memoryIds] is [v.memory_ids].  A body that has
    exactly the two fields of the contract has no such member, so
    [memoryIds] is then [undefined]. *)
Theorem retain_tool_created (env : Env) (client : HindsightClient)
    (params : RetainParams) (w : World) :
  (forall v w1,
     retain env client (param_content params)
            (Some (mkRetainOptions (param_context params) (param_tags params))) w
     = (Normal v, w1) ->
     nullish v = false ->
     hindsight_retain env client params w
     = (Normal (mkToolResult
                  [mkTextBlock (lit "text")
                     (lit "Stored in memory: " ++ DQUOTE ++ firstn 100 (param_content params)
                      ++ (if 100 <? length (param_content params) then lit "..." else [])
                      ++ DQUOTE)]
                  (RetainDetails (lit "created") (prop v (lit "memory_ids")))),
        w1))
  /\ (forall v, retain_contract v ->
        nullish v = false /\ prop v (lit "memory_ids") = JUndefined)
  /\ (forall v w1,
        retain env client (param_content params)
               (Some (mkRetainOptions (param_context params) (param_tags params))) w
        = (Normal v, w1) ->
        retain_contract v ->
        exists text,
          hindsight_retain env client params w
          = (Normal (mkToolResult [mkTextBlock (lit "text") text]
                                  (RetainDetails (lit "created") JUndefined)),
             w1)).
Proof.
  split; [|split].
  - intros v w1 Hret Hv. destruct (retain_normal env client params w v w1 Hret) as [Hs ->].
    apply hindsight_retain_settled; assumption.
  - intros v (b & n & ->). split; reflexivity.
  - intros v w1 Hret (b & n & ->).
    destruct (retain_normal env client params w _ w1 Hret) as [Hs ->].
    rewrite (hindsight_retain_settled env client params w _ Hs eq_refl).
    eexists. reflexivity.
Qed.

(** Scenario 1: the store accepts "User prefers dark mode"; the tool
    reports the action "created", and with the contract's reply the ids
    are undefined. *)
Lemma retain_tool_created_witness :
  fst (hindsight_retain Samples.env_ok Samples.client
         (mkRetainParams (lit "User prefers dark mode") None (Some [lit "preference"]))
         Samples.w0)
  = Normal (mkToolResult
              [mkTextBlock (lit "text")
                 (lit "Stored in memory: " ++ DQUOTE ++ lit "User prefers dark mode" ++ DQUOTE)]
              (RetainDetails (lit "created") JUndefined))
  /\ prop Samples.created (lit "memory_ids") = JUndefined.
Proof.
  destruct (retain_tool_created Samples.env_ok Samples.client
              (mkRetainParams (lit "User prefers dark mode") None (Some [lit "preference"]))
              Samples.w0) as (H & Hc & _).
  split.
  - rewrite (H Samples.created _ eq_refl eq_refl). reflexivity.
  - apply Hc. exists true, (float_of_Z 1). reflexivity.
Defined.

(** C6. The retain tool echoes at most 100 code units and stores all of
    them.  Whatever the store answers, the one request sent carries a
    single item whose content is the content given, unmodified.  When the
    retain succeeds, the text of the one text block returned is
    "Stored in memory: " and, between double quotes, the content itself if
    its length is at most 100, and its first 100 code units followed by
    "..." if it is longer. *)
Theorem retain_echo_truncation (env : Env) (client : HindsightClient)
    (params : RetainParams) (w : World) :
  (exists item,
     sent (snd (hindsight_retain env client params w))
     = sent w ++ [mkRequest
                    (baseUrl client ++ lit "/v1/default/banks/" ++ bankId client
                     ++ lit "/memories")
                    (lit "POST") (request_headers client)
                    (Some (JSON_stringify env (JObj [(lit "items", JArr [item])])))]
     /\ prop item (lit "content") = JStr (param_content params))
  /\ (forall v w1,
        retain env client (param_content params)
               (Some (mkRetainOptions (param_context params) (param_tags params))) w
        = (Normal v, w1) ->
        nullish v = false ->
        (length (param_content params) <= 100 ->
         fst (hindsight_retain env client params w)
         = Normal (mkToolResult
                     [mkTextBlock (lit "text")
                        (lit "Stored in memory: " ++ DQUOTE ++ param_content params
                         ++ DQUOTE)]
                     (RetainDetails (lit "created") (prop v (lit "memory_ids")))))
        /\ (100 < length (param_content params) ->
            fst (hindsight_retain env client params w)
            = Normal (mkToolResult
                        [mkTextBlock (lit "text")
                           (lit "Stored in memory: " ++ DQUOTE
                            ++ firstn 100 (param_content params) ++ lit "..." ++ DQUOTE)]
                        (RetainDetails (lit "created") (prop v (lit "memory_ids"))))
            /\ length (firstn 100 (param_content params)) = 100)).
Proof.
  split.
  - exists (retain_item (param_content params)
                        (Some (mkRetainOptions (param_context params) (param_tags params)))
                        (Date_toISOString env (sent w))).
    split; [apply hindsight_retain_sent|reflexivity].
  - intros v w1 Hret Hv. destruct (retain_normal env client params w v w1 Hret) as [Hs ->].
    rewrite (hindsight_retain_settled env client params w v Hs Hv). cbn [fst].
    unfold slice0. split.
    + intros Hle. apply Nat.ltb_ge in Hle as Hlt. rewrite Hlt.
      rewrite (firstn_all2 (param_content params) Hle). reflexivity.
    + intros Hgt. apply Nat.ltb_lt in Hgt as Hlt. rewrite Hlt.
      split; [reflexivity|]. apply firstn_length_le. lia.
Qed.

(** A content of 120 letters, the host writing the body out: the echo is
    its first 100 letters and "...", and the item sent carries all 120.  A
    content of 22 letters is echoed as it is. *)
Lemma retain_echo_truncation_witness :
  let params := mkRetainParams (repeat 97%N 120) None None in
  (exists item,
     sent (snd (hindsight_retain MoreSamples.env_json Samples.client params Samples.w0))
     = [mkRequest (lit "http://localhost:8001/v1/default/banks/aletheia/memories")
                  (lit "POST") [(lit "Content-Type", lit "application/json")]
                  (Some (MoreSamples.json_text (JObj [(lit "items", JArr [item])])))]
     /\ prop item (lit "content") = JStr (repeat 97%N 120))
  /\ map req_body
         (sent (snd (hindsight_retain MoreSamples.env_json Samples.client params Samples.w0)))
     = [Some (lit "{" ++ MoreSamples.quoted (lit "items") ++ lit ":[{"
              ++ MoreSamples.quoted (lit "content") ++ lit ":"
              ++ MoreSamples.quoted (repeat 97%N 120) ++ lit ","
              ++ MoreSamples.quoted (lit "timestamp") ++ lit ":"
              ++ MoreSamples.quoted (lit "2026-01-01T00:00:00.000Z") ++ lit "}]}")]
  /\ fst (hindsight_retain MoreSamples.env_json Samples.client params Samples.w0)
     = Normal (mkToolResult
                 [mkTextBlock (lit "text")
                    (lit "Stored in memory: " ++ DQUOTE ++ repeat 97%N 100 ++ lit "..."
                     ++ DQUOTE)]
                 (RetainDetails (lit "created") JUndefined))
  /\ fst (hindsight_retain MoreSamples.env_json Samples.client
            (mkRetainParams (lit "User prefers dark mode") None None) Samples.w0)
     = Normal (mkToolResult
                 [mkTextBlock (lit "text")
                    (lit "Stored in memory: " ++ DQUOTE ++ lit "User prefers dark mode"
                     ++ DQUOTE)]
                 (RetainDetails (lit "created") JUndefined)).
Proof.
  intros params.
  destruct (retain_echo_truncation MoreSamples.env_json Samples.client params Samples.w0)
    as [(item & Hsent & Hitem) H].
  split; [exists item; split; [exact Hsent|exact Hitem]|].
  split; [vm_compute; reflexivity|].
  split.
  - destruct (H Samples.created _ eq_refl eq_refl) as (_ & Hlong).
    destruct Hlong as [Hres _]; [vm_compute; lia|].
    rewrite Hres. reflexivity.
  - destruct (retain_echo_truncation MoreSamples.env_json Samples.client
                (mkRetainParams (lit "User prefers dark mode") None None) Samples.w0)
      as [_ H'].
    destruct (H' Samples.created _ eq_refl eq_refl) as (Hshort & _).
    rewrite Hshort; [reflexivity|]. vm_compute. lia.
Defined.

(** C7, as stated, fails: with the empty string as the configured key the
    credential is configured, and the request of a retain carries no
    Authorization header. *)
Lemma bearer_iff_configured_fails :
  exists r,
    sent (snd (retain Samples.env_ok Samples.client_empty_key
                 (lit "User prefers dark mode") None Samples.w0)) = [r]
    /\ apiKey Samples.client_empty_key = Some []
    /\ header (lit "Authorization") (req_headers r) = None
    /\ ~ bearer_iff_configured Samples.client_empty_key r.
Proof.
  eexists. split; [reflexivity|]. split; [reflexivity|]. split; [reflexivity|].
  intros [_ H]. destruct H as [v Hv]; [discriminate|]. discriminate Hv.
Qed.

(** C7, amended.  Every client [retain] sends exactly one POST to
    {baseUrl}/v1/default/banks/{bankId}/memories whose body is a batch of
    one item, with the content given and the timestamp the caller reads
    from the clock as an ISO string.  Every client [recall] sends exactly
    one POST to {baseUrl}/v1/default/banks/{bankId}/memories/recall whose
    body has the query, the budget "mid" and, as [max_tokens], the caller's
    value or 2000 when there is none.  Every request carries the header
    Authorization: Bearer {key} if and only if a non-empty key is
    configured; with no key, or the empty string as key, it carries no
    Authorization header. *)
Theorem client_requests (env : Env) (client : HindsightClient) (w : World) :
  (forall content options,
     exists item,
       snd (retain env client content options w)
       = after_send w
           (mkRequest
              (baseUrl client ++ lit "/v1/default/banks/" ++ bankId client ++ lit "/memories")
              (lit "POST") (request_headers client)
              (Some (JSON_stringify env (JObj [(lit "items", JArr [item])]))))
       /\ prop item (lit "content") = JStr content
       /\ prop item (lit "timestamp") = JStr (Date_toISOString env (sent w)))
  /\ (forall query options,
        exists body,
          snd (recall env client query options w)
          = after_send w
              (mkRequest
                 (baseUrl client ++ lit "/v1/default/banks/" ++ bankId client
                  ++ lit "/memories/recall")
                 (lit "POST") (request_headers client)
                 (Some (JSON_stringify env body)))
          /\ prop body (lit "query") = JStr query
          /\ prop body (lit "budget") = JStr (lit "mid")
          /\ prop body (lit "max_tokens")
             = JNum match options with
                    | Some (mkRecallOptions (Some n) _) => n
                    | _ => float_of_Z 2000
                    end)
  /\ (forall v,
        header (lit "Authorization") (request_headers client) = Some v
        <-> exists k, apiKey client = Some k /\ k <> [] /\ v = lit "Bearer " ++ k)
  /\ (header (lit "Authorization") (request_headers client) = None
      <-> apiKey client = None \/ apiKey client = Some []).
Proof.
  split; [|split; [|split]].
  - intros content options.
    exists (retain_item content options (Date_toISOString env (sent w))).
    rewrite retain_run. repeat split.
  - intros query options. exists (recall_body query options).
    rewrite recall_run. repeat split.
    destruct options as [[[n|] t]|]; reflexivity.
  - apply authorization_header.
  - apply no_authorization_header.
Qed.

(** With the key "s3cret" every request carries "Bearer s3cret". *)
Lemma client_requests_witness :
  header (lit "Authorization") (request_headers Samples.client_with_key)
  = Some (lit "Bearer s3cret").
Proof.
  destruct (client_requests Samples.env_ok Samples.client_with_key Samples.w0)
    as (_ & _ & H & _).
  apply H. exists (lit "s3cret"). repeat split. discriminate.
Defined.

(** C8. With the empty string as the configured key no request carries an
    Authorization header: the one request of every call of the client's
    [request], and so of [retain] and of [recall], has only the
    Content-Type header. *)
Theorem empty_key_sends_no_authorization (env : Env) (client : HindsightClient) (w : World) :
  apiKey client = Some [] ->
  (forall (T : Type) (net : list Request -> Request -> FetchOutcome T) method path body,
     exists r,
       sent (snd (request env net client method path body w)) = sent w ++ [r]
       /\ req_headers r = [(lit "Content-Type", lit "application/json")]
       /\ header (lit "Authorization") (req_headers r) = None)
  /\ (forall content options,
        exists r,
          sent (snd (retain env client content options w)) = sent w ++ [r]
          /\ header (lit "Authorization") (req_headers r) = None)
  /\ (forall query options,
        exists r,
          sent (snd (recall env client query options w)) = sent w ++ [r]
          /\ header (lit "Authorization") (req_headers r) = None).
Proof.
  intros Hkey.
  assert (Hh : request_headers client = [(lit "Content-Type", lit "application/json")])
    by (unfold request_headers; rewrite Hkey; reflexivity).
  split; [|split].
  - intros T net method path body. rewrite request_run. eexists.
    split; [reflexivity|]. cbn [req_headers build_request]. rewrite Hh. split; reflexivity.
  - intros content options. rewrite retain_run. eexists.
    split; [reflexivity|]. cbn [req_headers retain_request]. rewrite Hh. reflexivity.
  - intros query options. rewrite recall_run. eexists.
    split; [reflexivity|]. cbn [req_headers recall_request]. rewrite Hh. reflexivity.
Qed.

Lemma empty_key_sends_no_authorization_witness :
  exists r,
    sent (snd (recall Samples.env_ok Samples.client_empty_key (lit "dark mode") None
                 Samples.w0)) = [r]
    /\ header (lit "Authorization") (req_headers r) = None.
Proof.
  destruct (empty_key_sends_no_authorization Samples.env_ok Samples.client_empty_key
              Samples.w0 eq_refl) as (_ & _ & H).
  exact (H (lit "dark mode") None).
Defined.



(** C10. The two gates measure different lengths.  A prompt of 10 or more
    code units of white space passes the auto-recall gate: one search
    request is sent, with that prompt as the query.  The same text as the
    content of a user message is no candidate for retention: the hook
    sends nothing.  In general every candidate the retention loop collects
    is a trimmed text whose length after trimming exceeds 10. *)
Theorem recall_gate_counts_raw_length (env : Env) (client : HindsightClient)
    (p : JsString) (w : World) :
  Forall (fun c => is_white_space c = true) p ->
  10 <= length p ->
  sent (snd (before_agent_start env client (mkBeforeAgentStart (Some p)) w))
  = sent w ++ [recall_request env client p
                 (Some (mkRecallOptions (Some (float_of_Z 1500)) None))]
  /\ agent_end env client
       (mkAgentEnd true (Some [JObj [(lit "role", JStr (lit "user"));
                                     (lit "content", JStr p)]])) w
     = (Normal tt, w)
  /\ (forall msgs c,
        In c (extract msgs) -> exists raw, c = trim raw /\ 10 < length (trim raw)).
Proof.
  intros Hws Hlen. split; [apply before_agent_start_sent; exact Hlen|]. split.
  - unfold agent_end. cbn [messages success negb orb length Nat.eqb].
    unfold try_catch, bind, extract. cbn [fold_left].
    unfold scan_message. cbn [truthy typeof_object negb orb].
    replace (prop (JObj [(lit "role", JStr (lit "user")); (lit "content", JStr p)])
                  (lit "role")) with (JStr (lit "user")) by reflexivity.
    replace (strict_eq_str (JStr (lit "user")) (lit "user")) with true by reflexivity.
    replace (prop (JObj [(lit "role", JStr (lit "user")); (lit "content", JStr p)])
                  (lit "content")) with (JStr p) by reflexivity.
    cbn [negb]. unfold push_text. rewrite (trim_white_space p Hws). reflexivity.
  - intros msgs c Hc. rewrite extract_candidates in Hc.
    destruct (candidates_trimmed msgs c Hc) as (raw & _ & Hraw & Hlong). eauto.
Qed.

(** Ten spaces as prompt: the recall request goes out; as a message: no
    retain request. *)
Lemma recall_gate_counts_raw_length_witness :
  sent (snd (before_agent_start Samples.env_ok Samples.client
               (mkBeforeAgentStart (Some Samples.ten_spaces)) Samples.w0))
  = [recall_request Samples.env_ok Samples.client Samples.ten_spaces
       (Some (mkRecallOptions (Some (float_of_Z 1500)) None))]
  /\ agent_end Samples.env_ok Samples.client
       (mkAgentEnd true (Some [JObj [(lit "role", JStr (lit "user"));
                                     (lit "content", JStr Samples.ten_spaces)]]))
       Samples.w0
     = (Normal tt, Samples.w0).
Proof.
  destruct (recall_gate_counts_raw_length Samples.env_ok Samples.client
              Samples.ten_spaces Samples.w0) as (H1 & H2 & _).
  - repeat constructor.
  - vm_compute. lia.
  - split; [exact H1|exact H2].
Defined.

(** * Further properties of the code *)

Import Registration Traces.

(** ** Trimming *)

Section Trimming.

Lemma trimStart_head s :
  match trimStart s with
  | [] => True
  | c :: _ => is_white_space c = false
  end.
Proof.
  induction s as [|c s IH]; [exact I|].
  cbn [trimStart]. destruct (is_white_space c) eqn:Hc; [exact IH|exact Hc].
Qed.

Lemma trimStart_fixed s :
  match s with
  | [] => True
  | c :: _ => is_white_space c = false
  end ->
  trimStart s = s.
Proof. destruct s as [|c s]; [reflexivity|]. cbn [trimStart]. intros ->. reflexivity. Qed.

Lemma trimStart_idempotent s : trimStart (trimStart s) = trimStart s.
Proof. apply trimStart_fixed, trimStart_head. Qed.

(** What [trimStart] drops is a run of white space in front. *)
Lemma trimStart_split s :
  exists ws, s = ws ++ trimStart s /\ Forall (fun c => is_white_space c = true) ws.
Proof.
  induction s as [|c s (ws & Hs & Hws)]; [exists []; split; [reflexivity|constructor]|].
  cbn [trimStart]. destruct (is_white_space c) eqn:Hc.
  - exists (c :: ws). split; [cbn; f_equal; exact Hs|constructor; assumption].
  - exists []. split; [reflexivity|constructor].
Qed.

(** A trimmed text begins and ends with something else than white space. *)
Lemma trim_unpadded s : unpadded (trim s).
Proof.
  unfold trim, trimEnd.
  set (t := trimStart s).
  pose proof (trimStart_head s) as Ht. fold t in Ht.
  pose proof (trimStart_head (rev t)) as Hv.
  destruct (trimStart_split (rev t)) as (ws & Hsplit & _).
  set (v := trimStart (rev t)) in *.
  assert (Hu : t = rev v ++ rev ws).
  { rewrite <- rev_app_distr, <- Hsplit, rev_involutive. reflexivity. }
  unfold unpadded. destruct (rev v) as [|c u] eqn:Hrev; [exact I|].
  split.
  - rewrite Hu in Ht. exact Ht.
  - destruct v as [|d v']; [discriminate|].
    cbn [rev] in Hrev. rewrite <- Hrev. rewrite last_last. exact Hv.
Qed.

Lemma trimEnd_fixed s :
  match s with
  | [] => True
  | c :: _ => is_white_space (last s c) = false
  end ->
  trimEnd s = s.
Proof.
  intros H. unfold trimEnd. rewrite trimStart_fixed; [apply rev_involutive|].
  destruct s as [|c s]; [exact I|].
  destruct (rev (c :: s)) as [|d r] eqn:Hrev.
  - exact I.
  - assert (Hs : c :: s = rev r ++ [d]).
    { rewrite <- (rev_involutive (c :: s)), Hrev. reflexivity. }
    rewrite Hs, last_last in H. exact H.
Qed.

(** Trimming twice is trimming once. *)
Lemma trim_idempotent s : trim (trim s) = trim s.
Proof.
  pose proof (trim_unpadded s) as H. unfold unpadded in H.
  unfold trim at 1. destruct (trim s) as [|c u] eqn:Hu; [reflexivity|].
  destruct H as [Hfirst Hlast].
  rewrite (trimStart_fixed (c :: u) Hfirst). apply trimEnd_fixed. exact Hlast.
Qed.

End Trimming.

(** ** The extraction loop *)

Lemma Forall_firstn_of {A : Type} (P : A -> Prop) n (l : list A) :
  Forall P l -> Forall P (firstn n l).
Proof.
  revert l. induction n as [|n IH]; intros l H; [constructor|].
  destruct H as [|a l Ha Hl]; [constructor|]. cbn. constructor; auto.
Qed.

Lemma candidates_app msgs1 msgs2 :
  candidates (msgs1 ++ msgs2) = candidates msgs1 ++ candidates msgs2.
Proof.
  unfold candidates, raw_candidates.
  rewrite filter_app, flat_map_app, filter_app, map_app. reflexivity.
Qed.

Lemma filter_idempotent {A : Type} (f : A -> bool) l :
  filter f (filter f l) = filter f l.
Proof.
  induction l as [|a l IH]; [reflexivity|].
  cbn [filter]. destruct (f a) eqn:Ha; [cbn [filter]; rewrite Ha, IH; reflexivity|exact IH].
Qed.

(** The loop treats the messages one by one: what it collects from a
    conversation in two parts is what it collects from the first part
    followed by what it collects from the second (so a message that comes
    twice is collected twice), and the messages whose role is not "user"
    can be left out without changing the result. *)
Theorem extract_messagewise :
  (forall msgs1 msgs2, extract (msgs1 ++ msgs2) = extract msgs1 ++ extract msgs2)
  /\ (forall msgs, extract (filter is_user msgs) = extract msgs).
Proof.
  split.
  - intros msgs1 msgs2. rewrite !extract_candidates. apply candidates_app.
  - intros msgs. rewrite !extract_candidates. unfold candidates, raw_candidates.
    rewrite filter_idempotent. reflexivity.
Qed.

Lemma candidates_invariant msgs :
  Forall (fun c => trim c = c /\ 11 <= length c /\ unpadded c) (candidates msgs).
Proof.
  apply Forall_forall. intros c Hc.
  destruct (candidates_trimmed msgs c Hc) as (raw & _ & -> & Hlong).
  split; [apply trim_idempotent|]. split; [exact Hlong|apply trim_unpadded].
Qed.

(** Whatever the conversation and whatever the store does, every request
    the auto-retain hook sends is a POST of one item to the memories of
    the bank, and the content of the item is its own trimmed form, holds
    at least 11 code units, and neither begins nor ends with white space:
    nothing empty and nothing padded is ever stored. *)
Theorem auto_retain_content_invariant (env : Env) (client : HindsightClient)
    (event : AgentEndEvent) (w : World) :
  exists rs cs,
    sent (snd (agent_end env client event w)) = sent w ++ rs
    /\ Forall2
         (fun r c =>
            exists item,
              r = mkRequest
                    (baseUrl client ++ lit "/v1/default/banks/" ++ bankId client
                     ++ lit "/memories")
                    (lit "POST") (request_headers client)
                    (Some (JSON_stringify env (JObj [(lit "items", JArr [item])])))
              /\ prop item (lit "content") = JStr c)
         rs cs
    /\ Forall (fun c => trim c = c /\ 11 <= length c /\ unpadded c) cs.
Proof.
  assert (Hitems : forall rs cs,
            Forall2 (auto_request env client) rs cs ->
            Forall2
              (fun r c =>
                 exists item,
                   r = mkRequest
                         (baseUrl client ++ lit "/v1/default/banks/" ++ bankId client
                          ++ lit "/memories")
                         (lit "POST") (request_headers client)
                         (Some (JSON_stringify env (JObj [(lit "items", JArr [item])])))
                   /\ prop item (lit "content") = JStr c)
              rs cs).
  { induction 1 as [|r c rs cs [now ->] _ IH]; constructor; [|exact IH].
    exists (retain_item c (Some auto_options) now). split; reflexivity. }
  destruct (agent_end_run env client event w) as (rs & w' & Hrun & Hsent & _ & Hrs).
  rewrite Hrun. cbn [snd]. exists rs.
  destruct (messages event) as [msgs|].
  - destruct (success event).
    + destruct Hrs as (HF & _ & _).
      exists (firstn (length rs) (firstn 5 (candidates msgs))).
      split; [exact Hsent|]. split; [exact (Hitems _ _ HF)|].
      apply Forall_firstn_of, Forall_firstn_of, candidates_invariant.
    + subst rs. exists []. split; [exact Hsent|]. split; constructor.
  - subst rs. exists []. split; [exact Hsent|]. split; constructor.
Qed.

(** ** Whole runs of the auto-retain hook *)

Lemma retain_each_accepted env client :
  store_accepts env ->
  forall l n w,
    retain_each env client l n w
    = (Normal (n + length l),
       mkWorld (sent w ++ stamped_requests env client (sent w) l) (logged w)).
Proof.
  intros Hacc. induction l as [|c l IH]; intros n w.
  - cbn. unfold ret. rewrite Nat.add_0_r, app_nil_r, world_eta. reflexivity.
  - cbn [retain_each stamped_requests length]. unfold bind. rewrite retain_run.
    destruct (Hacc (sent w) (retain_request env client c (Some auto_options)
                               (Date_toISOString env (sent w)))) as [v Hv].
    rewrite Hv, IH. cbn [after_send sent logged].
    rewrite <- app_assoc, Nat.add_succ_r. reflexivity.
Qed.

(** The requests of a pass that nothing interrupts, written out. *)
Lemma stamped_requests_submissions env client cs : forall h,
  stamped_requests env client h cs = Written.stamped_submissions env client h cs.
Proof.
  induction cs as [|c cs IH]; intros h; [reflexivity|].
  cbn [stamped_requests Written.stamped_submissions]. rewrite IH. reflexivity.
Qed.

(** When the store accepts every item, a pass of the auto-retain hook is
    known exactly.  It sends one request for each of the first five texts
    the loop collected, in their order: a POST to the memories of the bank
    of one item that holds the text, the context "auto-captured from
    conversation", the tags "conversation" and "auto", and as timestamp
    the clock as it stands once the requests before it have been answered.
    And it logs one info line with their number, or no line at all when
    there is none (a failed turn, no messages, or nothing worth
    keeping). *)
Theorem auto_retain_accepted (env : Env) (client : HindsightClient)
    (event : AgentEndEvent) (w : World) :
  store_accepts env ->
  let cs := match messages event with
            | Some msgs => if success event then firstn 5 (extract msgs) else []
            | None => []
            end in
  agent_end env client event w
  = (Normal tt,
     mkWorld (sent w ++ Written.stamped_submissions env client (sent w) cs)
             (logged w ++ retained_line (length cs)))
  /\ length (Written.stamped_submissions env client (sent w) cs) = length cs
  /\ forall k c,
       nth_error cs k = Some c ->
       nth_error (Written.stamped_submissions env client (sent w) cs) k
       = Some (mkRequest
                 (baseUrl client ++ lit "/v1/default/banks/" ++ bankId client
                  ++ lit "/memories")
                 (lit "POST") (request_headers client)
                 (Some (JSON_stringify env
                          (JObj [(lit "items",
                                  JArr [JObj
                                    [ (lit "content", JStr c);
                                      (lit "context",
                                       JStr (lit "auto-captured from conversation"));
                                      (lit "tags",
                                       JArr [JStr (lit "conversation"); JStr (lit "auto")]);
                                      (lit "timestamp",
                                       JStr (Date_toISOString env
                                               (sent w
                                                ++ firstn k
                                                     (Written.stamped_submissions env client
                                                        (sent w) cs)))) ]])])))).
Proof.
  intros Hacc cs. split; [|split].
  - rewrite <- stamped_requests_submissions.
    assert (Hnone : cs = [] -> agent_end env client event w = (Normal tt, w) ->
                    agent_end env client event w
                    = (Normal tt,
                       mkWorld (sent w ++ stamped_requests env client (sent w) cs)
                               (logged w ++ retained_line (length cs)))).
    { intros -> ->. cbn. rewrite !app_nil_r, world_eta. reflexivity. }
    subst cs. destruct (messages event) as [msgs|] eqn:Hm;
      [|apply Hnone; [reflexivity|apply agent_end_skipped; auto]].
    destruct (success event) eqn:Hs;
      [|apply Hnone; [reflexivity|apply agent_end_skipped; auto]].
    destruct msgs as [|msg msgs];
      [apply Hnone; [reflexivity|apply agent_end_skipped; auto]|].
    clear Hnone. unfold agent_end. rewrite Hm, Hs. cbn [negb orb length Nat.eqb].
    unfold try_catch, bind. rewrite (retain_each_accepted env client Hacc). cbn [Nat.add].
    destruct (length (firstn 5 (extract (msg :: msgs)))) as [|k];
      cbn [Nat.ltb Nat.leb retained_line].
    + unfold ret. rewrite app_nil_r. reflexivity.
    + reflexivity.
  - generalize (sent w). clear. induction cs as [|c cs IH]; intros h; [reflexivity|].
    cbn [Written.stamped_submissions length]. rewrite IH. reflexivity.
  - generalize (sent w). clear. induction cs as [|c cs IH]; intros h k c' Hk.
    + destruct k; discriminate.
    + destruct k as [|k].
      * cbn in Hk. injection Hk as <-. cbn [firstn]. rewrite app_nil_r. reflexivity.
      * cbn [nth_error] in Hk. cbn [Written.stamped_submissions nth_error firstn].
        rewrite (IH _ k c' Hk), <- app_assoc. reflexivity.
Qed.

(** The sample conversation with the accepting store, the host writing
    the bodies out: five requests, one info line; the second request
    carries the second text and the time after one request. *)
Lemma auto_retain_accepted_witness :
  exists w',
    agent_end MoreSamples.env_json Samples.client
      (mkAgentEnd true (Some Samples.conversation)) Samples.w0 = (Normal tt, w')
    /\ length (sent w') = 5
    /\ logged w' = [(Info, lit "hindsight-memory: auto-retained 5 messages")]
    /\ option_map req_body (nth_error (sent w') 1)
       = Some (Some (lit "{" ++ MoreSamples.quoted (lit "items") ++ lit ":[{"
                     ++ MoreSamples.quoted (lit "content") ++ lit ":"
                     ++ MoreSamples.quoted (lit "My deploy target is staging") ++ lit ","
                     ++ MoreSamples.quoted (lit "context") ++ lit ":"
                     ++ MoreSamples.quoted (lit "auto-captured from conversation") ++ lit ","
                     ++ MoreSamples.quoted (lit "tags") ++ lit ":["
                     ++ MoreSamples.quoted (lit "conversation") ++ lit ","
                     ++ MoreSamples.quoted (lit "auto") ++ lit "],"
                     ++ MoreSamples.quoted (lit "timestamp") ++ lit ":"
                     ++ MoreSamples.quoted (lit "2026-01-01T00:00:01.000Z") ++ lit "}]}")).
Proof.
  destruct (auto_retain_accepted MoreSamples.env_json Samples.client
              (mkAgentEnd true (Some Samples.conversation)) Samples.w0 env_json_accepts)
    as (Hrun & _ & _).
  eexists. split; [exact Hrun|]. repeat split.
Defined.

(** ** What the handlers add to the world *)

Section Footprint.
Variable env : Env.
Variable client : HindsightClient.

Lemma retain_request_is_store c o now :
  store_request client (retain_request env client c o now).
Proof. repeat split. Qed.

Lemma recall_request_is_search q o :
  search_request client (recall_request env client q o).
Proof. repeat split. Qed.

Lemma auto_requests_are_store rs cs :
  Forall2 (auto_request env client) rs cs -> Forall (store_request client) rs.
Proof.
  induction 1 as [|r c rs cs [now ->] _ IH]; constructor;
    [apply retain_request_is_store|exact IH].
Qed.

Lemma agent_end_added event w :
  exists rs ls,
    added w (snd (agent_end env client event w)) rs ls
    /\ Forall (store_request client) rs /\ length rs <= 5 /\ length ls <= 1.
Proof.
  assert (Hskip : agent_end env client event w = (Normal tt, w) ->
            exists rs ls,
              added w (snd (agent_end env client event w)) rs ls
              /\ Forall (store_request client) rs /\ length rs <= 5 /\ length ls <= 1).
  { intros ->. exists [], []. unfold added. cbn [snd length]. rewrite !app_nil_r.
    repeat split; try constructor; lia. }
  destruct (messages event) as [msgs|] eqn:Hm; [|apply Hskip, agent_end_skipped; auto].
  destruct (success event) eqn:Hs; [|apply Hskip, agent_end_skipped; auto].
  destruct msgs as [|msg msgs]; [apply Hskip, agent_end_skipped; auto|].
  clear Hskip. unfold agent_end. rewrite Hm, Hs. cbn [negb orb length Nat.eqb].
  unfold try_catch, bind.
  set (l := firstn 5 (extract (msg :: msgs))).
  destruct (retain_each_run env client l 0 w) as (rs & Hw & HF & Hlen & _).
  assert (Hl : length l <= 5) by (unfold l; rewrite length_firstn; lia).
  assert (Hst : Forall (store_request client) rs)
    by (apply (auto_requests_are_store rs (firstn (length rs) l)); exact HF).
  destruct (retain_each env client l 0 w) as [[n|err] w1]; cbn [fst snd] in *; subst w1.
  - destruct (0 <? n).
    + exists rs. eexists. unfold added, log. cbn [snd sent logged].
      split; [split; reflexivity|]. split; [exact Hst|]. split; [lia|cbn; lia].
    + exists rs, []. unfold added, ret. cbn [snd sent logged]. rewrite app_nil_r.
      split; [split; reflexivity|]. split; [exact Hst|]. split; [lia|cbn; lia].
  - exists rs. eexists. unfold added, log. cbn [snd sent logged].
    split; [split; reflexivity|]. split; [exact Hst|]. split; [lia|cbn; lia].
Qed.

End Footprint.

(** Every handler only adds to the world, within fixed bounds and on its
    own side of the store.  The recall tool sends exactly one request and
    the auto-recall hook at most one, and these are searches: POSTs with
    the client's headers to the recall endpoint of the client's bank.  The
    retain tool sends exactly one request and the auto-retain hook at most
    five, and these are creations: POSTs with the same headers to the
    memories endpoint of the same bank.  No handler logs more than one
    line, and none touches what was sent or logged before. *)
Theorem handlers_footprint (env : Env) (client : HindsightClient) (w : World) :
  (forall params,
     exists r ls,
       added w (snd (hindsight_recall env client params w)) [r] ls
       /\ search_request client r /\ length ls <= 1)
  /\ (forall params,
        exists r ls,
          added w (snd (hindsight_retain env client params w)) [r] ls
          /\ store_request client r /\ length ls <= 1)
  /\ (forall event,
        exists rs ls,
          added w (snd (before_agent_start env client event w)) rs ls
          /\ Forall (search_request client) rs /\ length rs <= 1 /\ length ls <= 1)
  /\ (forall event,
        exists rs ls,
          added w (snd (agent_end env client event w)) rs ls
          /\ Forall (store_request client) rs /\ length rs <= 5 /\ length ls <= 1).
Proof.
  split; [|split; [|split]].
  - intros params.
    destruct (settle (fetch_recall env (sent w) (recall_tool_request env client params)))
      as [response|err] eqn:H.
    + rewrite (hindsight_recall_settled env client params w response H).
      exists (recall_tool_request env client params), [].
      unfold added. cbn [snd after_send sent logged]. rewrite app_nil_r.
      repeat split. cbn; lia.
    + rewrite (hindsight_recall_failed env client params w err H).
      exists (recall_tool_request env client params). eexists.
      unfold added. cbn [snd after_send after_log sent logged].
      split; [split; reflexivity|]. split; [repeat split|cbn; lia].
  - intros params. unfold hindsight_retain, try_catch, bind. rewrite retain_run.
    fold (retain_tool_request env client params w).
    exists (retain_tool_request env client params w).
    destruct (settle _) as [v|e].
    + destruct v;
        (eexists; unfold added; cbn [snd after_send sent logged member bind throw ret log];
         split; [split; [reflexivity|]|split; [repeat split|]]);
        try (instantiate (1 := []); rewrite app_nil_r; reflexivity);
        try reflexivity; cbn; lia.
    + eexists. unfold added. cbn [snd after_send sent logged log bind ret].
      split; [split; reflexivity|]. split; [repeat split|cbn; lia].
  - intros [[p|]].
    + destruct (Nat.lt_ge_cases (length p) 10) as [Hp|Hp].
      * rewrite before_agent_start_skipped by exact Hp.
        exists [], []. unfold added. cbn [snd]. rewrite !app_nil_r.
        repeat split; try constructor; cbn; lia.
      * destruct (settle (fetch_recall env (sent w) (auto_recall_request env client p)))
          as [response|err] eqn:H.
        -- rewrite (before_agent_start_settled env client p w response Hp H).
           exists [auto_recall_request env client p].
           destruct (results response) as [[|r rs]|]; eexists; unfold added;
             cbn [snd after_send after_log sent logged];
             (split; [split; [reflexivity|]|
                      split; [repeat constructor|split; [cbn; lia|]]]);
             try (instantiate (1 := []); rewrite app_nil_r; reflexivity);
             try reflexivity; cbn; lia.
        -- rewrite (before_agent_start_failed env client p w err Hp H).
           exists [auto_recall_request env client p]. eexists. unfold added.
           cbn [snd after_send after_log sent logged].
           split; [split; reflexivity|].
           split; [repeat constructor|split; cbn; lia].
    + rewrite before_agent_start_skipped by exact I.
      exists [], []. unfold added. cbn [snd]. rewrite !app_nil_r.
      repeat split; try constructor; cbn; lia.
  - intros event. apply agent_end_added.
Qed.

(** ** The percentage of the recall tool *)

Section Percentage.
Local Open Scope Z_scope.

Lemma shr_1_r mrs : 0 <= shr_m mrs -> shr_r (shr_1 mrs) = Z.odd (shr_m mrs).
Proof.
  destruct mrs as [m r s]; cbv [shr_1 shr_m shr_r]. intros Hm.
  destruct m as [|[p|p|]|p]; try reflexivity; lia.
Qed.

Lemma iter_shr_1_nonneg p mrs : 0 <= shr_m mrs -> 0 <= shr_m (iter_pos shr_1 p mrs).
Proof.
  intros H. rewrite iter_shr_1_m by exact H.
  apply Z.div_pos; [exact H|apply Z.pow_pos_nonneg; lia].
Qed.

Lemma iter_shr_1_r p : forall mrs, 0 <= shr_m mrs ->
  shr_r (iter_pos shr_1 p mrs) = Z.odd (shr_m mrs / 2 ^ (Zpos p - 1)).
Proof.
  assert (Hpp : forall q, 0 < 2 ^ Z.pos q) by (intros; apply Z.pow_pos_nonneg; lia).
  assert (Hp0 : forall q, 0 < 2 ^ (Z.pos q - 1)) by (intros; apply Z.pow_pos_nonneg; lia).
  induction p as [p IH|p IH|]; intros mrs Hm; cbn [iter_pos].
  - assert (H1 : 0 <= shr_m (shr_1 mrs))
      by (rewrite shr_1_m by assumption; apply Z.div_pos; lia).
    rewrite IH by (apply iter_shr_1_nonneg; exact H1).
    rewrite iter_shr_1_m, shr_1_m by assumption.
    pose proof (Hpp p). pose proof (Hp0 p).
    rewrite !Z.div_div by lia. do 2 f_equal.
    replace (Z.pos p~1 - 1) with (1 + Z.pos p + (Z.pos p - 1)) by lia.
    rewrite !Z.pow_add_r by lia. change (2 ^ 1) with 2. lia.
  - rewrite IH by (apply iter_shr_1_nonneg; exact Hm).
    rewrite iter_shr_1_m by assumption.
    pose proof (Hpp p). pose proof (Hp0 p).
    rewrite !Z.div_div by lia. do 2 f_equal.
    replace (Z.pos p~0 - 1) with (Z.pos p + (Z.pos p - 1)) by lia.
    rewrite Z.pow_add_r by lia. reflexivity.
  - rewrite shr_1_r by assumption. change (2 ^ (1 - 1)) with 1. rewrite Z.div_1_r. reflexivity.
Qed.

Lemma round_nearest_even_no_carry mrs :
  shr_r mrs = false ->
  round_nearest_even (shr_m mrs) (loc_of_shr_record mrs) = shr_m mrs.
Proof. destruct mrs as [m r s]. cbn. intros ->. destruct s; reflexivity. Qed.

Lemma shr_fexp_le100 M E :
  0 <= M -> M <= 100 * 2 ^ (- E) -> E <= -45 ->
  0 <= shr_m (fst (shr_fexp 53 1024 M E loc_Exact))
  /\ snd (shr_fexp 53 1024 M E loc_Exact) <= -45
  /\ shr_m (fst (shr_fexp 53 1024 M E loc_Exact))
     <= 100 * 2 ^ (- snd (shr_fexp 53 1024 M E loc_Exact))
  /\ round_nearest_even (shr_m (fst (shr_fexp 53 1024 M E loc_Exact)))
                        (loc_of_shr_record (fst (shr_fexp 53 1024 M E loc_Exact)))
     <= 100 * 2 ^ (- snd (shr_fexp 53 1024 M E loc_Exact)).
Proof.
  intros HM HB HE.
  assert (HB7 : M <= 2 ^ (7 - E)).
  { replace (7 - E) with (7 + - E) by lia. rewrite Z.pow_add_r by lia.
    assert (0 < 2 ^ (- E)) by (apply Z.pow_pos_nonneg; lia).
    change (2 ^ 7) with 128. lia. }
  destruct (shr_fexp_bound 7 M E loc_Exact ltac:(lia) HM HB7 ltac:(lia)) as (H0 & _ & H2).
  split; [exact H0|]. split; [lia|].
  revert H0 H2. unfold shr_fexp, shr. cbn [shr_record_of_loc].
  destruct (fexp 53 1024 (Zdigits2 M + E) - E) as [|p|p]; cbn [fst snd shr_m loc_of_shr_record round_nearest_even];
    intros H0 H2; try (split; exact HB).
  set (mrs := iter_pos shr_1 p {| shr_m := M; shr_r := false; shr_s := false |}) in *.
  assert (Hm : shr_m mrs = M / 2 ^ Z.pos p) by (exact (iter_shr_1_m p {| shr_m := M; shr_r := false; shr_s := false |} HM)).
  assert (Hr : shr_r mrs = Z.odd (M / 2 ^ (Z.pos p - 1))) by (exact (iter_shr_1_r p {| shr_m := M; shr_r := false; shr_s := false |} HM)).
  assert (Hp : 0 < 2 ^ Z.pos p) by (apply Z.pow_pos_nonneg; lia).
  assert (HBp : 100 * 2 ^ (- E) = 2 ^ Z.pos p * (100 * 2 ^ (- (E + Z.pos p)))).
  { replace (- E) with (Z.pos p + - (E + Z.pos p)) by lia.
    rewrite Z.pow_add_r by lia. lia. }
  assert (Hle : shr_m mrs <= 100 * 2 ^ (- (E + Z.pos p))).
  { rewrite Hm. apply Z.div_le_upper_bound; lia. }
  split; [exact Hle|].
  destruct (shr_r mrs) eqn:Hbit.
  - pose proof (round_nearest_even_bounds (shr_m mrs) (loc_of_shr_record mrs)) as Hrb.
    assert (Hlt : shr_m mrs < 100 * 2 ^ (- (E + Z.pos p))).
    { apply Z.le_neq. split; [exact Hle|]. intros Heq.
      assert (HMB : M = 2 ^ Z.pos p * (100 * 2 ^ (- (E + Z.pos p)))).
      { pose proof (Z.mul_div_le M (2 ^ Z.pos p) Hp) as Hd.
        rewrite <- Hm, Heq in Hd. lia. }
      assert (Hh : 2 ^ Z.pos p = 2 * 2 ^ (Z.pos p - 1)).
      { replace (Z.pos p) with (1 + (Z.pos p - 1)) at 1 by lia.
        rewrite Z.pow_add_r by lia. reflexivity. }
      assert (Hq : 0 < 2 ^ (Z.pos p - 1)) by (apply Z.pow_pos_nonneg; lia).
      assert (Hdiv : M / 2 ^ (Z.pos p - 1) = 2 * (100 * 2 ^ (- (E + Z.pos p)))).
      { rewrite HMB, Hh.
        replace (2 * 2 ^ (Z.pos p - 1) * (100 * 2 ^ (- (E + Z.pos p))))
          with (2 * (100 * 2 ^ (- (E + Z.pos p))) * 2 ^ (Z.pos p - 1)) by lia.
        apply Z.div_mul. lia. }
      rewrite Hdiv, Z.odd_mul in Hr. cbn in Hr. discriminate. }
    lia.
  - rewrite round_nearest_even_no_carry by exact Hbit. exact Hle.
Qed.

Lemma binary_round_aux_le100 sx M E :
  0 <= M -> M <= 100 * 2 ^ (- E) -> E <= -45 ->
  match binary_round_aux 53 1024 sx M E loc_Exact with
  | S754_zero s => s = sx
  | S754_finite s m e => s = sx /\ Zpos m <= 100 * 2 ^ (- e) /\ e <= -45
  | _ => False
  end.
Proof.
  intros HM HB HE. unfold binary_round_aux.
  destruct (shr_fexp_le100 M E HM HB HE) as (H0 & H1 & _ & H3).
  destruct (shr_fexp 53 1024 M E loc_Exact) as [mrs' e']. cbn [fst snd] in *.
  pose proof (round_nearest_even_bounds (shr_m mrs') (loc_of_shr_record mrs')) as Hr.
  set (mx := round_nearest_even (shr_m mrs') (loc_of_shr_record mrs')) in *.
  destruct (shr_fexp_le100 mx e' ltac:(lia) H3 H1) as (G0 & G1 & G2 & _).
  destruct (shr_fexp 53 1024 mx e' loc_Exact) as [mrs'' e'']. cbn [fst snd] in *.
  destruct (shr_m mrs'') as [|m|m]; [reflexivity| |lia].
  replace (e'' <=? 1024 - 53) with true by (symmetry; apply Z.leb_le; lia).
  repeat split; lia.
Qed.

Lemma unit_score_le_one s :
  unit_score s = true ->
  (exists b, s = S754_zero b)
  \/ (exists m e, s = S754_finite false m e /\ Zpos m <= 2 ^ (- e) /\ e <= -52).
Proof.
  intros H. destruct (unit_score_cases s H) as [Hz|(m & e & -> & Hm & He)]; [left; exact Hz|].
  right. exists m, e. split; [reflexivity|]. split; [|exact He].
  unfold unit_score in H. rewrite float_of_Z_1 in H.
  apply andb_prop in H as [_ H1].
  unfold SFleb, SFcompare in H1.
  destruct (Z.compare_spec e (-52)) as [Heq|Hlt|Hgt]; [| |lia].
  - rewrite Heq. change (2 ^ (- -52)) with 4503599627370496.
    pose proof (Pos.compare_spec m 4503599627370496) as Hsp.
    unfold Pos.compare in Hsp.
    destruct Hsp as [Hc|Hc|Hc]; [|apply Z.lt_le_incl, Pos2Z.pos_lt_pos, Hc|discriminate].
    rewrite Hc. apply Z.le_refl.
  - assert (2 ^ 53 <= 2 ^ (- e)) by (apply Z.pow_le_mono_r; lia). lia.
Qed.

Lemma percent_product_le100 s :
  unit_score s = true ->
  match fmul s (float_of_Z 100) with
  | S754_zero _ => True
  | S754_finite sx m e => sx = false /\ Zpos m <= 100 * 2 ^ (- e) /\ e <= -45
  | _ => False
  end.
Proof.
  intros H. destruct (unit_score_le_one s H) as [[b ->]|(m & e & -> & Hm & He)];
    rewrite float_of_Z_100; [exact I|].
  unfold fmul, SFmul. cbn [xorb].
  assert (HM : Z.pos (m * 7036874417766400) <= 100 * 2 ^ (- (e + -46))).
  { rewrite Pos2Z.inj_mul.
    replace (- (e + -46)) with (- e + 46) by lia. rewrite Z.pow_add_r by lia.
    change (2 ^ 46) with 70368744177664.
    assert (0 < 2 ^ (- e)) by (apply Z.pow_pos_nonneg; lia). nia. }
  pose proof (binary_round_aux_le100 false (Z.pos (m * 7036874417766400)) (e + -46)
                ltac:(lia) HM ltac:(lia)) as HB.
  destruct (binary_round_aux 53 1024 false (Z.pos (m * 7036874417766400)) (e + -46) loc_Exact)
    as [b|b| |b m' e']; try contradiction; [exact I|exact HB].
Qed.

Lemma nearest_integer_le100 m e :
  Zpos m <= 100 * 2 ^ (- e) -> e <= -45 -> 0 <= nearest_integer m e <= 100.
Proof.
  intros Hm He. destruct e as [|p|p]; try lia.
  cbn [nearest_integer]. rewrite Z.shiftr_div_pow2, Z.shiftl_mul_pow2 by lia.
  rewrite Z.mul_1_l. change (- Z.neg p) with (Z.pos p) in Hm.
  assert (Hp : 0 < 2 ^ Z.pos p) by (apply Z.pow_pos_nonneg; lia).
  assert (Hq : 0 < 2 ^ (Z.pos p - 1)) by (apply Z.pow_pos_nonneg; lia).
  assert (Hh : 2 ^ Z.pos p = 2 * 2 ^ (Z.pos p - 1)).
  { replace (Z.pos p) with (1 + (Z.pos p - 1)) at 1 by lia.
    rewrite Z.pow_add_r by lia. reflexivity. }
  split.
  - apply Z.div_pos; lia.
  - apply Z.lt_succ_r. apply Z.div_lt_upper_bound; lia.
Qed.

Lemma toFixed0_percent_bounded nt s :
  unit_score s = true ->
  exists n, (n <= 100)%N /\ toFixed0 nt (fmul s (float_of_Z 100)) = decimal n.
Proof.
  intros H. pose proof (percent_product_le100 s H) as Hp.
  destruct (fmul s (float_of_Z 100)) as [b|b| |b m e]; try contradiction.
  - exists 0%N. split; [lia|reflexivity].
  - destruct Hp as (-> & Hm & He).
    destruct (nearest_integer_le100 m e Hm He) as [H0 H100].
    exists (Z.to_N (nearest_integer m e)). split; [lia|].
    unfold toFixed0. rewrite at_least_1e21_small; [reflexivity| |lia].
    replace (9 - e) with (9 + - e) by lia. rewrite Z.pow_add_r by lia.
    assert (0 < 2 ^ (- e)) by (apply Z.pow_pos_nonneg; lia).
    change (2 ^ 9) with 512. lia.
Qed.

End Percentage.

(** For a result whose score is in [0, 1], the relevance the recall tool
    prints is a whole number of percent between 0 and 100: the line is
    "{i+1}. {content} (relevance: {n}%)" with n at most 100, never a sign,
    a fraction, an exponent, NaN or Infinity. *)
Theorem recall_percent_bounded (env : Env) (r : RecallResult) (i : nat) :
  unit_score (score r) = true ->
  exists n,
    (n <= 100)%N
    /\ recall_line env r i
       = decimal_nat (i + 1) ++ lit ". " ++ content r ++ lit " (relevance: "
         ++ decimal n ++ lit "%)".
Proof.
  intros H.
  destruct (toFixed0_percent_bounded (Number_toString env) (score r) H) as (n & Hn & Hp).
  exists n. split; [exact Hn|]. unfold recall_line. rewrite Hp. reflexivity.
Qed.

(** The sample memory of score 0.9. *)
Lemma recall_percent_bounded_witness :
  exists n,
    (n <= 100)%N
    /\ recall_line Samples.env_ok Samples.dark_mode 0
       = lit "1. User prefers dark mode (relevance: " ++ decimal n ++ lit "%)".
Proof.
  exact (recall_percent_bounded Samples.env_ok Samples.dark_mode 0 eq_refl).
Defined.

(** ** What the auto-recall hook injects *)

Lemma bullets_of_contents rs :
  join LF (map (fun r => lit "- " ++ content r) rs)
  = join LF (map (fun c => lit "- " ++ c) (map content rs)).
Proof. rewrite map_map. reflexivity. Qed.

(** The context the auto-recall hook returns depends on nothing but the
    contents of the first five results: two recalls that agree there, in
    any world and whatever else the replies hold (ids, scores, timestamps,
    results after the fifth), lead to the same return value.  The info
    line, however, counts all the results that came back, not the ones
    injected. *)
Theorem injection_uses_first_five (env env' : Env) (client : HindsightClient)
    (p : JsString) (w w' : World) (r1 r2 : RecallResponse) (rs1 rs2 : list RecallResult) :
  10 <= length p ->
  settle (fetch_recall env (sent w) (auto_recall_request env client p)) = Normal r1 ->
  settle (fetch_recall env' (sent w') (auto_recall_request env' client p)) = Normal r2 ->
  results r1 = Some rs1 -> results r2 = Some rs2 -> rs1 <> [] -> rs2 <> [] ->
  map content (firstn 5 rs1) = map content (firstn 5 rs2) ->
  fst (before_agent_start env client (mkBeforeAgentStart (Some p)) w)
  = fst (before_agent_start env' client (mkBeforeAgentStart (Some p)) w')
  /\ logged (snd (before_agent_start env client (mkBeforeAgentStart (Some p)) w))
     = logged w ++ [(Info, lit "hindsight-memory: injecting " ++ decimal_nat (length rs1)
                           ++ lit " memories into context")].
Proof.
  intros Hp H1 H2 Hr1 Hr2 Hn1 Hn2 Hsame.
  rewrite (before_agent_start_settled env client p w r1 Hp H1), Hr1.
  rewrite (before_agent_start_settled env' client p w' r2 Hp H2), Hr2.
  destruct rs1 as [|a rs1]; [congruence|]. destruct rs2 as [|b rs2]; [congruence|].
  cbn [fst snd after_log logged after_send]. split; [|reflexivity].
  rewrite !bullets_of_contents, Hsame. reflexivity.
Qed.

(** Ten memories against the first five of them: the same context is
    injected, and the first run logs that it injects 10. *)
Lemma injection_uses_first_five_witness :
  let ev := mkBeforeAgentStart (Some (lit "What do we know so far?")) in
  fst (before_agent_start MoreSamples.env_ten Samples.client ev Samples.w0)
  = fst (before_agent_start MoreSamples.env_five Samples.client ev Samples.w0)
  /\ logged (snd (before_agent_start MoreSamples.env_ten Samples.client ev Samples.w0))
     = [(Info, lit "hindsight-memory: injecting 10 memories into context")].
Proof.
  intros ev.
  refine (injection_uses_first_five MoreSamples.env_ten MoreSamples.env_five Samples.client
            (lit "What do we know so far?") Samples.w0 Samples.w0
            _ _ _ _ _ eq_refl eq_refl eq_refl eq_refl _ _ eq_refl).
  - vm_compute. lia.
  - discriminate.
  - discriminate.
Defined.

(** ** When the tools report success *)



(** ** Configuration and registration *)

Lemma prop_skip k v props key :
  key <> k -> prop (JObj ((k, v) :: props)) key = prop (JObj props) key.
Proof.
  intros Hne. cbn [prop assoc]. destruct (str_eq_dec key k); [contradiction|reflexivity].
Qed.

Lemma str_eqb_false a b : str_eqb a b = false -> b <> a.
Proof. unfold str_eqb. destruct (str_eq_dec a b); [discriminate|congruence]. Qed.

Lemma schema_key_false k :
  schema_key k = false ->
  lit "baseUrl" <> k /\ lit "bankId" <> k /\ lit "apiKey" <> k
  /\ lit "autoRetain" <> k /\ lit "autoRecall" <> k.
Proof.
  unfold schema_key. intros H.
  apply orb_false_elim in H as [H H5]. apply orb_false_elim in H as [H H4].
  apply orb_false_elim in H as [H H3]. apply orb_false_elim in H as [H1 H2].
  repeat split; apply str_eqb_false; assumption.
Qed.

(** The configuration schema.  Parsing the object that writes a
    configuration out gives that configuration back.  An object that
    names none of the schema's keys (the empty object, say) parses to the
    defaults: http://localhost:8001, bank "aletheia", no key, auto-retain
    on, auto-recall off.  A key the schema does not name changes nothing.
    A value that is no object (undefined, null, an array, a string) is
    rejected, and so is a string where a switch is expected: nothing is
    coerced. *)
Theorem configSchema_parse_properties :
  (forall cfg, configSchema_parse (config_object cfg) = Some cfg)
  /\ (forall props,
        (forall k, schema_key k = true -> assoc k props = None) ->
        configSchema_parse (JObj props)
        = Some (mkConfig (lit "http://localhost:8001") (lit "aletheia") None true false))
  /\ (forall k v props,
        schema_key k = false ->
        configSchema_parse (JObj ((k, v) :: props)) = configSchema_parse (JObj props))
  /\ (forall input, (forall props, input <> JObj props) -> configSchema_parse input = None)
  /\ (forall props s,
        prop (JObj props) (lit "autoRetain") = JStr s
        \/ prop (JObj props) (lit "autoRecall") = JStr s ->
        configSchema_parse (JObj props) = None).
Proof.
  split; [|split; [|split; [|split]]].
  - intros [url bank [key|] retain recall]; vm_compute; reflexivity.
  - intros props H. unfold configSchema_parse, prop.
    rewrite !H by reflexivity. reflexivity.
  - intros k v props Hk.
    destruct (schema_key_false k Hk) as (H1 & H2 & H3 & H4 & H5).
    unfold configSchema_parse.
    rewrite !prop_skip by assumption. reflexivity.
  - intros input H. destruct input; try reflexivity. exfalso. eapply H. reflexivity.
  - intros props s [H|H]; unfold configSchema_parse; rewrite H; cbn [boolean_default];
      destruct (string_default (lit "http://localhost:8001")
                               (prop (JObj props) (lit "baseUrl")));
      destruct (string_default (lit "aletheia") (prop (JObj props) (lit "bankId")));
      destruct (string_optional (prop (JObj props) (lit "apiKey")));
      try reflexivity;
      destruct (boolean_default true (prop (JObj props) (lit "autoRetain")));
      reflexivity.
Qed.

(** The empty object gives the defaults, and "true" in quotes is no
    switch. *)
Lemma configSchema_parse_properties_witness :
  configSchema_parse (JObj [])
  = Some (mkConfig (lit "http://localhost:8001") (lit "aletheia") None true false)
  /\ configSchema_parse (JObj [(lit "autoRecall", JStr (lit "true"))]) = None.
Proof.
  destruct configSchema_parse_properties as (_ & Hdef & _ & _ & Hstr).
  split.
  - apply Hdef. intros k _. reflexivity.
  - apply (Hstr _ (lit "true")). right. reflexivity.
Defined.

(** Registration.  A configuration that does not validate makes
    [register] throw before anything is logged or registered.  Otherwise
    [register] sends nothing, logs one line, and hands both tools to the
    host; the auto-recall hook is registered exactly when the
    configuration object sets autoRecall to true (it is opt-in), and the
    auto-retain hook exactly when autoRetain is true or not given (it is
    opt-out). *)
Theorem register_api_wiring (env : Env) (ZodError : JsVal -> JsError)
    (pluginConfig : JsVal) (w : World) :
  (configSchema_parse pluginConfig = None ->
   register_api env ZodError pluginConfig w = (Throw (ZodError pluginConfig), w))
  /\ (forall cfg,
        configSchema_parse pluginConfig = Some cfg ->
        exists registered,
          register_api env ZodError pluginConfig w
          = (Normal (registered, hindsight_service cfg),
             after_log w Info (lit "hindsight-memory: registered (bank: " ++ cfg_bankId cfg
                               ++ lit ", url: " ++ cfg_baseUrl cfg ++ lit ")"))
          /\ tool_hindsight_recall registered = hindsight_recall env (client_of cfg)
          /\ tool_hindsight_retain registered = hindsight_retain env (client_of cfg)
          /\ on_before_agent_start registered
             = (if autoRecall cfg then Some (before_agent_start env (client_of cfg)) else None)
          /\ on_agent_end registered
             = (if autoRetain cfg then Some (agent_end env (client_of cfg)) else None))
  /\ (forall registered svc w',
        register_api env ZodError pluginConfig w = (Normal (registered, svc), w') ->
        (on_before_agent_start registered <> None
         <-> prop pluginConfig (lit "autoRecall") = JBool true)
        /\ (on_agent_end registered <> None
            <-> prop pluginConfig (lit "autoRetain") = JBool true
                \/ prop pluginConfig (lit "autoRetain") = JUndefined)).
Proof.
  split; [|split].
  - intros H. unfold register_api. rewrite H. reflexivity.
  - intros cfg H. unfold register_api. rewrite H. eexists. split; [reflexivity|].
    repeat split.
  - intros registered svc w' H. unfold register_api in H.
    destruct (configSchema_parse pluginConfig) as [cfg|] eqn:Hp; [|discriminate].
    unfold bind, register, log, ret in H. cbn in H. injection H as <- _ _.
    cbn [on_before_agent_start on_agent_end].
    unfold configSchema_parse in Hp. destruct pluginConfig; try discriminate.
    destruct (string_default (lit "http://localhost:8001")
                             (prop (JObj props) (lit "baseUrl"))); [|discriminate].
    destruct (string_default (lit "aletheia") (prop (JObj props) (lit "bankId")));
      [|discriminate].
    destruct (string_optional (prop (JObj props) (lit "apiKey"))); [|discriminate].
    destruct (boolean_default true (prop (JObj props) (lit "autoRetain")))
      as [retain|] eqn:Hret; [|discriminate].
    destruct (boolean_default false (prop (JObj props) (lit "autoRecall")))
      as [recall|] eqn:Hrec; [|discriminate].
    injection Hp as <-. cbn [autoRecall autoRetain].
    split.
    + destruct (prop (JObj props) (lit "autoRecall")) as [| |b|x|s|items|props'];
        try discriminate; cbn in Hrec; injection Hrec as <-.
      * split; [congruence|discriminate].
      * destruct b; split; congruence.
    + destruct (prop (JObj props) (lit "autoRetain")) as [| |b|x|s|items|props'];
        try discriminate; cbn in Hret; injection Hret as <-.
      * split; [auto|discriminate].
      * destruct b; split; try congruence; auto.
        intros [H|H]; discriminate.
Qed.

(** With the empty configuration object only the auto-retain hook is
    registered; with no configuration at all [register] throws. *)
Lemma register_api_wiring_witness :
  (exists registered svc w',
     register_api Samples.env_ok MoreSamples.zod_error (JObj []) Samples.w0
     = (Normal (registered, svc), w')
     /\ on_before_agent_start registered = None
     /\ on_agent_end registered <> None)
  /\ register_api Samples.env_ok MoreSamples.zod_error JUndefined Samples.w0
     = (Throw (MoreSamples.zod_error JUndefined), Samples.w0).
Proof.
  split.
  - destruct (register_api_wiring Samples.env_ok MoreSamples.zod_error (JObj []) Samples.w0)
      as (_ & Hcfg & Hsw).
    destruct (Hcfg _ eq_refl) as (registered & Hrun & _ & _ & Hrecall & _).
    exists registered. do 2 eexists. split; [exact Hrun|].
    split; [exact Hrecall|].
    apply (Hsw _ _ _ Hrun). right. reflexivity.
  - destruct (register_api_wiring Samples.env_ok MoreSamples.zod_error JUndefined Samples.w0)
      as (H & _).
    exact (H eq_refl).
Defined.

(** ** The quota of the auto-retain hook *)

Lemma firstn_extract_app msgs more :
  5 <= length (extract msgs) ->
  firstn 5 (extract (msgs ++ more)) = firstn 5 (extract msgs).
Proof.
  intros H. rewrite !extract_candidates, candidates_app, firstn_app.
  rewrite extract_candidates in H.
  replace (5 - length (candidates msgs)) with 0 by lia.
  cbn [firstn]. apply app_nil_r.
Qed.

(** The quota of five goes to the oldest texts.  Once the messages of a
    successful turn hold five texts worth keeping, whatever messages come
    after them change nothing: the hook does with the longer conversation
    exactly what it does with the shorter one, in every world and
    whatever the store answers. *)
Theorem auto_retain_oldest_five (env : Env) (client : HindsightClient)
    (msgs more : list JsVal) (w : World) :
  5 <= length (extract msgs) ->
  agent_end env client (mkAgentEnd true (Some (msgs ++ more))) w
  = agent_end env client (mkAgentEnd true (Some msgs)) w.
Proof.
  intros H. pose proof (firstn_extract_app msgs more H) as Hfirst.
  destruct msgs as [|msg msgs]; [cbn in H; lia|].
  unfold agent_end. cbn [messages success app length Nat.eqb negb orb].
  unfold try_catch, bind. cbn [app] in Hfirst. rewrite Hfirst. reflexivity.
Qed.

(** The sample conversation holds seven texts worth keeping: a later
    message is never reached. *)
Lemma auto_retain_oldest_five_witness :
  agent_end Samples.env_ok Samples.client
    (mkAgentEnd true (Some (Samples.conversation
                            ++ [Samples.user_says "Forget what I said about Fridays"])))
    Samples.w0
  = agent_end Samples.env_ok Samples.client
      (mkAgentEnd true (Some Samples.conversation)) Samples.w0.
Proof.
  apply (auto_retain_oldest_five Samples.env_ok Samples.client Samples.conversation
           [Samples.user_says "Forget what I said about Fridays"] Samples.w0).
  vm_compute. lia.
Defined.

(** ** Replies of the declared type *)

